(** * Reliable UDP (rudp.c, rudp.h): a shallow embedding and its properties

    The development follows the C sources:
    - [rudp.h]  : protocol constants, the [SEQ_*] comparators, [struct rudp_hdr];
    - [rudp.c]  : packets, sessions, sockets, [receive_callback],
                  [timeout_callback], [send_packet] and the public API.

    Conventions of the embedding.
    - C integers are [Z]; unsigned 32-bit arithmetic is wrapped with [u32],
      the cast [(short)] is [short].
    - Heap objects are values.  A pointer that the code tests against [NULL]
      is an [option]; the nodes of a linked list are the elements of a [list]
      and a pointer to a node is its position in that list.
    - Dereferencing a null pointer, or reading a local variable that no
      assignment reached, ends the run with [Fault].
    - [malloc], [sendto] and [event_timeout] are taken to succeed.  An
      object stays readable after the code released it with [free]; releasing
      the same object twice, as [timeout_callback] does, ends the run with
      [Fault].
    - The two application callbacks are opaque: a call is recorded in the
      trace of the run.  What a callback does to the library (the demo
      receiver calls [rudp_close] from its data callback) is a further call
      of the process.
    - [printf]/[fprintf] logging is left out. *)

From Stdlib Require Import ZArith Lia Bool List.
From Stdlib Require Import Init.Byte Strings.Byte.
From stdpp Require Import base list.
Import ListNotations.

Local Open Scope Z_scope.

(** ** Machine integers *)

(** Value of an expression of type [u_int32_t]. *)
Definition u32 (z : Z) : Z := z mod 2 ^ 32.

(** Value of an expression of type [u_int16_t]. *)
Definition u16 (z : Z) : Z := z mod 2 ^ 16.

(** The cast [(short)]: the low 16 bits, read in two's complement. *)
Definition short (z : Z) : Z := (z + 2 ^ 15) mod 2 ^ 16 - 2 ^ 15.

(** The cast [(int)] of a 32-bit pattern. *)
Definition int32 (z : Z) : Z := (z + 2 ^ 31) mod 2 ^ 32 - 2 ^ 31.

(** ** rudp.h *)

Definition RUDP_VERSION : Z := 1.
Definition RUDP_MAXPKTSIZE : Z := 1000.
Definition RUDP_MAXRETRANS : Z := 5.
Definition RUDP_TIMEOUT : Z := 2000.
Definition RUDP_WINDOW : Z := 3.

Definition RUDP_DATA : Z := 1.
Definition RUDP_ACK : Z := 2.
Definition RUDP_SYN : Z := 4.
Definition RUDP_FIN : Z := 5.

(** [#define SEQ_LT(a,b) ((short)((a)-(b)) < 0)] and its three siblings.  At
    every use in rudp.c both operands have type [u_int32_t], so the
    subtraction wraps at 32 bits before the cast. *)
Definition SEQ_LT (a b : Z) : bool := short (u32 (a - b)) <? 0.
Definition SEQ_LEQ (a b : Z) : bool := short (u32 (a - b)) <=? 0.
Definition SEQ_GT (a b : Z) : bool := short (u32 (a - b)) >? 0.
Definition SEQ_GEQ (a b : Z) : bool := short (u32 (a - b)) >=? 0.

(** The comparators as the specification words them: the mathematical
    difference [a - b], truncated to a signed 16-bit integer. *)
Definition trunc_i16 (z : Z) : Z :=
  let r := z mod 65536 in if r <? 32768 then r else r - 65536.

Definition spec_seq_diff (a b : Z) : Z := trunc_i16 (a - b).

(** [struct rudp_hdr] (packed: 2 + 2 + 4 bytes). *)
Record rudp_hdr : Type := mk_hdr {
  version : Z;       (* u_int16_t *)
  type : Z;          (* u_int16_t *)
  seqno : Z          (* u_int32_t *)
}.

(** ** rudp.c: data structures *)

Definition DROP : Z := 0.

Inductive rudp_state_t : Type := SYN_SENT | OPENING | OPEN | FIN_SENT.

#[global] Instance rudp_state_eq_dec : EqDecision rudp_state_t.
Proof. solve_decision. Defined.

(** [struct rudp_packet]: header, [int payload_length], [char payload[1000]]. *)
Record rudp_packet : Type := mk_packet {
  header : rudp_hdr;
  payload_length : Z;
  payload : list byte
}.

(** A node of the outgoing data queue ([struct data]); [next] is the tail of
    the list that holds the node. *)
Record data : Type := mk_data {
  item : list byte;
  len : Z
}.

(** [struct sockaddr_in], the fields [compare_sockaddr] reads. *)
Record sockaddr_in : Type := mk_sockaddr {
  sin_family : Z;
  sin_addr : Z;
  sin_port : Z
}.

(** Address of a heap-allocated [struct timeoutargs]. *)
Definition ptr : Type := nat.

(** A registered callback (a non-null function pointer). *)
Definition fnptr : Type := nat.

Record sender_session : Type := mk_sender {
  snd_status : rudp_state_t;
  snd_seqno : Z;
  sliding_window : list (option rudp_packet);
  retransmission_attempts : list Z;
  data_queue : list data;
  snd_session_finished : bool;
  syn_timeout_arg : option ptr;
  fin_timeout_arg : option ptr;
  data_timeout_arg : list (option ptr);
  syn_retransmit_attempts : Z;
  fin_retransmit_attempts : Z
}.

Record receiver_session : Type := mk_receiver {
  rcv_status : rudp_state_t;
  expected_seqno : Z;
  rcv_session_finished : bool
}.

Record session : Type := mk_session {
  sender : option sender_session;
  receiver : option receiver_session;
  address : sockaddr_in
}.

Record rudp_socket_list : Type := mk_socket {
  rsock : Z;
  close_requested : bool;
  recv_handler : option fnptr;
  handler : option fnptr;
  sessions_list_head : list session
}.

Record timeoutargs : Type := mk_timeoutargs {
  fd : Z;
  packet : rudp_packet;
  recipient : sockaddr_in
}.

Inductive rudp_event_t : Type := RUDP_EVENT_TIMEOUT | RUDP_EVENT_CLOSED.

(** ** Object representation of a packet

    [send_packet] hands [sendto] the address of a [struct rudp_packet] and
    [sizeof(struct rudp_packet)]; [receive_callback] copies the received bytes
    over a [struct rudp_packet].  Both therefore use the in-memory image of
    the structure, laid out in the byte order of the host. *)

Inductive byte_order : Type := LittleEndian | BigEndian.

Definition byte_of_Z (z : Z) : byte :=
  match Byte.of_N (Z.to_N (z mod 256)) with
  | Some b => b
  | None => x00
  end.

Definition Z_of_byte (b : byte) : Z := Z.of_N (Byte.to_N b).

Fixpoint le_bytes (n : nat) (z : Z) : list byte :=
  match n with
  | O => []
  | S k => byte_of_Z z :: le_bytes k (z / 256)
  end.

Fixpoint le_value (bs : list byte) : Z :=
  match bs with
  | [] => 0
  | b :: rest => Z_of_byte b + 256 * le_value rest
  end.

(** An [n]-byte integer field stored by the host, and read back. *)
Definition store (host : byte_order) (n : nat) (z : Z) : list byte :=
  match host with
  | LittleEndian => le_bytes n z
  | BigEndian => rev (le_bytes n z)
  end.

Definition load (host : byte_order) (bs : list byte) : Z :=
  match host with
  | LittleEndian => le_value bs
  | BigEndian => le_value (rev bs)
  end.

(** The same field as [htons]/[htonl] would put it on the wire. *)
Definition network_order (n : nat) (z : Z) : list byte := store BigEndian n z.

(** A [char] array of exactly [n] bytes holding [bs]. *)
Definition char_array (n : nat) (bs : list byte) : list byte :=
  firstn n (bs ++ repeat x00 n).

Definition sizeof_rudp_hdr : nat := 8.
Definition sizeof_rudp_packet : nat := 1012.

Definition hdr_bytes (host : byte_order) (h : rudp_hdr) : list byte :=
  store host 2 (version h) ++ store host 2 (type h) ++ store host 4 (seqno h).

Definition packet_bytes (host : byte_order) (p : rudp_packet) : list byte :=
  hdr_bytes host (header p)
  ++ store host 4 (payload_length p)
  ++ char_array (Z.to_nat RUDP_MAXPKTSIZE) (payload p).

Definition bytes_at (off n : nat) (bs : list byte) : list byte :=
  firstn n (skipn off bs).

(** Reading a [struct rudp_packet] out of a buffer of [sizeof_rudp_packet]
    bytes (the [memcpy] of receive_callback followed by field accesses). *)
Definition packet_of_bytes (host : byte_order) (bs : list byte) : rudp_packet :=
  {| header := {| version := load host (bytes_at 0 2 bs);
                  type := load host (bytes_at 2 2 bs);
                  seqno := load host (bytes_at 4 4 bs) |};
     payload_length := int32 (load host (bytes_at 8 4 bs));
     payload := bytes_at 12 (Z.to_nat RUDP_MAXPKTSIZE) bs |}.

(** [memcpy(dst, src, n)] for [n] bytes available in [src]. *)
Definition memcpy (dst src : list byte) (n : nat) : list byte :=
  firstn n src ++ skipn n dst.

(** [create_rudp_packet]: the payload buffer is cleared, then the first
    [len] bytes of [payload] are copied in when [payload] is not NULL. *)
Definition create_rudp_packet (type seqno len : Z) (payload : option (list byte))
  : rudp_packet :=
  let cleared := repeat x00 (Z.to_nat RUDP_MAXPKTSIZE) in
  {| header := {| version := RUDP_VERSION; type := type; seqno := seqno |};
     payload_length := len;
     payload := match payload with
                | Some src => memcpy cleared src (Z.to_nat len)
                | None => cleared
                end |}.

(** [compare_sockaddr]: 1 when family, address and port agree, else 0.
    [inet_ntoa] is injective, so comparing the dotted strings compares the
    addresses. *)
Definition compare_sockaddr (s1 s2 : sockaddr_in) : Z :=
  if (sin_family s1 =? sin_family s2)
     && (sin_addr s1 =? sin_addr s2)
     && (sin_port s1 =? sin_port s2)
  then 1 else 0.

(** ** The process state *)

(** What the engine does to the outside: datagrams handed to [sendto], calls
    of the two application callbacks, and [close] of a descriptor.  A
    [Sendto fd p to] stands for
    [sendto(fd, p, sizeof(struct rudp_packet), 0, to, ...)]: the datagram is
    [packet_bytes host p]. *)
Inductive io_event : Type :=
| Sendto (fd : Z) (p : rudp_packet) (to : sockaddr_in)
| RecvUpcall (h : fnptr) (rsocket : Z) (from : sockaddr_in)
             (buf : list byte) (len : Z)
| EventUpcall (h : fnptr) (rsocket : Z) (ev : rudp_event_t) (peer : sockaddr_in)
| CloseFd (fd : Z).

(** The two globals of rudp.c, the registrations held by the event loop, the
    allocator, the pseudo-random generator and the trace of outside effects. *)
Record world : Type := mk_world {
  rng_seeded : bool;
  socket_list_head : list rudp_socket_list;
  timeouts : list (ptr * timeoutargs);
  readable : list Z;
  next_alloc : ptr;
  rand_seq : nat -> Z;
  rand_calls : nat;
  trace : list io_event
}.

(** *** Field updates *)

Definition set_snd_status (v : rudp_state_t) (s : sender_session) :=
  mk_sender v (snd_seqno s) (sliding_window s) (retransmission_attempts s)
    (data_queue s) (snd_session_finished s) (syn_timeout_arg s)
    (fin_timeout_arg s) (data_timeout_arg s) (syn_retransmit_attempts s)
    (fin_retransmit_attempts s).

Definition set_snd_seqno (v : Z) (s : sender_session) :=
  mk_sender (snd_status s) v (sliding_window s) (retransmission_attempts s)
    (data_queue s) (snd_session_finished s) (syn_timeout_arg s)
    (fin_timeout_arg s) (data_timeout_arg s) (syn_retransmit_attempts s)
    (fin_retransmit_attempts s).

Definition set_sliding_window (v : list (option rudp_packet)) (s : sender_session) :=
  mk_sender (snd_status s) (snd_seqno s) v (retransmission_attempts s)
    (data_queue s) (snd_session_finished s) (syn_timeout_arg s)
    (fin_timeout_arg s) (data_timeout_arg s) (syn_retransmit_attempts s)
    (fin_retransmit_attempts s).

Definition set_retransmission_attempts (v : list Z) (s : sender_session) :=
  mk_sender (snd_status s) (snd_seqno s) (sliding_window s) v
    (data_queue s) (snd_session_finished s) (syn_timeout_arg s)
    (fin_timeout_arg s) (data_timeout_arg s) (syn_retransmit_attempts s)
    (fin_retransmit_attempts s).

Definition set_data_queue (v : list data) (s : sender_session) :=
  mk_sender (snd_status s) (snd_seqno s) (sliding_window s)
    (retransmission_attempts s) v (snd_session_finished s) (syn_timeout_arg s)
    (fin_timeout_arg s) (data_timeout_arg s) (syn_retransmit_attempts s)
    (fin_retransmit_attempts s).

Definition set_snd_session_finished (v : bool) (s : sender_session) :=
  mk_sender (snd_status s) (snd_seqno s) (sliding_window s)
    (retransmission_attempts s) (data_queue s) v (syn_timeout_arg s)
    (fin_timeout_arg s) (data_timeout_arg s) (syn_retransmit_attempts s)
    (fin_retransmit_attempts s).

Definition set_syn_timeout_arg (v : option ptr) (s : sender_session) :=
  mk_sender (snd_status s) (snd_seqno s) (sliding_window s)
    (retransmission_attempts s) (data_queue s) (snd_session_finished s) v
    (fin_timeout_arg s) (data_timeout_arg s) (syn_retransmit_attempts s)
    (fin_retransmit_attempts s).

Definition set_fin_timeout_arg (v : option ptr) (s : sender_session) :=
  mk_sender (snd_status s) (snd_seqno s) (sliding_window s)
    (retransmission_attempts s) (data_queue s) (snd_session_finished s)
    (syn_timeout_arg s) v (data_timeout_arg s) (syn_retransmit_attempts s)
    (fin_retransmit_attempts s).

Definition set_data_timeout_arg (v : list (option ptr)) (s : sender_session) :=
  mk_sender (snd_status s) (snd_seqno s) (sliding_window s)
    (retransmission_attempts s) (data_queue s) (snd_session_finished s)
    (syn_timeout_arg s) (fin_timeout_arg s) v (syn_retransmit_attempts s)
    (fin_retransmit_attempts s).

Definition set_syn_retransmit_attempts (v : Z) (s : sender_session) :=
  mk_sender (snd_status s) (snd_seqno s) (sliding_window s)
    (retransmission_attempts s) (data_queue s) (snd_session_finished s)
    (syn_timeout_arg s) (fin_timeout_arg s) (data_timeout_arg s) v
    (fin_retransmit_attempts s).

Definition set_fin_retransmit_attempts (v : Z) (s : sender_session) :=
  mk_sender (snd_status s) (snd_seqno s) (sliding_window s)
    (retransmission_attempts s) (data_queue s) (snd_session_finished s)
    (syn_timeout_arg s) (fin_timeout_arg s) (data_timeout_arg s)
    (syn_retransmit_attempts s) v.

Definition set_rcv_status (v : rudp_state_t) (r : receiver_session) :=
  mk_receiver v (expected_seqno r) (rcv_session_finished r).

Definition set_expected_seqno (v : Z) (r : receiver_session) :=
  mk_receiver (rcv_status r) v (rcv_session_finished r).

Definition set_rcv_session_finished (v : bool) (r : receiver_session) :=
  mk_receiver (rcv_status r) (expected_seqno r) v.

Definition set_sender (v : option sender_session) (s : session) :=
  mk_session v (receiver s) (address s).

Definition set_receiver (v : option receiver_session) (s : session) :=
  mk_session (sender s) v (address s).

Definition set_close_requested (v : bool) (k : rudp_socket_list) :=
  mk_socket (rsock k) v (recv_handler k) (handler k) (sessions_list_head k).

Definition set_recv_handler (v : option fnptr) (k : rudp_socket_list) :=
  mk_socket (rsock k) (close_requested k) v (handler k) (sessions_list_head k).

Definition set_handler (v : option fnptr) (k : rudp_socket_list) :=
  mk_socket (rsock k) (close_requested k) (recv_handler k) v (sessions_list_head k).

Definition set_sessions_list_head (v : list session) (k : rudp_socket_list) :=
  mk_socket (rsock k) (close_requested k) (recv_handler k) (handler k) v.

Definition set_rng_seeded (v : bool) (w : world) :=
  mk_world v (socket_list_head w) (timeouts w) (readable w) (next_alloc w)
    (rand_seq w) (rand_calls w) (trace w).

Definition set_socket_list_head (v : list rudp_socket_list) (w : world) :=
  mk_world (rng_seeded w) v (timeouts w) (readable w) (next_alloc w)
    (rand_seq w) (rand_calls w) (trace w).

Definition set_timeouts (v : list (ptr * timeoutargs)) (w : world) :=
  mk_world (rng_seeded w) (socket_list_head w) v (readable w) (next_alloc w)
    (rand_seq w) (rand_calls w) (trace w).

Definition set_readable (v : list Z) (w : world) :=
  mk_world (rng_seeded w) (socket_list_head w) (timeouts w) v (next_alloc w)
    (rand_seq w) (rand_calls w) (trace w).

Definition set_next_alloc (v : ptr) (w : world) :=
  mk_world (rng_seeded w) (socket_list_head w) (timeouts w) (readable w) v
    (rand_seq w) (rand_calls w) (trace w).

Definition set_rand_calls (v : nat) (w : world) :=
  mk_world (rng_seeded w) (socket_list_head w) (timeouts w) (readable w)
    (next_alloc w) (rand_seq w) v (trace w).

Definition set_trace (v : list io_event) (w : world) :=
  mk_world (rng_seeded w) (socket_list_head w) (timeouts w) (readable w)
    (next_alloc w) (rand_seq w) (rand_calls w) v.

(** *** Pointers into the lists

    [curr_socket] is a position [i] in [socket_list_head]; [curr_session] is
    a position [j] in that socket's [sessions_list_head]. *)

Definition socket_at (i : nat) (w : world) : option rudp_socket_list :=
  socket_list_head w !! i.

Definition session_at (i j : nat) (w : world) : option session :=
  match socket_at i w with
  | Some k => sessions_list_head k !! j
  | None => None
  end.

Definition upd_socket (i : nat) (f : rudp_socket_list -> rudp_socket_list)
  (w : world) : world :=
  set_socket_list_head (alter f i (socket_list_head w)) w.

Definition upd_session (i j : nat) (f : session -> session) (w : world) : world :=
  upd_socket i
    (fun k => set_sessions_list_head (alter f j (sessions_list_head k)) k) w.

Definition upd_sender (i j : nat) (f : sender_session -> sender_session)
  (w : world) : world :=
  upd_session i j (fun s => set_sender (f <$> sender s) s) w.

Definition upd_receiver (i j : nat) (f : receiver_session -> receiver_session)
  (w : world) : world :=
  upd_session i j (fun s => set_receiver (f <$> receiver s) s) w.

(** *** Runs that may fault *)

Inductive outcome (A : Type) : Type :=
| Done (a : A) (w : world)
| Fault (w : world).
Arguments Done {A} a w.
Arguments Fault {A} w.

Definition M (A : Type) : Type := world -> outcome A.

Definition ret {A} (a : A) : M A := fun w => Done a w.

Definition bind {A B} (m : M A) (f : A -> M B) : M B :=
  fun w => match m w with
           | Done a w' => f a w'
           | Fault w' => Fault w'
           end.

Definition fault {A} : M A := fun w => Fault w.

Definition gets {A} (f : world -> A) : M A := fun w => Done (f w) w.

Definition modify (f : world -> world) : M unit := fun w => Done tt (f w).

Declare Scope rudp_scope.
Delimit Scope rudp_scope with rudp.
Notation "x <- c1 ;; c2" := (bind c1 (fun x => c2))
  (at level 100, c1 at next level, right associativity) : rudp_scope.
Notation "c1 ;; c2" := (bind c1 (fun _ => c2))
  (at level 100, right associativity) : rudp_scope.
Local Open Scope rudp_scope.

(** The world an outcome ends in. *)
Definition final {A} (o : outcome A) : world :=
  match o with
  | Done _ w => w
  | Fault w => w
  end.

Definition emit (e : io_event) : M unit :=
  modify (fun w => set_trace (trace w ++ [e]) w).

(** [p->...] for a pointer that may be NULL. *)
Definition deref {A} (p : option A) : M A :=
  match p with
  | Some a => ret a
  | None => fault
  end.

Definition the_socket (i : nat) : M rudp_socket_list :=
  k <- gets (socket_at i) ;; deref k.

Definition the_session (i j : nat) : M session :=
  s <- gets (session_at i j) ;; deref s.

(** [curr_session->sender->...] and [curr_session->receiver->...]. *)
Definition the_sender (i j : nat) : M sender_session :=
  s <- the_session i j ;; deref (sender s).

Definition the_receiver (i j : nat) : M receiver_session :=
  s <- the_session i j ;; deref (receiver s).

(** [rand()]. *)
Definition rand : M Z :=
  r <- gets (fun w => rand_seq w (rand_calls w)) ;;
  modify (fun w => set_rand_calls (S (rand_calls w)) w) ;;
  ret r.

(** [malloc(sizeof(struct timeoutargs))]: a fresh address. *)
Definition malloc_timeoutargs : M ptr :=
  t <- gets next_alloc ;;
  modify (fun w => set_next_alloc (S t) w) ;;
  ret t.

(** ** The event loop (event.h) *)

(** Modelled from the spec: event.c is not part of the sources; event.h and
    the reactor interface of the specification give one-shot timers
    registered with a callback argument and cancelled by that argument, and
    descriptors registered for a read callback.  Only [timeout_callback] is
    ever registered as a timer, and only [receive_callback] as a reader. *)
Definition event_timeout (t : ptr) (a : timeoutargs) : M unit :=
  modify (fun w => set_timeouts (timeouts w ++ [(t, a)]) w).

(** Modelled from the spec: [event_timeout_delete(timeout_callback, arg)]
    cancels the timer registered with [arg]; a NULL [arg] matches none. *)
Definition event_timeout_delete (arg : option ptr) : M unit :=
  match arg with
  | Some t =>
      modify (fun w =>
        set_timeouts (List.filter (fun e => negb (Nat.eqb (fst e) t)) (timeouts w)) w)
  | None => ret tt
  end.

(** Modelled from the spec: [event_fd(fd, receive_callback, ...)] registers
    the descriptor for the read callback. *)
Definition event_fd (sockfd : Z) : M unit :=
  modify (fun w => set_readable (readable w ++ [sockfd]) w).

(** Modelled from the spec: [event_fd_delete(receive_callback, fd)] removes
    the registration of the descriptor. *)
Definition event_fd_delete (sockfd : Z) : M unit :=
  modify (fun w =>
    set_readable (List.filter (fun f => negb (f =? sockfd)) (readable w)) w).

(** ** rudp.c: searching the lists *)

(** [while(curr_socket != NULL) { if(curr_socket->rsock == rsocket) break;
    curr_socket = curr_socket->next; }]: where the loop stops, [None] for
    NULL. *)
Fixpoint seek_socket (rsocket : Z) (l : list rudp_socket_list) : option nat :=
  match l with
  | [] => None
  | k :: rest =>
      if rsock k =? rsocket then Some O else S <$> seek_socket rsocket rest
  end.

(** [while(curr_socket->next != NULL) { if(curr_socket->rsock == rsocket)
    break; curr_socket = curr_socket->next; }]: the loop of [rudp_close] and
    of the two handler registrations.  It stops on the first match or on the
    last node; on an empty list the first test reads through NULL. *)
Fixpoint seek_socket_or_last (rsocket : Z) (l : list rudp_socket_list)
  : option nat :=
  match l with
  | [] => None
  | k :: rest =>
      match rest with
      | [] => Some O
      | _ :: _ =>
          if rsock k =? rsocket then Some O
          else S <$> seek_socket_or_last rsocket rest
      end
  end.

(** The session loops: first node whose address [compare_sockaddr] accepts. *)
Fixpoint seek_session (addr : sockaddr_in) (l : list session) : option nat :=
  match l with
  | [] => None
  | s :: rest =>
      if compare_sockaddr (address s) addr =? 1 then Some O
      else S <$> seek_session addr rest
  end.

(** ** The sliding window *)

Definition window_slots : list nat := seq 0 (Z.to_nat RUDP_WINDOW).

(** [a[i]] for one of the three per-slot arrays. *)
Definition slot {A} (a : list (option A)) (i : nat) : option A := nth i a None.

Definition last_slot : nat := Z.to_nat (RUDP_WINDOW - 1).

(** [for(i = RUDP_WINDOW-1; i >= 0; i--) if(window[i] == NULL) index = i;] *)
Definition first_unused_slot (win : list (option rudp_packet)) : option nat :=
  fold_left
    (fun index i => match slot win i with
                    | None => Some i
                    | Some _ => index
                    end)
    (rev window_slots) None.

(** [for(i = 0; i < RUDP_WINDOW; i++)
      if(window[i] != NULL && window[i]->header.seqno == s) index = i;] *)
Definition matching_slot (win : list (option rudp_packet)) (s : Z) : option nat :=
  fold_left
    (fun index i => match slot win i with
                    | Some p => if seqno (header p) =? s then Some i else index
                    | None => index
                    end)
    window_slots None.

(** [for(i = 0; i < RUDP_WINDOW; i++) if(window[i] == NULL) { ...; break; }]
    of rudp_sendto: the slot the body runs for. *)
Fixpoint first_free_from (i : nat) (win : list (option rudp_packet)) : option nat :=
  match win with
  | [] => None
  | None :: _ => Some i
  | Some _ :: rest => first_free_from (S i) rest
  end.

Definition first_free_slot (win : list (option rudp_packet)) : option nat :=
  first_free_from 0 (firstn (Z.to_nat RUDP_WINDOW) win).

(** The shift of one array on a correct ACK:
    [if(RUDP_WINDOW == 1) a[0] = null;
     else for(i = 0; i < RUDP_WINDOW - 1; i++) {
       a[i] = a[i+1]; if(i == RUDP_WINDOW-2) a[i+1] = null; }] *)
Definition shift_left {A} (null : A) (a : list A) : list A :=
  if RUDP_WINDOW =? 1 then <[O := null]> a
  else
    fold_left
      (fun a i =>
         let a' := <[i := nth (S i) a null]> a in
         if Nat.eqb i (Z.to_nat (RUDP_WINDOW - 2)) then <[S i := null]> a' else a')
      (seq 0 (Z.to_nat (RUDP_WINDOW - 1))) a.

(** The three arrays of a sender half after the shift. *)
Definition shift_window (sd : sender_session) : sender_session :=
  set_data_timeout_arg (shift_left None (data_timeout_arg sd))
    (set_retransmission_attempts (shift_left 0 (retransmission_attempts sd))
       (set_sliding_window (shift_left None (sliding_window sd)) sd)).

(** Putting a fresh DATA packet into slot [index] and taking it off the
    queue: [seqno += 1; sliding_window[index] = datap;
    retransmission_attempts[index] = 0; data_queue = data_queue->next]. *)
Definition place_packet (index : nat) (datap : rudp_packet) (rest : list data)
  (sd : sender_session) : sender_session :=
  set_data_queue rest
    (set_retransmission_attempts (<[index := 0]> (retransmission_attempts sd))
       (set_sliding_window (<[index := Some datap]> (sliding_window sd))
          (set_snd_seqno (u32 (snd_seqno sd + 1)) sd))).

(** ** Creating sessions *)

Definition new_sender_session (seqno : Z) (data_queue : list data) : sender_session :=
  {| snd_status := SYN_SENT;
     snd_seqno := seqno;
     sliding_window := repeat None (Z.to_nat RUDP_WINDOW);
     retransmission_attempts := repeat 0 (Z.to_nat RUDP_WINDOW);
     data_queue := data_queue;
     snd_session_finished := false;
     syn_timeout_arg := None;      (* left unset by the code *)
     fin_timeout_arg := None;      (* left unset by the code *)
     data_timeout_arg := repeat None (Z.to_nat RUDP_WINDOW);
     syn_retransmit_attempts := 0;
     fin_retransmit_attempts := 0 |}.

(** [create_sender_session]: a new session node with a sender half only,
    appended to the socket's list. *)
Definition create_sender_session (i : nat) (seqno : Z) (to : sockaddr_in)
  (data_queue : list data) : M unit :=
  the_socket i ;;
  modify (upd_socket i (fun k =>
    set_sessions_list_head
      (sessions_list_head k
       ++ [ {| sender := Some (new_sender_session seqno data_queue);
               receiver := None;
               address := to |} ]) k)).

Definition new_receiver_session (seqno : Z) : receiver_session :=
  {| rcv_status := OPENING; expected_seqno := seqno; rcv_session_finished := false |}.

(** [create_receiver_session]: a new session node with a receiver half only,
    appended to the socket's list. *)
Definition create_receiver_session (i : nat) (seqno : Z) (addr : sockaddr_in)
  : M unit :=
  the_socket i ;;
  modify (upd_socket i (fun k =>
    set_sessions_list_head
      (sessions_list_head k
       ++ [ {| sender := None;
               receiver := Some (new_receiver_session seqno);
               address := addr |} ]) k)).

(** ** send_packet *)

(** Where a new timer argument is remembered in the session found for the
    recipient. *)
Definition remember_timeout (i j : nat) (t : ptr) (p : rudp_packet) : M unit :=
  if type (header p) =? RUDP_SYN then
    the_sender i j ;;
    modify (upd_sender i j (set_syn_timeout_arg (Some t)))
  else if type (header p) =? RUDP_FIN then
    the_sender i j ;;
    modify (upd_sender i j (set_fin_timeout_arg (Some t)))
  else if type (header p) =? RUDP_DATA then
    sd <- the_sender i j ;;
    index <- deref (matching_slot (sliding_window sd) (seqno (header p))) ;;
    modify (upd_sender i j
              (set_data_timeout_arg (<[index := Some t]> (data_timeout_arg sd))))
  else ret tt.

(** [send_packet].  [DROP] is 0, so the datagram always goes to [sendto].
    Unless the packet is an ACK, a copy of it is registered with a new
    timer, and the session found for the recipient remembers the timer
    argument. *)
Definition send_packet (is_ack : bool) (rsocket : Z) (p : rudp_packet)
  (recipient : sockaddr_in) : M Z :=
  emit (Sendto rsocket p recipient) ;;
  if is_ack then ret 0
  else
    t <- malloc_timeoutargs ;;
    let timeargs := {| fd := rsocket; packet := p; recipient := recipient |} in
    sl <- gets socket_list_head ;;
    i <- deref (seek_socket (fd timeargs) sl) ;;
    k <- the_socket i ;;
    match seek_session recipient (sessions_list_head k) with
    | Some j => remember_timeout i j t p
    | None => ret tt
    end ;;
    event_timeout t timeargs ;;
    ret 0.

(** ** receive_callback *)

(** [p = create_rudp_packet(RUDP_ACK, seqno, 0, NULL);
     send_packet(true, file, p, &sender); free(p);] *)
Definition send_ack (file seqno : Z) (to : sockaddr_in) : M unit :=
  send_packet true file (create_rudp_packet RUDP_ACK seqno 0 None) to ;;
  ret tt.

(** A SYN from a peer without a session: a receiver-only session expecting
    [seqno + 1], and an ACK for it. *)
Definition syn_from_new_peer (file : Z) (i : nat) (rudpheader : rudp_hdr)
  (from : sockaddr_in) : M unit :=
  let seqno := u32 (seqno rudpheader + 1) in
  create_receiver_session i seqno from ;;
  send_ack file seqno from.

(** A SYN for an existing session: a fresh receiver half unless one is
    already past OPENING. *)
Definition syn_for_session (file : Z) (i j : nat) (rudpheader : rudp_hdr)
  (from : sockaddr_in) : M unit :=
  s <- the_session i j ;;
  let restart := match receiver s with
                 | None => true
                 | Some r => bool_decide (rcv_status r = OPENING)
                 end in
  if restart then
    let r := new_receiver_session (u32 (seqno rudpheader + 1)) in
    modify (upd_session i j (set_receiver (Some r))) ;;
    send_ack file (expected_seqno r) from
  else ret tt.

(** The loop run when the SYN is acknowledged:
    [while(data_queue != NULL) { if(sliding_window[RUDP_WINDOW-1] != NULL)
    break; else {...} }], numbering the packets with the local [syn_sqn]. *)
Fixpoint drain_after_syn (file : Z) (from : sockaddr_in) (i j : nat)
  (syn_sqn : Z) (queue : list data) : M unit :=
  match queue with
  | [] => ret tt
  | d :: rest =>
      sd <- the_sender i j ;;
      match slot (sliding_window sd) last_slot with
      | Some _ => ret tt
      | None =>
          index <- deref (first_unused_slot (sliding_window sd)) ;;
          let syn_sqn := u32 (syn_sqn + 1) in
          let datap := create_rudp_packet RUDP_DATA syn_sqn (len d) (Some (item d)) in
          modify (upd_sender i j (place_packet index datap rest)) ;;
          send_packet false file datap from ;;
          drain_after_syn file from i j syn_sqn rest
      end
  end.

(** The same loop after a DATA acknowledgement, numbering the packets with
    the session's own [seqno]. *)
Fixpoint refill_window (file : Z) (from : sockaddr_in) (i j : nat)
  (queue : list data) : M unit :=
  match queue with
  | [] => ret tt
  | d :: rest =>
      sd <- the_sender i j ;;
      match slot (sliding_window sd) last_slot with
      | Some _ => ret tt
      | None =>
          index <- deref (first_unused_slot (sliding_window sd)) ;;
          let seqno := u32 (snd_seqno sd + 1) in
          let datap := create_rudp_packet RUDP_DATA seqno (len d) (Some (item d)) in
          modify (upd_sender i j (place_packet index datap rest)) ;;
          send_packet false file datap from ;;
          refill_window file from i j rest
      end
  end.

(** The pass over all sessions made after a DATA acknowledgement once close
    was requested: every sender half that is OPEN with nothing queued and
    nothing in flight sends its FIN. *)
Fixpoint send_fins (file : Z) (i : nat) (js : list nat) : M unit :=
  match js with
  | [] => ret tt
  | j :: rest =>
      s <- the_session i j ;;
      sd <- deref (sender s) ;;
      (if negb (snd_session_finished sd) then
         match data_queue sd, slot (sliding_window sd) O with
         | [], None =>
             if bool_decide (snd_status sd = OPEN) then
               let seqno := u32 (snd_seqno sd + 1) in
               modify (upd_sender i j (set_snd_seqno seqno)) ;;
               send_packet false file (create_rudp_packet RUDP_FIN seqno 0 None)
                 (address s) ;;
               modify (upd_sender i j (set_snd_status FIN_SENT))
             else ret tt
         | _, _ => ret tt
         end
       else ret tt) ;;
      send_fins file i rest
  end.

(** The walk that decides whether the socket can be closed: [all_done] after
    the loop, [None] when a session without a sender half is reached. *)
Fixpoint sessions_all_done (l : list session) (all_done : bool) : option bool :=
  match l with
  | [] => Some all_done
  | s :: rest =>
      match sender s with
      | None => None
      | Some sd =>
          let all_done :=
            if negb (snd_session_finished sd) then false
            else match receiver s with
                 | Some r => if negb (rcv_session_finished r) then false else all_done
                 | None => all_done
                 end in
          sessions_all_done rest all_done
      end
  end.

(** [if(curr_socket->close_requested) { ... if(all_done) { if(handler != NULL)
    { handler(file, RUDP_EVENT_CLOSED, &sender); event_fd_delete(...);
    close(file); } } }] *)
Definition close_if_done (file : Z) (from : sockaddr_in) (i : nat) : M unit :=
  k <- the_socket i ;;
  if close_requested k then
    all_done <- deref (sessions_all_done (sessions_list_head k) true) ;;
    if (all_done : bool) then
      match handler k with
      | Some h =>
          emit (EventUpcall h file RUDP_EVENT_CLOSED from) ;;
          event_fd_delete file ;;
          emit (CloseFd file)
      | None => ret tt
      end
    else ret tt
  else ret tt.

(** An ACK for the session at [j]. *)
Definition ack_for_session (file : Z) (i j : nat) (rudpheader : rudp_hdr)
  (from : sockaddr_in) : M unit :=
  let ack_sqn := seqno rudpheader in
  sd <- the_sender i j ;;
  match snd_status sd with
  | SYN_SENT =>
      let syn_sqn := snd_seqno sd in
      if u32 (ack_sqn - 1) =? syn_sqn then
        event_timeout_delete (syn_timeout_arg sd) ;;
        deref (syn_timeout_arg sd) ;;
        modify (upd_sender i j (set_snd_status OPEN)) ;;
        drain_after_syn file from i j syn_sqn (data_queue sd)
      else ret tt
  | OPEN =>
      match slot (sliding_window sd) O with
      | Some head =>
          if seqno (header head) =? u32 (seqno rudpheader - 1) then
            event_timeout_delete (slot (data_timeout_arg sd) O) ;;
            deref (slot (data_timeout_arg sd) O) ;;
            modify (upd_sender i j shift_window) ;;
            refill_window file from i j (data_queue sd) ;;
            k <- the_socket i ;;
            if close_requested k then
              send_fins file i (seq 0 (length (sessions_list_head k)))
            else ret tt
          else ret tt
      | None => ret tt
      end
  | FIN_SENT =>
      if u32 (snd_seqno sd + 1) =? seqno rudpheader then
        event_timeout_delete (fin_timeout_arg sd) ;;
        deref (fin_timeout_arg sd) ;;
        modify (upd_sender i j (set_snd_session_finished true)) ;;
        close_if_done file from i
      else ret tt
  | OPENING => ret tt
  end.

(** A DATA packet for the session at [j]. *)
Definition data_for_session (file : Z) (i j : nat) (received_packet : rudp_packet)
  (from : sockaddr_in) : M unit :=
  let rudpheader := header received_packet in
  r <- the_receiver i j ;;
  (if bool_decide (rcv_status r = OPENING) then
     if seqno rudpheader =? expected_seqno r then
       modify (upd_receiver i j (set_rcv_status OPEN))
     else ret tt
   else ret tt) ;;
  if seqno rudpheader =? expected_seqno r then
    let seqno := u32 (seqno rudpheader + 1) in
    modify (upd_receiver i j (set_expected_seqno seqno)) ;;
    send_ack file seqno from ;;
    k <- the_socket i ;;
    match recv_handler k with
    | Some h =>
        emit (RecvUpcall h file from (payload received_packet)
                (payload_length received_packet))
    | None => ret tt
    end
  else if SEQ_GEQ (seqno rudpheader) (u32 (expected_seqno r - RUDP_WINDOW))
          && SEQ_LT (seqno rudpheader) (expected_seqno r) then
    send_ack file (u32 (seqno rudpheader + 1)) from
  else ret tt.

(** A FIN for the session at [j]. *)
Definition fin_for_session (file : Z) (i j : nat) (rudpheader : rudp_hdr)
  (from : sockaddr_in) : M unit :=
  r <- the_receiver i j ;;
  if bool_decide (rcv_status r = OPEN) then
    if seqno rudpheader =? expected_seqno r then
      send_ack file (u32 (expected_seqno r + 1)) from ;;
      modify (upd_receiver i j (set_rcv_session_finished true)) ;;
      close_if_done file from i
    else ret tt
  else ret tt.

(** The body of [receive_callback] from the socket search on, for the packet
    [received_packet] read from the peer [from]. *)
Definition dispatch_packet (file : Z) (received_packet : rudp_packet)
  (from : sockaddr_in) : M Z :=
  let rudpheader := header received_packet in
  sl <- gets socket_list_head ;;
  match sl with
  | [] => ret (-1)
  | _ :: _ =>
      i <- deref (seek_socket file sl) ;;
      k <- the_socket i ;;
      match sessions_list_head k with
      | [] =>
          if type rudpheader =? RUDP_SYN
          then syn_from_new_peer file i rudpheader from
          else ret tt
      | _ :: _ =>
          match seek_session from (sessions_list_head k) with
          | None =>
              if type rudpheader =? RUDP_SYN
              then syn_from_new_peer file i rudpheader from
              else ret tt
          | Some j =>
              (if type rudpheader =? RUDP_SYN
               then syn_for_session file i j rudpheader from
               else ret tt) ;;
              if type rudpheader =? RUDP_ACK
              then ack_for_session file i j rudpheader from
              else if type rudpheader =? RUDP_DATA
              then data_for_session file i j received_packet from
              else if type rudpheader =? RUDP_FIN
              then fin_for_session file i j rudpheader from
              else ret tt
          end
      end ;;
      ret 0
  end.

(** [recvfrom(file, &buf, sizeof(struct rudp_packet), ...)]: the datagram,
    cut to the size of the buffer, overwrites the start of [buf]; the rest
    of [buf] keeps what the stack held. *)
Definition recvfrom (buf datagram : list byte) : list byte :=
  let got := firstn sizeof_rudp_packet datagram in
  got ++ skipn (length got) buf.

(** [receive_callback]: one datagram [datagram] from [from] is read into the
    local buffer (whose prior content is [stack]) and dispatched. *)
Definition receive_callback (host : byte_order) (stack : list byte) (file : Z)
  (datagram : list byte) (from : sockaddr_in) : M Z :=
  dispatch_packet file (packet_of_bytes host (recvfrom stack datagram)) from.

(** ** The public API *)

(** [rudp_socket]: [sockfd] is the descriptor [socket()] returned; [bind]
    succeeds.  The new socket goes to the end of the global list and its
    descriptor is registered with the event loop. *)
Definition rudp_socket (sockfd : Z) : M Z :=
  modify (set_rng_seeded true) ;;
  modify (fun w =>
    set_socket_list_head
      (socket_list_head w
       ++ [ {| rsock := sockfd; close_requested := false;
               recv_handler := None; handler := None;
               sessions_list_head := [] |} ]) w) ;;
  event_fd sockfd ;;
  ret sockfd.

(** [rudp_close]. *)
Definition rudp_close (rsocket : Z) : M Z :=
  sl <- gets socket_list_head ;;
  i <- deref (seek_socket_or_last rsocket sl) ;;
  k <- the_socket i ;;
  if rsock k =? rsocket then
    modify (upd_socket i (set_close_requested true)) ;;
    ret 0
  else ret (-1).

(** [rudp_recvfrom_handler]; [handler] is [None] for a NULL pointer. *)
Definition rudp_recvfrom_handler (rsocket : Z) (handler : option fnptr) : M Z :=
  match handler with
  | None => ret (-1)
  | Some h =>
      sl <- gets socket_list_head ;;
      i <- deref (seek_socket_or_last rsocket sl) ;;
      k <- the_socket i ;;
      if rsock k =? rsocket then
        modify (upd_socket i (set_recv_handler (Some h))) ;;
        ret 0
      else ret (-1)
  end.

(** [rudp_event_handler]; [handler] is [None] for a NULL pointer. *)
Definition rudp_event_handler (rsocket : Z) (handler : option fnptr) : M Z :=
  match handler with
  | None => ret (-1)
  | Some h =>
      sl <- gets socket_list_head ;;
      i <- deref (seek_socket_or_last rsocket sl) ;;
      k <- the_socket i ;;
      if rsock k =? rsocket then
        modify (upd_socket i (set_handler (Some h))) ;;
        ret 0
      else ret (-1)
  end.

(** [p = create_rudp_packet(RUDP_SYN, seqno, 0, NULL);
     send_packet(false, rsocket, p, to); free(p);] *)
Definition send_syn (rsocket seqno : Z) (to : sockaddr_in) : M unit :=
  send_packet false rsocket (create_rudp_packet RUDP_SYN seqno 0 None) to ;;
  ret tt.

(** The body run by rudp_sendto for the session at [j] that matches [to]
    and has a sender half [sd]: send at once when OPEN with an empty queue
    and a free slot, queue otherwise. *)
Definition send_or_queue (rsocket : Z) (i j : nat) (sd : sender_session)
  (data_item : data) (data : list byte) (len : Z) (to : sockaddr_in) : M unit :=
  let data_is_queued := match data_queue sd with [] => false | _ :: _ => true end in
  we_must_queue <-
    (if bool_decide (snd_status sd = OPEN) && negb data_is_queued then
       match first_free_slot (sliding_window sd) with
       | Some slot_i =>
           let seqno := u32 (snd_seqno sd + 1) in
           let datap := create_rudp_packet RUDP_DATA seqno len (Some data) in
           modify (upd_sender i j (fun sd =>
             set_retransmission_attempts (<[slot_i := 0]> (retransmission_attempts sd))
               (set_sliding_window (<[slot_i := Some datap]> (sliding_window sd))
                  (set_snd_seqno seqno sd)))) ;;
           send_packet false rsocket datap to ;;
           ret false
       | None => ret true
       end
     else ret true) ;;
  if (we_must_queue : bool) then
    modify (upd_sender i j (fun sd => set_data_queue (data_queue sd ++ [data_item]) sd))
  else ret tt.

(** [rudp_sendto].  [to] is [None] for a NULL address.  The result of the
    session search is the pair ([new_session_created], [seqno]) the code
    holds when it reaches the final test.  The test [if(rsocket < 0)]
    compares a [void *] with the null pointer constant; it is false for
    every handle, so its branch is never taken and the search runs for a
    negative descriptor as for any other. *)
Definition rudp_sendto (rsocket : Z) (data : list byte) (len : Z)
  (to : option sockaddr_in) : M Z :=
  if (len <? 0) || (len >? RUDP_MAXPKTSIZE) then ret (-1)
  else
    match to with
    | None => ret (-1)
    | Some to =>
        sl <- gets socket_list_head ;;
        match sl with
        | [] => ret (-1)
        | _ :: _ =>
            i <- deref (seek_socket rsocket sl) ;;
            k <- the_socket i ;;
            let data_item := {| item := firstn (Z.to_nat len) data; len := len |} in
            created <-
              match sessions_list_head k with
              | [] =>
                  r <- rand ;;
                  let seqno := u32 r in
                  create_sender_session i seqno to [data_item] ;;
                  ret (true, seqno)
              | _ :: _ =>
                  match seek_session to (sessions_list_head k) with
                  | Some j =>
                      s <- the_session i j ;;
                      match sender s with
                      | None =>
                          r <- rand ;;
                          let seqno := u32 r in
                          create_sender_session i seqno to [data_item] ;;
                          send_syn rsocket seqno to ;;
                          (* break with session_found still false *)
                          r' <- rand ;;
                          let seqno' := u32 r' in
                          create_sender_session i seqno' to [data_item] ;;
                          ret (false, seqno')
                      | Some sd =>
                          send_or_queue rsocket i j sd data_item data len to ;;
                          ret (false, 0)
                      end
                  | None =>
                      r <- rand ;;
                      let seqno := u32 r in
                      create_sender_session i seqno to [data_item] ;;
                      ret (true, seqno)
                  end
              end ;;
            (if fst created then send_syn rsocket (snd created) to else ret tt) ;;
            ret 0
        end
    end.

(** ** timeout_callback *)

(** [curr_socket->handler(timeargs->fd, RUDP_EVENT_TIMEOUT, recipient)]: the
    call goes through the pointer without a test. *)
Definition report_timeout (i : nat) (timeargs : timeoutargs) : M unit :=
  k <- the_socket i ;;
  h <- deref (handler k) ;;
  emit (EventUpcall h (fd timeargs) RUDP_EVENT_TIMEOUT (recipient timeargs)).

(** [free(timeargs->packet)] in [timeout_callback].  [released] tells
    whether this call of [timeout_callback] released the object before;
    nothing is allocated between two such calls of [free], and releasing the
    object a second time ends the run. *)
Definition free_packet (released : bool) : M unit :=
  if released then fault else ret tt.

(** [send_packet(false, timeargs->fd, timeargs->packet,
    timeargs->recipient); free(timeargs->packet);] *)
Definition retransmit (timeargs : timeoutargs) : M unit :=
  send_packet false (fd timeargs) (packet timeargs) (recipient timeargs) ;;
  free_packet false.

(** The part of [timeout_callback] run for the session found at [j].  The
    result tells whether [timeargs->packet] was released on the way. *)
Definition timeout_for_session (i j : nat) (timeargs : timeoutargs) : M bool :=
  let ty := type (header (packet timeargs)) in
  sd <- the_sender i j ;;
  if ty =? RUDP_SYN then
    if syn_retransmit_attempts sd >=? RUDP_MAXRETRANS then
      report_timeout i timeargs ;; ret false
    else
      modify (upd_sender i j
                (set_syn_retransmit_attempts (syn_retransmit_attempts sd + 1))) ;;
      retransmit timeargs ;; ret true
  else if ty =? RUDP_FIN then
    if fin_retransmit_attempts sd >=? RUDP_MAXRETRANS then
      report_timeout i timeargs ;; ret false
    else
      modify (upd_sender i j
                (set_fin_retransmit_attempts (fin_retransmit_attempts sd + 1))) ;;
      retransmit timeargs ;; ret true
  else
    index <- deref (matching_slot (sliding_window sd)
                      (seqno (header (packet timeargs)))) ;;
    if nth index (retransmission_attempts sd) 0 >=? RUDP_MAXRETRANS then
      report_timeout i timeargs ;; ret false
    else
      modify (upd_sender i j
                (set_retransmission_attempts
                   (<[index := nth index (retransmission_attempts sd) 0 + 1]>
                      (retransmission_attempts sd)))) ;;
      retransmit timeargs ;; ret true.

(** [timeout_callback(fd, args)]; [timeargs] is the object [args] points to.
    The first parameter carries no information for a timer.  The function
    ends with [free(timeargs->packet); free(timeargs->recipient);
    free(timeargs);], whatever happened before. *)
Definition timeout_callback (unused : Z) (timeargs : timeoutargs) : M Z :=
  sl <- gets socket_list_head ;;
  i <- deref (seek_socket (fd timeargs) sl) ;;
  k <- the_socket i ;;
  released <-
    match seek_session (recipient timeargs) (sessions_list_head k) with
    | Some j => timeout_for_session i j timeargs
    | None => ret false
    end ;;
  free_packet released ;;
  ret 0.

(** Modelled from the spec: the event loop fires a pending timer once, by
    calling its callback with the registered argument. *)
Definition timer_expires (t : ptr) : M Z :=
  pending <- gets timeouts ;;
  match List.find (fun e => Nat.eqb (fst e) t) pending with
  | Some (_, timeargs) =>
      modify (fun w =>
        set_timeouts (List.filter (fun e => negb (Nat.eqb (fst e) t)) (timeouts w)) w) ;;
      timeout_callback 0 timeargs
  | None => ret 0
  end.

(** The state of a process that has not called the library yet. *)
Definition initial_world (rand_seq : nat -> Z) : world :=
  {| rng_seeded := false; socket_list_head := []; timeouts := []; readable := [];
     next_alloc := O; rand_seq := rand_seq; rand_calls := O; trace := [] |}.

(** ** Vocabulary: reading the state *)

(** The session that [dispatch_packet], [send_packet] and
    [timeout_callback] reach for the descriptor [file] and the peer [peer]:
    positions of the socket and of the session, and the two nodes. *)
Definition route (file : Z) (peer : sockaddr_in) (w : world)
  : option (nat * nat * rudp_socket_list * session) :=
  match seek_socket file (socket_list_head w) with
  | Some i =>
      match socket_at i w with
      | Some k =>
          match seek_session peer (sessions_list_head k) with
          | Some j =>
              match sessions_list_head k !! j with
              | Some s => Some (i, j, k, s)
              | None => None
              end
          | None => None
          end
      | None => None
      end
  | None => None
  end.

(** The nodes a route leads to, for naming them in concrete runs. *)
Definition routed_socket (file : Z) (peer : sockaddr_in) (w : world)
  : rudp_socket_list :=
  match route file peer w with
  | Some (_, _, k, _) => k
  | None => mk_socket 0 false None None []
  end.

Definition routed_session (file : Z) (peer : sockaddr_in) (w : world) : session :=
  match route file peer w with
  | Some (_, _, _, s) => s
  | None => mk_session None None peer
  end.

Definition routed_sender (file : Z) (peer : sockaddr_in) (w : world)
  : sender_session :=
  match sender (routed_session file peer w) with
  | Some sd => sd
  | None => new_sender_session 0 []
  end.

(** The sender half of the session at ([i], [j]). *)
Definition sender_at (i j : nat) (w : world) : option sender_session :=
  match session_at i j w with
  | Some s => sender s
  | None => None
  end.

(** [expected_seqno] of the receiver half of the session at ([i], [j]). *)
Definition expected_at (i j : nat) (w : world) : option Z :=
  match session_at i j w with
  | Some s =>
      match receiver s with
      | Some r => Some (expected_seqno r)
      | None => None
      end
  | None => None
  end.

(** The three per-slot arrays of the sender half at ([i], [j]). *)
Definition window_at (i j : nat) (w : world)
  : option (list (option rudp_packet) * list Z * list (option ptr)) :=
  match sender_at i j w with
  | Some sd => Some (sliding_window sd, retransmission_attempts sd, data_timeout_arg sd)
  | None => None
  end.

(** The three per-slot arrays of a sender half have [RUDP_WINDOW] cells. *)
Definition window_arrays (sd : sender_session) : Prop :=
  length (sliding_window sd) = Z.to_nat RUDP_WINDOW /\
  length (retransmission_attempts sd) = Z.to_nat RUDP_WINDOW /\
  length (data_timeout_arg sd) = Z.to_nat RUDP_WINDOW.

(** No empty slot is followed by an occupied one. *)
Definition left_packed (win : list (option rudp_packet)) : Prop :=
  forall n, slot win n = None -> slot win (S n) = None.

(** A sender half whose per-slot arrays are full size and whose window is
    left-packed; a world in which every sender half is so. *)
Definition sender_ok (sd : sender_session) : Prop :=
  window_arrays sd /\ left_packed (sliding_window sd).

Definition windows_ok (w : world) : Prop :=
  forall i j sd, sender_at i j w = Some sd -> sender_ok sd.

(** Every occupied slot of the window has its timer argument set; a world in
    which every sender half is so. *)
Definition timers_set (sd : sender_session) : Prop :=
  forall n, slot (sliding_window sd) n <> None -> slot (data_timeout_arg sd) n <> None.

Definition timers_ok (w : world) : Prop :=
  forall i j sd, sender_at i j w = Some sd -> timers_set sd.

(** ** Vocabulary: the trace and the wire *)

(** The packets handed to [sendto], in order. *)
Definition sent (tr : list io_event) : list (Z * rudp_packet * sockaddr_in) :=
  flat_map (fun e => match e with
                     | Sendto f p to => [(f, p, to)]
                     | _ => []
                     end) tr.

(** The calls of the data-received callback, in order. *)
Definition delivered (tr : list io_event) : list (list byte * Z) :=
  flat_map (fun e => match e with
                     | RecvUpcall _ _ _ buf n => [(buf, n)]
                     | _ => []
                     end) tr.

(** What the data-received callback is given for a packet. *)
Definition upcall_of (p : rudp_packet) : list byte * Z :=
  (payload p, payload_length p).

(** The acknowledgement the receiver builds for [seqno]. *)
Definition ack_packet (seqno : Z) : rudp_packet :=
  create_rudp_packet RUDP_ACK seqno 0 None.

(** The datagrams a trace put on the wire, for a host of byte order [host]. *)
Definition datagrams (host : byte_order) (tr : list io_event) : list (list byte) :=
  map (fun x => packet_bytes host (snd (fst x))) (sent tr).

(** The header as the specification describes it on the wire: version, type
    and sequence number in network byte order. *)
Definition spec_header_bytes (h : rudp_hdr) : list byte :=
  network_order 2 (version h) ++ network_order 2 (type h) ++ network_order 4 (seqno h).

(** The fields of a packet fit their C types and the payload array is full
    size, as for every packet [create_rudp_packet] builds from a sequence
    number of type [u_int32_t] and a length the API accepts. *)
Definition well_typed_packet (p : rudp_packet) : Prop :=
  0 <= version (header p) < 2 ^ 16 /\
  0 <= type (header p) < 2 ^ 16 /\
  0 <= seqno (header p) < 2 ^ 32 /\
  - 2 ^ 31 <= payload_length p < 2 ^ 31 /\
  length (payload p) = Z.to_nat RUDP_MAXPKTSIZE.

(** The same packet with another version field. *)
Definition with_version (v : Z) (p : rudp_packet) : rudp_packet :=
  {| header := {| version := v; type := type (header p); seqno := seqno (header p) |};
     payload_length := payload_length p;
     payload := payload p |}.

(** The type field is none of DATA, ACK, SYN, FIN. *)
Definition unknown_type (p : rudp_packet) : Prop :=
  type (header p) <> RUDP_DATA /\ type (header p) <> RUDP_ACK /\
  type (header p) <> RUDP_SYN /\ type (header p) <> RUDP_FIN.

(** ** Vocabulary: the sender half at work *)

(** The sender half after [send_packet] recorded the timer argument [t] of
    packet [p] in it. *)
Definition remember_in (t : ptr) (p : rudp_packet) (sd : sender_session)
  : sender_session :=
  if type (header p) =? RUDP_SYN then set_syn_timeout_arg (Some t) sd
  else if type (header p) =? RUDP_FIN then set_fin_timeout_arg (Some t) sd
  else if type (header p) =? RUDP_DATA then
    match matching_slot (sliding_window sd) (seqno (header p)) with
    | Some index =>
        set_data_timeout_arg (<[index := Some t]> (data_timeout_arg sd)) sd
    | None => sd
    end
  else sd.

(** The timer bookkeeping of [send_packet] for [p] can be done in [sd]: a
    DATA packet has to sit in the window. *)
Definition can_remember (p : rudp_packet) (sd : sender_session) : Prop :=
  type (header p) = RUDP_DATA ->
  matching_slot (sliding_window sd) (seqno (header p)) <> None.

(** The retry counter [timeout_callback] consults for the packet [p]. *)
Definition retry_counter (p : rudp_packet) (sd : sender_session) : option Z :=
  if type (header p) =? RUDP_SYN then Some (syn_retransmit_attempts sd)
  else if type (header p) =? RUDP_FIN then Some (fin_retransmit_attempts sd)
  else
    match matching_slot (sliding_window sd) (seqno (header p)) with
    | Some index => Some (nth index (retransmission_attempts sd) 0)
    | None => None
    end.

(** The sender half with that counter incremented. *)
Definition count_retry (p : rudp_packet) (sd : sender_session) : sender_session :=
  if type (header p) =? RUDP_SYN
  then set_syn_retransmit_attempts (syn_retransmit_attempts sd + 1) sd
  else if type (header p) =? RUDP_FIN
  then set_fin_retransmit_attempts (fin_retransmit_attempts sd + 1) sd
  else
    match matching_slot (sliding_window sd) (seqno (header p)) with
    | Some index =>
        set_retransmission_attempts
          (<[index := nth index (retransmission_attempts sd) 0 + 1]>
             (retransmission_attempts sd)) sd
    | None => sd
    end.

(** The world after a successful [send_packet(false, rsocket, p, recipient)]
    whose recipient has its session at ([i], [j]). *)
Definition after_send (rsocket : Z) (p : rudp_packet) (recipient : sockaddr_in)
  (i j : nat) (w : world) : world :=
  set_timeouts
    (timeouts w ++ [(next_alloc w, mk_timeoutargs rsocket p recipient)])
    (upd_sender i j (remember_in (next_alloc w) p)
       (set_next_alloc (S (next_alloc w))
          (set_trace (trace w ++ [Sendto rsocket p recipient]) w))).

(** The session node [create_sender_session] appends. *)
Definition new_sender_node (seqno : Z) (to : sockaddr_in) (queue : list data) : session :=
  {| sender := Some (new_sender_session seqno queue); receiver := None; address := to |}.

(** The world after [rudp_sendto] addressed a peer that had no session on
    the socket at [i]: one call of [rand], a new session at the end of the
    socket's list with the datagram queued, and the SYN sent with its timer. *)
Definition after_first_sendto (rsocket : Z) (data : list byte) (len : Z)
  (to : sockaddr_in) (i : nat) (k : rudp_socket_list) (w : world) : world :=
  let seqno := u32 (rand_seq w (rand_calls w)) in
  let data_item := {| item := firstn (Z.to_nat len) data; len := len |} in
  after_send rsocket (create_rudp_packet RUDP_SYN seqno 0 None) to
    i (length (sessions_list_head k))
    (upd_socket i
       (fun k => set_sessions_list_head
                   (sessions_list_head k ++ [new_sender_node seqno to [data_item]]) k)
       (set_rand_calls (S (rand_calls w)) w)).

(** The DATA packet the refill loops build for the queue node [d] when the
    last sequence number used is [seqno]. *)
Definition next_data_packet (seqno : Z) (d : data) : rudp_packet :=
  create_rudp_packet RUDP_DATA (u32 (seqno + 1)) (len d) (Some (item d)).

(** The world after the refill loop of [receive_callback] ran to its end
    for the session at ([i], [j]), written without the possibility of a
    fault: each round places one queued datagram in the first unused slot
    and sends it. *)
Fixpoint refill_world (file : Z) (from : sockaddr_in) (i j : nat)
  (queue : list data) (w : world) : world :=
  match queue with
  | [] => w
  | d :: rest =>
      match sender_at i j w with
      | None => w
      | Some sd =>
          match slot (sliding_window sd) last_slot with
          | Some _ => w
          | None =>
              match first_unused_slot (sliding_window sd) with
              | None => w
              | Some index =>
                  let datap := next_data_packet (snd_seqno sd) d in
                  refill_world file from i j rest
                    (after_send file datap from i j
                       (upd_sender i j (place_packet index datap rest) w))
              end
          end
      end
  end.

(** The sender half after that loop, when [t] is the next free timer
    argument at its start. *)
Fixpoint refill_sender (t : ptr) (queue : list data) (sd : sender_session)
  : sender_session :=
  match queue with
  | [] => sd
  | d :: rest =>
      match slot (sliding_window sd) last_slot with
      | Some _ => sd
      | None =>
          match first_unused_slot (sliding_window sd) with
          | None => sd
          | Some index =>
              let datap := next_data_packet (snd_seqno sd) d in
              refill_sender (S t) rest
                (remember_in t datap (place_packet index datap rest sd))
          end
      end
  end.

(** [event_timeout_delete] applied to the world. *)
Definition cancel_timeout (t : ptr) (w : world) : world :=
  set_timeouts (List.filter (fun e => negb (Nat.eqb (fst e) t)) (timeouts w)) w.

(** The world after a correct DATA acknowledgement, before the closing
    test: the timer of slot 0 is cancelled, the three arrays are shifted and
    the window is refilled from the queue. *)
Definition after_data_ack (file : Z) (from : sockaddr_in) (i j : nat)
  (sd : sender_session) (t0 : ptr) (w : world) : world :=
  refill_world file from i j (data_queue sd)
    (upd_sender i j shift_window (cancel_timeout t0 w)).

(** The DATA packets built for the queue nodes [queue] in turn, the first
    one numbered [seqno] + 1 and each next one numbered one higher. *)
Fixpoint numbered (seqno : Z) (queue : list data) : list rudp_packet :=
  match queue with
  | [] => []
  | d :: rest => next_data_packet seqno d :: numbered (u32 (seqno + 1)) rest
  end.

(** The packets the refill loop sends: one per round of [refill_sender]. *)
Fixpoint refill_packets (t : ptr) (queue : list data) (sd : sender_session)
  : list rudp_packet :=
  match queue with
  | [] => []
  | d :: rest =>
      match slot (sliding_window sd) last_slot with
      | Some _ => []
      | None =>
          match first_unused_slot (sliding_window sd) with
          | None => []
          | Some index =>
              let datap := next_data_packet (snd_seqno sd) d in
              datap :: refill_packets (S t) rest
                         (remember_in t datap (place_packet index datap rest sd))
          end
      end
  end.

(** The timers [send_packet] registers for the packets [ps] sent to [to] on
    [file], when [t] is the next free timer argument. *)
Definition timers_from (t : ptr) (file : Z) (to : sockaddr_in) (ps : list rudp_packet)
  : list (ptr * timeoutargs) :=
  combine (seq t (length ps)) (map (fun p => mk_timeoutargs file p to) ps).

(** What a correct DATA acknowledgement leaves in the window, in the words of
    the claim: the packets that were in flight behind the head, which move
    one slot down, and behind them the packets made of the first queued
    datagrams, as many as the window has room for. *)
Definition behind_head (sd : sender_session) : list rudp_packet :=
  omap id (tl (sliding_window sd)).

Definition from_queue (sd : sender_session) : list rudp_packet :=
  numbered (snd_seqno sd)
    (firstn (Z.to_nat RUDP_WINDOW - length (behind_head sd)) (data_queue sd)).

(** The window after the shift and the refill, written out: the packets
    that were behind the head, then the packets made of the first queued
    datagrams, numbered on from the session's number, as many as there is
    room for; their retry counters and timer arguments slot by slot. *)
Definition refilled_as_claimed (t : ptr) (sd sd' : sender_session)
  (sent : list rudp_packet) : Prop :=
  sent = from_queue sd /\
  sliding_window sd'
  = map Some (behind_head sd ++ from_queue sd)
    ++ repeat None (Z.to_nat RUDP_WINDOW - length (behind_head sd ++ from_queue sd)) /\
  (forall n, (n < length (behind_head sd))%nat ->
     nth n (retransmission_attempts sd') 0 = nth (S n) (retransmission_attempts sd) 0 /\
     slot (data_timeout_arg sd') n = slot (data_timeout_arg sd) (S n)) /\
  (forall n, (n < length (from_queue sd))%nat ->
     nth (length (behind_head sd) + n) (retransmission_attempts sd') 0 = 0 /\
     slot (data_timeout_arg sd') (length (behind_head sd) + n) = Some (t + n)%nat) /\
  data_queue sd'
  = skipn (Z.to_nat RUDP_WINDOW - length (behind_head sd)) (data_queue sd) /\
  snd_seqno sd'
  = List.last (map (fun q => seqno (header q)) (from_queue sd)) (snd_seqno sd) /\
  snd_status sd' = snd_status sd.

(** ** Vocabulary: the receiver half on a stream *)

(** The receiver half after a DATA packet with sequence number [s] was
    handled: only the expected packet moves it. *)
Definition receive_data (s : Z) (r : receiver_session) : receiver_session :=
  if s =? expected_seqno r
  then {| rcv_status := if bool_decide (rcv_status r = OPENING) then OPEN else rcv_status r;
          expected_seqno := u32 (s + 1);
          rcv_session_finished := rcv_session_finished r |}
  else r.

(** The packets of a stream that a receiver expecting [e] takes as new, in
    order: each one is the expected packet at the time it arrives. *)
Fixpoint accepted (e : Z) (ps : list rudp_packet) : list rudp_packet :=
  match ps with
  | [] => []
  | p :: rest =>
      if seqno (header p) =? e
      then p :: accepted (u32 (e + 1)) rest
      else accepted e rest
  end.

(** Dispatching a list of packets from one peer, one after the other. *)
Fixpoint dispatch_all (file : Z) (from : sockaddr_in) (ps : list rudp_packet)
  : M unit :=
  match ps with
  | [] => ret tt
  | p :: rest =>
      dispatch_packet file p from ;;
      dispatch_all file from rest
  end.

(** ** Vocabulary: relations between worlds *)

(** A command relates every world to the world its run ends in. *)
Definition keeps {A} (R : world -> world -> Prop) (m : M A) : Prop :=
  forall w, R w (final (m w)).

(** A step that only adds timers and leaves every window alone. *)
Definition windows_kept (w w' : world) : Prop :=
  (forall i j, window_at i j w' = window_at i j w) /\
  (exists added, timeouts w' = timeouts w ++ added).

(** Running a command cannot break [windows_ok]. *)
Definition safe (w w' : world) : Prop := windows_ok w -> windows_ok w'.

(** A step after which every sender half either is a new one with an empty
    window, or has the window it had and has lost no timer argument. *)
Definition timers_kept (w w' : world) : Prop :=
  forall i j sd',
    sender_at i j w' = Some sd' ->
    (exists sd, sender_at i j w = Some sd /\
                sliding_window sd' = sliding_window sd /\
                forall n, slot (data_timeout_arg sd) n <> None ->
                          slot (data_timeout_arg sd') n <> None) \/
    (forall n, slot (sliding_window sd') n = None).

(** A command that, when it completes from a world with well-formed windows
    whose occupied slots all have their timers, ends in such a world. *)
Definition keeps_timers {A} (m : M A) : Prop :=
  forall w a w', windows_ok w -> timers_ok w -> m w = Done a w' -> timers_ok w'.

(** ** The process as a sequence of calls *)

(** What the application and the event loop can do to the engine. *)
Inductive call : Type :=
| Call_rudp_socket (sockfd : Z)
| Call_rudp_close (rsocket : Z)
| Call_rudp_recvfrom_handler (rsocket : Z) (handler : option fnptr)
| Call_rudp_event_handler (rsocket : Z) (handler : option fnptr)
| Call_rudp_sendto (rsocket : Z) (data : list byte) (len : Z) (to : option sockaddr_in)
| Readable (host : byte_order) (stack : list byte) (file : Z)
           (datagram : list byte) (from : sockaddr_in)
| Timer (t : ptr).

Definition run_call (c : call) : M Z :=
  match c with
  | Call_rudp_socket sockfd => rudp_socket sockfd
  | Call_rudp_close rsocket => rudp_close rsocket
  | Call_rudp_recvfrom_handler rsocket h => rudp_recvfrom_handler rsocket h
  | Call_rudp_event_handler rsocket h => rudp_event_handler rsocket h
  | Call_rudp_sendto rsocket data len to => rudp_sendto rsocket data len to
  | Readable host stack file datagram from =>
      receive_callback host stack file datagram from
  | Timer t => timer_expires t
  end.

(** The worlds a process passes through. *)
Inductive reachable : world -> Prop :=
| reachable_start (rand_seq : nat -> Z) : reachable (initial_world rand_seq)
| reachable_next (w : world) (c : call) (r : Z) (w' : world) :
    reachable w -> run_call c w = Done r w' -> reachable w'.

(** The world after a list of calls, if none of them faults. *)
Fixpoint run_calls (cs : list call) (w : world) : option world :=
  match cs with
  | [] => Some w
  | c :: rest =>
      match run_call c w with
      | Done _ w' => run_calls rest w'
      | Fault _ => None
      end
  end.

(** ** Two hosts and some states they reach, for concrete runs *)

Definition host_A : sockaddr_in :=
  {| sin_family := 2; sin_addr := 167772161; sin_port := 5000 |}.

Definition host_B : sockaddr_in :=
  {| sin_family := 2; sin_addr := 167772162; sin_port := 6000 |}.

Definition hello : list byte := [x68; x65; x6c; x6c; x6f].

Definition zero_stack : list byte := repeat x00 sizeof_rudp_packet.

(** DATA(101) carrying "hello", as host A (re)transmits it. *)
Definition data_101 : rudp_packet :=
  create_rudp_packet RUDP_DATA 101 5 (Some hello).

(** FIN(103), the FIN host A sends after DATA(102). *)
Definition fin_103 : rudp_packet := create_rudp_packet RUDP_FIN 103 0 None.

(** ACK(1002), the acknowledgement of DATA(1001), and ACK(1003), which
    acknowledges a packet that is not at the head of the window. *)
Definition ack_1002 : rudp_packet := create_rudp_packet RUDP_ACK 1002 0 None.
Definition ack_1003 : rudp_packet := create_rudp_packet RUDP_ACK 1003 0 None.

(** A full-size datagram from a little-endian peer: a SYN with sequence
    number 100 whose version field is 2. *)
Definition syn_version_2 : list byte :=
  packet_bytes LittleEndian
    {| header := {| version := 2; type := RUDP_SYN; seqno := 100 |};
       payload_length := 0;
       payload := repeat x00 (Z.to_nat RUDP_MAXPKTSIZE) |}.

(** A 4-byte datagram, shorter than the header: version 1 and type SYN in
    little-endian order, and nothing else. *)
Definition short_syn : list byte := [x01; x00; x04; x00].

(** A full-size DATA(103) carrying "hello" whose version field is 7. *)
Definition data_version_7 : list byte :=
  packet_bytes LittleEndian
    {| header := {| version := 7; type := RUDP_DATA; seqno := 103 |};
       payload_length := 5;
       payload := char_array (Z.to_nat RUDP_MAXPKTSIZE) hello |}.

(** The timer of host A's SYN, and the timer of DATA(1002) in
    [sender_world]. *)
Definition syn_timer : timeoutargs :=
  {| fd := 3; packet := create_rudp_packet RUDP_SYN 1000 0 None; recipient := host_B |}.

Definition data_1002_timer : timeoutargs :=
  {| fd := 3; packet := create_rudp_packet RUDP_DATA 1002 4 (Some hello);
     recipient := host_B |}.

(** Host B after [rudp_socket] returned descriptor 4 and both callbacks were
    registered: no session yet. *)
Definition listening_world : world :=
  final ((rudp_socket 4 ;;
          rudp_recvfrom_handler 4 (Some 1%nat) ;;
          rudp_event_handler 4 (Some 2%nat))
           (initial_world (fun _ => 0))).

(** Host B after [rudp_socket] returned descriptor 4, both callbacks were
    registered, and SYN(100), DATA(101) and DATA(102) arrived from host A:
    the receiver half for A is OPEN and expects 103. *)
Definition receiver_world : world :=
  final ((rudp_socket 4 ;;
          rudp_recvfrom_handler 4 (Some 1%nat) ;;
          rudp_event_handler 4 (Some 2%nat) ;;
          dispatch_packet 4 (create_rudp_packet RUDP_SYN 100 0 None) host_A ;;
          dispatch_packet 4 (create_rudp_packet RUDP_DATA 101 5 (Some hello)) host_A ;;
          dispatch_packet 4 (create_rudp_packet RUDP_DATA 102 5 (Some hello)) host_A)
           (initial_world (fun _ => 0))).

(** Host A after [rudp_socket] returned descriptor 3, the event callback was
    registered, four datagrams were sent to host B and B acknowledged the
    SYN (sequence number 1000): the sender half is OPEN, DATA 1001..1003 are
    in flight and one datagram is queued. *)
Definition sender_world : world :=
  final ((rudp_socket 3 ;;
          rudp_event_handler 3 (Some 2%nat) ;;
          rudp_sendto 3 hello 5 (Some host_B) ;;
          rudp_sendto 3 hello 4 (Some host_B) ;;
          rudp_sendto 3 hello 3 (Some host_B) ;;
          rudp_sendto 3 hello 2 (Some host_B) ;;
          dispatch_packet 3 (create_rudp_packet RUDP_ACK 1001 0 None) host_B)
           (initial_world (fun n => 1000 + Z.of_nat n))).

(** The calls that lead a fresh process on host A to [sender_world]. *)
Definition sender_calls : list call :=
  [ Call_rudp_socket 3;
    Call_rudp_event_handler 3 (Some 2%nat);
    Call_rudp_sendto 3 hello 5 (Some host_B);
    Call_rudp_sendto 3 hello 4 (Some host_B);
    Call_rudp_sendto 3 hello 3 (Some host_B);
    Call_rudp_sendto 3 hello 2 (Some host_B);
    Readable LittleEndian zero_stack 3
      (packet_bytes LittleEndian (create_rudp_packet RUDP_ACK 1001 0 None)) host_B ].

(** Host A after [rudp_socket] returned descriptor 3, the event callback was
    registered and one datagram for host B was handed to [rudp_sendto]: the
    SYN (sequence number 1000) is out, unanswered, and its timer is
    pending. *)
Definition syn_unanswered_world : world :=
  final ((rudp_socket 3 ;;
          rudp_event_handler 3 (Some 2%nat) ;;
          rudp_sendto 3 hello 5 (Some host_B))
           (initial_world (fun n => 1000 + Z.of_nat n))).

(** * Properties *)

(** ** Sequence comparators *)

Lemma short_range (z : Z) : - 2 ^ 15 <= short z < 2 ^ 15.
Proof.
  unfold short.
  pose proof (Z.mod_pos_bound (z + 2 ^ 15) (2 ^ 16) ltac:(lia)). lia.
Qed.

Lemma short_u32 (z : Z) : short (u32 z) = short z.
Proof.
  unfold short, u32. f_equal.
  replace (2 ^ 32) with (2 ^ 16 * 2 ^ 16) by reflexivity.
  rewrite Z.rem_mul_r by lia.
  rewrite <- Z.add_assoc, (Z.add_comm _ (2 ^ 15)), Z.add_assoc.
  rewrite Z.mul_comm, Z.mod_add by lia.
  rewrite Z.add_mod_idemp_l by lia. reflexivity.
Qed.

Lemma short_trunc_i16 (z : Z) : short z = trunc_i16 z.
Proof.
  unfold short, trunc_i16. cbv zeta.
  change (2 ^ 15) with 32768. change (2 ^ 16) with 65536.
  pose proof (Z.div_mod z 65536 ltac:(lia)) as E.
  pose proof (Z.mod_pos_bound z 65536 ltac:(lia)) as B.
  destruct (Z.ltb_spec (z mod 65536) 32768) as [L | L].
  - assert (Hm : (z + 32768) mod 65536 = z mod 65536 + 32768).
    { symmetry. apply Z.mod_unique with (q := z / 65536); lia. }
    lia.
  - assert (Hm : (z + 32768) mod 65536 = z mod 65536 - 32768).
    { symmetry. apply Z.mod_unique with (q := z / 65536 + 1); lia. }
    lia.
Qed.

(** C3.  For all integers [a] and [b] (in particular for every pair of
    unsigned 32-bit values), [SEQ_LT(a,b)] holds exactly when the difference
    [a - b] truncated to a signed 16-bit integer is negative, and [SEQ_LEQ],
    [SEQ_GT], [SEQ_GEQ] apply [<=], [>], [>=] to the same truncated
    difference. *)
Theorem SEQ_comparators_signed_16bit_difference (a b : Z) :
  (SEQ_LT a b = true <-> spec_seq_diff a b < 0) /\
  (SEQ_LEQ a b = true <-> spec_seq_diff a b <= 0) /\
  (SEQ_GT a b = true <-> spec_seq_diff a b > 0) /\
  (SEQ_GEQ a b = true <-> spec_seq_diff a b >= 0).
Proof.
  unfold SEQ_LT, SEQ_LEQ, SEQ_GT, SEQ_GEQ, spec_seq_diff.
  rewrite short_u32, short_trunc_i16.
  repeat split; intros H.
  - apply Z.ltb_lt; exact H.
  - apply Z.ltb_lt; exact H.
  - apply Z.leb_le; exact H.
  - apply Z.leb_le; exact H.
  - apply Z.gtb_lt in H; lia.
  - apply Z.gtb_lt; lia.
  - apply Z.geb_le in H; lia.
  - apply Z.geb_le; lia.
Qed.

(** ** Searching the lists *)

Lemma seek_socket_Some rsocket l i :
  seek_socket rsocket l = Some i ->
  exists k, l !! i = Some k /\ rsock k = rsocket.
Proof.
  revert i. induction l as [| k l IH]; intros i H; simpl in H; [discriminate |].
  destruct (Z.eqb_spec (rsock k) rsocket) as [E | E].
  - injection H as <-. exists k. split; [reflexivity | exact E].
  - destruct (seek_socket rsocket l) as [i' |] eqn:Hs; simpl in H; [| discriminate].
    injection H as <-. destruct (IH i' eq_refl) as (k' & Hk & Hr).
    exists k'. split; [exact Hk | exact Hr].
Qed.

Lemma seek_socket_nonempty rsocket l i :
  seek_socket rsocket l = Some i -> exists k rest, l = k :: rest.
Proof. destruct l; simpl; [discriminate | eauto]. Qed.

Lemma seek_socket_or_last_found rsocket l i :
  seek_socket rsocket l = Some i -> seek_socket_or_last rsocket l = Some i.
Proof.
  revert i. induction l as [| k l IH]; intros i H; simpl in *; [discriminate |].
  destruct (Z.eqb_spec (rsock k) rsocket) as [E | E].
  - injection H as <-. destruct l; reflexivity.
  - destruct (seek_socket rsocket l) as [i' |] eqn:Hs; simpl in H; [| discriminate].
    injection H as <-. rewrite (IH i' eq_refl).
    destruct l; [discriminate | reflexivity].
Qed.

Lemma seek_session_Some addr l j :
  seek_session addr l = Some j ->
  exists s, l !! j = Some s /\ compare_sockaddr (address s) addr = 1.
Proof.
  revert j. induction l as [| s l IH]; intros j H; simpl in H; [discriminate |].
  destruct (Z.eqb_spec (compare_sockaddr (address s) addr) 1) as [E | E].
  - injection H as <-. exists s. split; [reflexivity | exact E].
  - destruct (seek_session addr l) as [j' |] eqn:Hs; simpl in H; [| discriminate].
    injection H as <-. destruct (IH j' eq_refl) as (s' & Hs' & Hc).
    exists s'. split; [exact Hs' | exact Hc].
Qed.

Lemma route_Some file peer w i j k s :
  route file peer w = Some (i, j, k, s) ->
  seek_socket file (socket_list_head w) = Some i /\
  socket_list_head w !! i = Some k /\
  seek_session peer (sessions_list_head k) = Some j /\
  sessions_list_head k !! j = Some s.
Proof.
  unfold route, socket_at. intros H.
  destruct (seek_socket file (socket_list_head w)) as [i' |] eqn:Hi; [| discriminate].
  destruct (socket_list_head w !! i') as [k' |] eqn:Hk; [| discriminate].
  destruct (seek_session peer (sessions_list_head k')) as [j' |] eqn:Hj; [| discriminate].
  destruct (sessions_list_head k' !! j') as [s' |] eqn:Hs; [| discriminate].
  injection H as <- <- <- <-. repeat split; assumption || reflexivity.
Qed.

(** Unfolding the run of a command on a world. *)
Ltac run :=
  unfold the_receiver, the_sender, the_session, the_socket, send_ack,
    emit, deref, bind, ret, gets, modify, fault, session_at, socket_at in *;
  cbn beta iota zeta.

(** ** The receiver half *)

(** C1.  When the session reached for the peer has a receiver half in state
    OPEN expecting [e], a DATA packet whose sequence number [s] satisfies
    [SEQ_GEQ(s, e - RUDP_WINDOW)] and [SEQ_LT(s, e)] is answered by exactly
    one ACK carrying [s + 1]; the data-received callback is not called and
    nothing else changes, so a retransmitted DATA whose ACK was lost is not
    delivered again. *)
Theorem duplicate_data_is_acked_not_delivered
  (file : Z) (from : sockaddr_in) (w : world) (p : rudp_packet)
  (i j : nat) (k : rudp_socket_list) (s : session) (r : receiver_session) :
  route file from w = Some (i, j, k, s) ->
  receiver s = Some r ->
  rcv_status r = OPEN ->
  type (header p) = RUDP_DATA ->
  SEQ_GEQ (seqno (header p)) (u32 (expected_seqno r - RUDP_WINDOW)) = true ->
  SEQ_LT (seqno (header p)) (expected_seqno r) = true ->
  dispatch_packet file p from w
  = Done 0 (set_trace
              (trace w ++ [Sendto file (ack_packet (u32 (seqno (header p) + 1))) from])
              w).
Proof.
  intros Hroute Hr Hopen Hty Hgeq Hlt.
  apply route_Some in Hroute as (Hi & Hk & Hj & Hs).
  destruct (seek_socket_nonempty _ _ _ Hi) as (k0 & rest & Hl).
  assert (Hne : (seqno (header p) =? expected_seqno r) = false).
  { apply Z.eqb_neq. intros E. unfold SEQ_LT in Hlt. rewrite E, Z.sub_diag in Hlt.
    discriminate. }
  assert (Hss : exists s0 ss, sessions_list_head k = s0 :: ss).
  { destruct (sessions_list_head k); [discriminate | eauto]. }
  destruct Hss as (s0 & ss & Hss).
  unfold dispatch_packet. run. rewrite Hl, <- Hl, Hi, Hk.
  rewrite Hss, <- Hss, Hj, Hty. cbn.
  unfold data_for_session. run. rewrite Hk, Hs, Hr, Hopen. cbn.
  rewrite Hne, Hgeq, Hlt. reflexivity.
Qed.

Lemma duplicate_data_is_acked_not_delivered_witness :
  dispatch_packet 4 data_101 host_A receiver_world
  = Done 0 (set_trace
              (trace receiver_world
               ++ [Sendto 4 (ack_packet (u32 (seqno (header data_101) + 1))) host_A])
              receiver_world).
Proof.
  apply (duplicate_data_is_acked_not_delivered 4 host_A receiver_world data_101 0 0
           (mk_socket 4 false (Some 1%nat) (Some 2%nat)
              [mk_session None (Some (mk_receiver OPEN 103 false)) host_A])
           (mk_session None (Some (mk_receiver OPEN 103 false)) host_A)
           (mk_receiver OPEN 103 false));
    vm_compute; reflexivity.
Defined.

(** What the closing test leaves alone: it sends nothing and touches neither
    sockets nor timers, whether it completes or faults. *)
Lemma close_if_done_final (file : Z) (from : sockaddr_in) (i : nat) (w : world) :
  socket_list_head (final (close_if_done file from i w)) = socket_list_head w /\
  timeouts (final (close_if_done file from i w)) = timeouts w /\
  sent (trace (final (close_if_done file from i w))) = sent (trace w) /\
  delivered (trace (final (close_if_done file from i w))) = delivered (trace w).
Proof.
  unfold close_if_done. run.
  destruct (socket_list_head w !! i) as [k |]; cbn; [| auto].
  destruct (close_requested k); cbn; [| auto].
  destruct (sessions_all_done (sessions_list_head k) true) as [[|] |]; cbn; auto.
  destruct (handler k); cbn; auto.
  unfold sent, delivered. rewrite !flat_map_app. cbn. rewrite !app_nil_r. auto.
Qed.

Lemma close_if_done_not_requested (file : Z) (from : sockaddr_in) (i : nat)
  (w : world) (k : rudp_socket_list) :
  socket_list_head w !! i = Some k ->
  close_requested k = false ->
  close_if_done file from i w = Done tt w.
Proof. intros Hk Hc. unfold close_if_done. run. rewrite Hk. cbn. rewrite Hc. reflexivity. Qed.

(** C7 (amended).  When the session reached for the peer has a receiver half
    in state OPEN expecting [e], a FIN with sequence number [e] makes the
    engine hand exactly one packet to [sendto], the ACK carrying [e + 1], and
    marks the receiver half finished while [expected_seqno] stays [e]; if
    close was not requested nothing else happens.  A FIN with any other
    sequence number changes nothing. *)
Theorem fin_is_acked_and_expected_seqno_kept
  (file : Z) (from : sockaddr_in) (w : world) (p : rudp_packet)
  (i j : nat) (k : rudp_socket_list) (s : session) (r : receiver_session) :
  route file from w = Some (i, j, k, s) ->
  receiver s = Some r ->
  rcv_status r = OPEN ->
  type (header p) = RUDP_FIN ->
  (seqno (header p) = expected_seqno r ->
     sent (trace (final (dispatch_packet file p from w)))
     = sent (trace w) ++ [(file, ack_packet (u32 (expected_seqno r + 1)), from)]
     /\ session_at i j (final (dispatch_packet file p from w))
        = Some (set_receiver
                  (Some {| rcv_status := OPEN;
                           expected_seqno := expected_seqno r;
                           rcv_session_finished := true |}) s)
     /\ (close_requested k = false ->
         dispatch_packet file p from w
         = Done 0 (upd_receiver i j (set_rcv_session_finished true)
                     (set_trace
                        (trace w
                         ++ [Sendto file (ack_packet (u32 (expected_seqno r + 1))) from])
                        w))))
  /\ (seqno (header p) <> expected_seqno r ->
      dispatch_packet file p from w = Done 0 w).
Proof.
  intros Hroute Hr Hopen Hty.
  apply route_Some in Hroute as (Hi & Hk & Hj & Hs).
  destruct (seek_socket_nonempty _ _ _ Hi) as (k0 & rest & Hl).
  assert (Hss : exists s0 ss, sessions_list_head k = s0 :: ss).
  { destruct (sessions_list_head k); [discriminate | eauto]. }
  destruct Hss as (s0 & ss & Hss).
  assert (Hrun : dispatch_packet file p from w
                 = bind (fin_for_session file i j (header p) from) (fun _ => ret 0) w).
  { unfold dispatch_packet. run. rewrite Hl, <- Hl, Hi, Hk.
    rewrite Hss, <- Hss, Hj, Hty. reflexivity. }
  rewrite Hrun. clear Hrun.
  split.
  - intros He. apply Z.eqb_eq in He.
    set (w1 := upd_receiver i j (set_rcv_session_finished true)
                 (set_trace
                    (trace w ++ [Sendto file (ack_packet (u32 (expected_seqno r + 1))) from])
                    w)).
    assert (Hfin : fin_for_session file i j (header p) from w
                   = close_if_done file from i w1).
    { unfold fin_for_session. run. rewrite Hk, Hs, Hr, Hopen. cbn -[close_if_done].
      rewrite He. reflexivity. }
    assert (Hk1 : socket_list_head w1 !! i
                  = Some (set_sessions_list_head
                            (alter (fun s => set_receiver
                                      (set_rcv_session_finished true <$> receiver s) s)
                               j (sessions_list_head k)) k)).
    { unfold w1, upd_receiver, upd_session, upd_socket. cbn.
      rewrite list_lookup_alter_eq, Hk. reflexivity. }
    assert (Hb : bind (fin_for_session file i j (header p) from) (fun _ => ret 0) w
                 = match close_if_done file from i w1 with
                   | Done _ w' => ret 0 w'
                   | Fault w' => Fault w'
                   end).
    { unfold bind. rewrite Hfin. reflexivity. }
    rewrite Hb. clear Hb.
    pose proof (close_if_done_final file from i w1) as (Hsl & _ & Hsent & _).
    assert (Hfinal : forall (o : outcome unit),
               final (match o with
                      | Done _ w' => ret 0 w'
                      | Fault w' => Fault w'
                      end) = final o).
    { intros [[] w' | w']; reflexivity. }
    rewrite Hfinal. repeat split.
    + rewrite Hsent. unfold w1, upd_receiver, upd_session, upd_socket, sent. cbn.
      rewrite flat_map_app. reflexivity.
    + unfold session_at, socket_at. rewrite Hsl, Hk1. cbn.
      rewrite list_lookup_alter_eq, Hs. cbn. rewrite Hr. cbn.
      destruct r as [st e f]. cbn in *. rewrite Hopen. reflexivity.
    + intros Hc. rewrite (close_if_done_not_requested _ _ _ _ _ Hk1 Hc). reflexivity.
  - intros Hne. apply Z.eqb_neq in Hne.
    unfold fin_for_session. run. rewrite Hk, Hs, Hr, Hopen. cbn. rewrite Hne.
    reflexivity.
Qed.

Lemma fin_is_acked_and_expected_seqno_kept_witness :
  sent (trace (final (dispatch_packet 4 fin_103 host_A receiver_world)))
  = sent (trace receiver_world) ++ [(4, ack_packet (u32 (103 + 1)), host_A)]
  /\ session_at 0 0 (final (dispatch_packet 4 fin_103 host_A receiver_world))
     = Some (mk_session None (Some (mk_receiver OPEN 103 true)) host_A).
Proof.
  pose proof (fin_is_acked_and_expected_seqno_kept 4 host_A receiver_world fin_103 0 0
                (mk_socket 4 false (Some 1%nat) (Some 2%nat)
                   [mk_session None (Some (mk_receiver OPEN 103 false)) host_A])
                (mk_session None (Some (mk_receiver OPEN 103 false)) host_A)
                (mk_receiver OPEN 103 false)
                ltac:(vm_compute; reflexivity) eq_refl eq_refl eq_refl) as [Hacc _].
  destruct (Hacc eq_refl) as (Hsent & Hsess & _).
  split; [exact Hsent | exact Hsess].
Defined.

(** C7, as stated, fails: after the FIN with the expected sequence number 103
    was accepted, [expected_seqno] is still 103, not 104. *)
Lemma fin_does_not_advance_expected_seqno :
  expected_at 0 0 receiver_world = Some 103 /\
  sent (trace (final (dispatch_packet 4 fin_103 host_A receiver_world)))
  = sent (trace receiver_world) ++ [(4, ack_packet 104, host_A)] /\
  expected_at 0 0 (final (dispatch_packet 4 fin_103 host_A receiver_world)) = Some 103 /\
  expected_at 0 0 (final (dispatch_packet 4 fin_103 host_A receiver_world))
  <> Some (u32 (103 + 1)).
Proof. vm_compute. repeat split; discriminate. Qed.

(** ** Registering the callbacks *)

(** C10.  With a NULL function pointer, [rudp_recvfrom_handler] and
    [rudp_event_handler] return -1 and change nothing.  With a non-null
    pointer and a socket of the list, each returns 0 and the only change is
    that this socket's callback of that kind is the new pointer. *)
Theorem handler_registration (rsocket : Z) (w : world) :
  rudp_recvfrom_handler rsocket None w = Done (-1) w /\
  rudp_event_handler rsocket None w = Done (-1) w /\
  forall (i : nat) (k : rudp_socket_list) (h : fnptr),
    seek_socket rsocket (socket_list_head w) = Some i ->
    socket_at i w = Some k ->
    (rudp_recvfrom_handler rsocket (Some h) w
     = Done 0 (upd_socket i (set_recv_handler (Some h)) w) /\
     socket_at i (upd_socket i (set_recv_handler (Some h)) w)
     = Some (mk_socket (rsock k) (close_requested k) (Some h) (handler k)
               (sessions_list_head k))) /\
    (rudp_event_handler rsocket (Some h) w
     = Done 0 (upd_socket i (set_handler (Some h)) w) /\
     socket_at i (upd_socket i (set_handler (Some h)) w)
     = Some (mk_socket (rsock k) (close_requested k) (recv_handler k) (Some h)
               (sessions_list_head k))).
Proof.
  split; [reflexivity |]. split; [reflexivity |].
  intros i k h Hi Hk.
  pose proof (seek_socket_or_last_found _ _ _ Hi) as Hlast.
  destruct (seek_socket_Some _ _ _ Hi) as (k' & Hk' & Hrs).
  unfold socket_at in Hk. rewrite Hk in Hk'. injection Hk' as <-.
  apply Z.eqb_eq in Hrs.
  unfold rudp_recvfrom_handler, rudp_event_handler. run.
  rewrite Hlast. cbn. rewrite Hk. cbn. rewrite Hrs. cbn.
  unfold upd_socket. cbn. rewrite !list_lookup_alter_eq, Hk. cbn.
  repeat split.
Qed.

Lemma handler_registration_witness :
  rudp_recvfrom_handler 4 (Some 7%nat) receiver_world
  = Done 0 (upd_socket 0 (set_recv_handler (Some 7%nat)) receiver_world) /\
  rudp_event_handler 4 (Some 8%nat) receiver_world
  = Done 0 (upd_socket 0 (set_handler (Some 8%nat)) receiver_world).
Proof.
  destruct (handler_registration 4 receiver_world) as (_ & _ & H).
  split.
  - apply (H 0%nat
             (mk_socket 4 false (Some 1%nat) (Some 2%nat)
                [mk_session None (Some (mk_receiver OPEN 103 false)) host_A])
             7%nat); vm_compute; reflexivity.
  - apply (H 0%nat
             (mk_socket 4 false (Some 1%nat) (Some 2%nat)
                [mk_session None (Some (mk_receiver OPEN 103 false)) host_A])
             8%nat); vm_compute; reflexivity.
Defined.

(** ** The datagram on the wire *)

Lemma Z_of_byte_of_Z (z : Z) : Z_of_byte (byte_of_Z z) = z mod 256.
Proof.
  unfold Z_of_byte, byte_of_Z.
  pose proof (Z.mod_pos_bound z 256 ltac:(lia)) as B.
  destruct (Byte.of_N (Z.to_N (z mod 256))) as [b |] eqn:E.
  - apply Byte.to_of_N in E. rewrite E. apply Z2N.id. lia.
  - apply Byte.of_N_None_iff in E. lia.
Qed.

Lemma length_le_bytes (n : nat) (z : Z) : length (le_bytes n z) = n.
Proof. revert z. induction n as [| n IH]; intros z; cbn; [reflexivity |]. now rewrite IH. Qed.

Lemma length_store (host : byte_order) (n : nat) (z : Z) : length (store host n z) = n.
Proof. destruct host; cbn; [| rewrite length_rev]; apply length_le_bytes. Qed.

Lemma le_value_le_bytes (n : nat) (z : Z) :
  le_value (le_bytes n z) = z mod 256 ^ Z.of_nat n.
Proof.
  revert z. induction n as [| n IH]; intros z.
  - cbn. now rewrite Z.mod_1_r.
  - cbn [le_bytes le_value]. rewrite Z_of_byte_of_Z, IH.
    rewrite Nat2Z.inj_succ, Z.pow_succ_r by lia.
    rewrite Z.rem_mul_r by lia. reflexivity.
Qed.

Lemma load_store (host : byte_order) (n : nat) (z : Z) :
  load host (store host n z) = z mod 256 ^ Z.of_nat n.
Proof.
  destruct host; cbn; [| rewrite rev_involutive]; apply le_value_le_bytes.
Qed.

Lemma length_char_array (n : nat) (bs : list byte) : length (char_array n bs) = n.
Proof.
  unfold char_array. rewrite length_firstn, length_app, repeat_length. lia.
Qed.

Lemma char_array_full (n : nat) (bs : list byte) : length bs = n -> char_array n bs = bs.
Proof.
  intros H. unfold char_array. rewrite firstn_app, H, Nat.sub_diag. cbn.
  rewrite app_nil_r. apply firstn_all2. lia.
Qed.

Lemma length_packet_bytes (host : byte_order) (p : rudp_packet) :
  length (packet_bytes host p) = sizeof_rudp_packet.
Proof.
  unfold packet_bytes, hdr_bytes.
  rewrite !length_app, !length_store, length_char_array. reflexivity.
Qed.

Lemma firstn_exact {A} (n : nat) (a rest : list A) :
  length a = n -> firstn n (a ++ rest) = a.
Proof.
  intros H. rewrite firstn_app, H, Nat.sub_diag. change (firstn 0 rest) with (@nil A).
  rewrite app_nil_r. apply firstn_all2. lia.
Qed.

(** The five fields of the structure, read back at their offsets. *)
Lemma fields_of_image (a b c d e rest : list byte) :
  length a = 2%nat -> length b = 2%nat -> length c = 4%nat -> length d = 4%nat ->
  length e = Z.to_nat RUDP_MAXPKTSIZE ->
  let image := a ++ b ++ c ++ d ++ e ++ rest in
  bytes_at 0 2 image = a /\ bytes_at 2 2 image = b /\ bytes_at 4 4 image = c /\
  bytes_at 8 4 image = d /\ bytes_at 12 (Z.to_nat RUDP_MAXPKTSIZE) image = e.
Proof.
  intros Ha Hb Hc Hd He.
  destruct a as [| a0 [| a1 [| ? ?]]]; try discriminate.
  destruct b as [| b0 [| b1 [| ? ?]]]; try discriminate.
  destruct c as [| c0 [| c1 [| c2 [| c3 [| ? ?]]]]]; try discriminate.
  destruct d as [| d0 [| d1 [| d2 [| d3 [| ? ?]]]]]; try discriminate.
  cbv zeta. unfold bytes_at. cbn [app skipn]. repeat split.
  apply firstn_exact. exact He.
Qed.

Lemma recvfrom_full (stack d : list byte) :
  length d = sizeof_rudp_packet -> length stack = sizeof_rudp_packet ->
  recvfrom stack d = d.
Proof.
  intros Hd Hs. unfold recvfrom. cbv zeta. rewrite firstn_all2 by lia.
  rewrite skipn_all2 by lia. apply app_nil_r.
Qed.

Lemma int32_mod (z : Z) : - 2 ^ 31 <= z < 2 ^ 31 -> int32 (z mod 256 ^ Z.of_nat 4) = z.
Proof.
  intros H. unfold int32. change (256 ^ Z.of_nat 4) with (2 ^ 32).
  rewrite Z.add_mod_idemp_l by lia. rewrite Z.mod_small; lia.
Qed.

(** A packet survives the trip through its in-memory image. *)
Lemma packet_of_bytes_packet_bytes (host : byte_order) (p : rudp_packet) :
  well_typed_packet p -> packet_of_bytes host (packet_bytes host p) = p.
Proof.
  intros (Hv & Ht & Hs & Hl & Hp).
  destruct p as [[v t s] l pl]. cbn in *.
  unfold packet_of_bytes, packet_bytes, hdr_bytes.
  cbn [version type seqno header payload_length payload].
  rewrite char_array_full by exact Hp.
  rewrite <- !app_assoc. rewrite <- (app_nil_r pl) at 1 2 3 4 5.
  destruct (fields_of_image (store host 2 v) (store host 2 t) (store host 4 s)
              (store host 4 l) pl [])
    as (-> & -> & -> & -> & ->); try apply length_store; try exact Hp.
  rewrite !load_store, int32_mod by exact Hl.
  change (256 ^ Z.of_nat 2) with (2 ^ 16). change (256 ^ Z.of_nat 4) with (2 ^ 32).
  rewrite !Z.mod_small by lia. reflexivity.
Qed.

(** Case analysis on whatever the run branches on next. *)
Ltac branch :=
  match goal with
  | |- context [match ?x with _ => _ end] =>
      lazymatch x with
      | context [match _ with _ => _ end] => fail
      | _ => destruct x eqn:?
      end
  | |- context [if ?x then _ else _] =>
      lazymatch x with
      | context [if _ then _ else _] => fail
      | _ => destruct x eqn:?
      end
  end.

Lemma remember_timeout_trace (i j : nat) (t : ptr) (p : rudp_packet) (w : world) :
  trace (final (remember_timeout i j t p w)) = trace w.
Proof.
  unfold remember_timeout. run.
  repeat (branch; cbn); reflexivity.
Qed.

(** [send_packet] hands exactly its packet to [sendto], whatever happens to
    the timer bookkeeping afterwards. *)
Lemma send_packet_trace (is_ack : bool) (rsocket : Z) (p : rudp_packet)
  (recipient : sockaddr_in) (w : world) :
  trace (final (send_packet is_ack rsocket p recipient w))
  = trace w ++ [Sendto rsocket p recipient].
Proof.
  unfold send_packet. run. destruct is_ack; cbn; [reflexivity |].
  destruct (seek_socket rsocket (socket_list_head w)) as [i |]; cbn; [| reflexivity].
  destruct (socket_list_head w !! i) as [k |]; cbn; [| reflexivity].
  destruct (seek_session recipient (sessions_list_head k)) as [j |]; cbn; [| reflexivity].
  match goal with
  | |- context [remember_timeout i j ?t p ?w1] =>
      pose proof (remember_timeout_trace i j t p w1) as H;
      destruct (remember_timeout i j t p w1) as [[] w2 | w2]; cbn in *; exact H
  end.
Qed.

(** C5 (amended).  For every packet the engine transmits, [sendto] receives
    the packet's in-memory image: [sizeof(struct rudp_packet)] = 1012 bytes
    made of the 8-byte header (version, type, sequence number), the 4-byte
    [payload_length] and the full 1000-byte payload array, integers in the
    byte order of the host.  Reading the datagram back as the receiver does
    yields the same packet, so the payload length is recovered from the
    [payload_length] field and not from the length of the datagram. *)
Theorem transmitted_datagram_is_packet_image
  (host : byte_order) (is_ack : bool) (rsocket : Z) (p : rudp_packet)
  (recipient : sockaddr_in) (w : world) (stack : list byte) :
  well_typed_packet p ->
  length stack = sizeof_rudp_packet ->
  datagrams host (trace (final (send_packet is_ack rsocket p recipient w)))
  = datagrams host (trace w) ++ [packet_bytes host p] /\
  packet_bytes host p
  = store host 2 (version (header p)) ++ store host 2 (type (header p))
    ++ store host 4 (seqno (header p)) ++ store host 4 (payload_length p)
    ++ payload p /\
  length (packet_bytes host p) = 1012%nat /\
  packet_of_bytes host (recvfrom stack (packet_bytes host p)) = p.
Proof.
  intros Hp Hstack. repeat split.
  - rewrite send_packet_trace. unfold datagrams, sent.
    rewrite flat_map_app, map_app. reflexivity.
  - destruct Hp as (_ & _ & _ & _ & Hlen).
    unfold packet_bytes, hdr_bytes. rewrite char_array_full by exact Hlen.
    rewrite <- !app_assoc. reflexivity.
  - apply length_packet_bytes.
  - rewrite recvfrom_full by (apply length_packet_bytes || exact Hstack).
    apply packet_of_bytes_packet_bytes. exact Hp.
Qed.

Lemma transmitted_datagram_is_packet_image_witness :
  datagrams LittleEndian (trace (final (send_packet false 3 data_101 host_B sender_world)))
  = datagrams LittleEndian (trace sender_world) ++ [packet_bytes LittleEndian data_101] /\
  length (packet_bytes LittleEndian data_101) = 1012%nat /\
  packet_of_bytes LittleEndian (recvfrom zero_stack (packet_bytes LittleEndian data_101))
  = data_101.
Proof.
  assert (Hp : well_typed_packet data_101).
  { unfold well_typed_packet. vm_compute. intuition discriminate. }
  destruct (transmitted_datagram_is_packet_image LittleEndian false 3 data_101 host_B
              sender_world zero_stack Hp eq_refl) as (H1 & _ & H2 & H3).
  split; [exact H1 | split; [exact H2 | exact H3]].
Defined.

(** C5, as stated, fails.  On a big-endian host, where host and network byte
    order agree, the datagram carrying the 5-byte payload "hello" is 1012
    bytes long: it is not the header followed by the five payload bytes, and
    its length minus 8 is not the payload length.  On a little-endian host
    the header itself is not in network byte order either. *)
Lemma datagram_is_not_header_then_payload :
  datagrams BigEndian (trace (final (send_packet true 4 data_101 host_A receiver_world)))
  = datagrams BigEndian (trace receiver_world) ++ [packet_bytes BigEndian data_101] /\
  packet_bytes BigEndian data_101 <> spec_header_bytes (header data_101) ++ hello /\
  Z.of_nat (length (packet_bytes BigEndian data_101)) - 8 <> payload_length data_101 /\
  firstn 8 (packet_bytes LittleEndian data_101) <> spec_header_bytes (header data_101).
Proof.
  split; [| split; [| split]].
  - vm_compute. reflexivity.
  - intros H. apply (f_equal (@length byte)) in H. vm_compute in H. discriminate.
  - vm_compute. discriminate.
  - vm_compute. discriminate.
Qed.

(** ** Decoding and dispatch *)

Lemma length_recvfrom (stack d : list byte) :
  length stack = sizeof_rudp_packet -> length (recvfrom stack d) = sizeof_rudp_packet.
Proof.
  intros Hs. unfold recvfrom. cbv zeta.
  rewrite length_app, length_skipn, length_firstn, Hs. lia.
Qed.

(** C4, as stated, fails.  A SYN whose version field is 2 and a 4-byte
    datagram are both accepted: each creates a receiver session and is
    answered by an ACK; a DATA packet with version 7 is acknowledged and
    passed to the data-received callback. *)
Lemma version_and_length_are_not_checked :
  (sent (trace (final (receive_callback LittleEndian zero_stack 4 syn_version_2 host_A
                         listening_world)))
   = [(4, ack_packet 101, host_A)] /\
   session_at 0 0 (final (receive_callback LittleEndian zero_stack 4 syn_version_2 host_A
                            listening_world))
   = Some (mk_session None (Some (mk_receiver OPENING 101 false)) host_A)) /\
  (length short_syn = 4%nat /\
   sent (trace (final (receive_callback LittleEndian zero_stack 4 short_syn host_A
                         listening_world)))
   = [(4, ack_packet 1, host_A)] /\
   session_at 0 0 (final (receive_callback LittleEndian zero_stack 4 short_syn host_A
                            listening_world))
   = Some (mk_session None (Some (mk_receiver OPENING 1 false)) host_A)) /\
  (sent (trace (final (receive_callback LittleEndian zero_stack 4 data_version_7 host_A
                         receiver_world)))
   = sent (trace receiver_world) ++ [(4, ack_packet 104, host_A)] /\
   delivered (trace (final (receive_callback LittleEndian zero_stack 4 data_version_7
                              host_A receiver_world)))
   = delivered (trace receiver_world)
     ++ [(char_array (Z.to_nat RUDP_MAXPKTSIZE) hello, 5)]).
Proof. vm_compute. repeat split. Qed.

(** C4 (amended).  The dispatcher checks neither the version field nor the
    length of the datagram: a packet is handled the same way whatever its
    version, and a datagram of any length is handled as the full-size buffer
    it leaves behind.  A packet whose type is none of DATA, ACK, SYN, FIN is
    ignored silently: no session is created or changed, nothing is sent and
    no callback runs. *)
Theorem dispatch_checks_type_only
  (host : byte_order) (stack datagram : list byte) (file : Z) (p : rudp_packet)
  (from : sockaddr_in) (w : world) :
  (forall v, dispatch_packet file (with_version v p) from w
             = dispatch_packet file p from w) /\
  (length stack = sizeof_rudp_packet ->
   receive_callback host stack file datagram from w
   = receive_callback host stack file (recvfrom stack datagram) from w) /\
  (unknown_type p ->
   final (dispatch_packet file p from w) = w /\
   forall i, seek_socket file (socket_list_head w) = Some i ->
             dispatch_packet file p from w = Done 0 w).
Proof.
  split; [| split].
  - intros v. reflexivity.
  - intros Hs. unfold receive_callback.
    rewrite (recvfrom_full stack (recvfrom stack datagram))
      by (apply length_recvfrom, Hs || exact Hs).
    reflexivity.
  - intros (Hd & Ha & Hsy & Hf).
    apply Z.eqb_neq in Hd, Ha, Hsy, Hf.
    assert (H : forall i, seek_socket file (socket_list_head w) = Some i ->
                          dispatch_packet file p from w = Done 0 w).
    { intros i Hi.
      destruct (seek_socket_nonempty _ _ _ Hi) as (k0 & rest & Hl).
      destruct (seek_socket_Some _ _ _ Hi) as (k & Hk & _).
      unfold dispatch_packet. run. rewrite Hl, <- Hl, Hi, Hk, Hd, Ha, Hsy, Hf. cbn.
      destruct (sessions_list_head k) as [| s0 ss] eqn:Hss; [reflexivity |].
      destruct (seek_session from (s0 :: ss)); reflexivity. }
    split; [| exact H].
    destruct (seek_socket file (socket_list_head w)) as [i |] eqn:Hi.
    + rewrite (H i eq_refl). reflexivity.
    + unfold dispatch_packet. run. rewrite Hi.
      destruct (socket_list_head w); reflexivity.
Qed.

Lemma dispatch_checks_type_only_witness :
  receive_callback LittleEndian zero_stack 4 short_syn host_A listening_world
  = receive_callback LittleEndian zero_stack 4 (recvfrom zero_stack short_syn) host_A
      listening_world /\
  dispatch_packet 4 (create_rudp_packet 3 100 0 None) host_A receiver_world
  = Done 0 receiver_world.
Proof.
  destruct (dispatch_checks_type_only LittleEndian zero_stack short_syn 4
              (create_rudp_packet 3 100 0 None) host_A listening_world)
    as (_ & Hlen & _).
  destruct (dispatch_checks_type_only LittleEndian zero_stack short_syn 4
              (create_rudp_packet 3 100 0 None) host_A receiver_world)
    as (_ & _ & Hty).
  split.
  - apply Hlen. reflexivity.
  - refine (proj2 (Hty _) 0%nat _).
    + unfold unknown_type. vm_compute. repeat split; discriminate.
    + vm_compute. reflexivity.
Defined.

(** ** Updates keep the routes *)

Lemma seek_socket_alter (f : rudp_socket_list -> rudp_socket_list) (rsocket : Z)
  (i : nat) (l : list rudp_socket_list) :
  (forall k, rsock (f k) = rsock k) ->
  seek_socket rsocket (alter f i l) = seek_socket rsocket l.
Proof.
  intros Hf. revert i. induction l as [| k l IH]; intros i; [reflexivity |].
  destruct i as [| i]; cbn.
  - rewrite Hf. reflexivity.
  - rewrite IH. reflexivity.
Qed.

Lemma seek_session_alter (f : session -> session) (addr : sockaddr_in)
  (j : nat) (l : list session) :
  (forall s, address (f s) = address s) ->
  seek_session addr (alter f j l) = seek_session addr l.
Proof.
  intros Hf. revert j. induction l as [| s l IH]; intros j; [reflexivity |].
  destruct j as [| j]; cbn.
  - rewrite Hf. reflexivity.
  - rewrite IH. reflexivity.
Qed.

Lemma route_upd_session (file : Z) (peer : sockaddr_in) (w : world)
  (i j : nat) (k : rudp_socket_list) (s : session) (f : session -> session) :
  route file peer w = Some (i, j, k, s) ->
  (forall s, address (f s) = address s) ->
  route file peer (upd_session i j f w)
  = Some (i, j, set_sessions_list_head (alter f j (sessions_list_head k)) k, f s).
Proof.
  intros Hr Hf. apply route_Some in Hr as (Hi & Hk & Hj & Hs).
  unfold route, upd_session, upd_socket, socket_at. cbn.
  rewrite seek_socket_alter by reflexivity. rewrite Hi.
  rewrite list_lookup_alter_eq, Hk. cbn.
  rewrite seek_session_alter by exact Hf. rewrite Hj.
  rewrite list_lookup_alter_eq, Hs. reflexivity.
Qed.

Lemma route_upd_sender (file : Z) (peer : sockaddr_in) (w : world)
  (i j : nat) (k : rudp_socket_list) (s : session)
  (f : sender_session -> sender_session) :
  route file peer w = Some (i, j, k, s) ->
  route file peer (upd_sender i j f w)
  = Some (i, j,
          set_sessions_list_head
            (alter (fun s => set_sender (f <$> sender s) s) j (sessions_list_head k)) k,
          set_sender (f <$> sender s) s).
Proof.
  intros Hr.
  apply (route_upd_session file peer w i j k s
           (fun s => set_sender (f <$> sender s) s) Hr).
  reflexivity.
Qed.

(** Two updates of the same session agree when they agree on that session. *)
Lemma upd_session_ext (i j : nat) (f g : session -> session) (w : world)
  (s : session) :
  session_at i j w = Some s -> f s = g s -> upd_session i j f w = upd_session i j g w.
Proof.
  unfold session_at, socket_at, upd_session, upd_socket. intros Hs Hfg.
  destruct (socket_list_head w !! i) as [k |] eqn:Hk; [| discriminate].
  f_equal. apply list_alter_ext; [| reflexivity].
  intros k' Hk'. rewrite Hk in Hk'. injection Hk' as <-.
  f_equal. apply list_alter_ext; [| reflexivity].
  intros s' Hs'. rewrite Hs in Hs'. injection Hs' as <-. exact Hfg.
Qed.

Lemma upd_sender_ext (i j : nat) (f g : sender_session -> sender_session)
  (w : world) (s : session) (sd : sender_session) :
  session_at i j w = Some s -> sender s = Some sd -> f sd = g sd ->
  upd_sender i j f w = upd_sender i j g w.
Proof.
  intros Hs Hsd Hfg. apply (upd_session_ext i j _ _ w s Hs).
  rewrite Hsd. cbn. rewrite Hfg. reflexivity.
Qed.

Lemma upd_sender_id (i j : nat) (w : world) : upd_sender i j (fun sd => sd) w = w.
Proof.
  unfold upd_sender, upd_session, upd_socket.
  rewrite list_alter_id.
  - destruct w; reflexivity.
  - intros k. rewrite list_alter_id.
    + destruct k; reflexivity.
    + intros [[sd |] r a]; reflexivity.
Qed.

Lemma route_session_at (file : Z) (peer : sockaddr_in) (w : world)
  (i j : nat) (k : rudp_socket_list) (s : session) :
  route file peer w = Some (i, j, k, s) -> session_at i j w = Some s.
Proof.
  intros Hr. apply route_Some in Hr as (_ & Hk & _ & Hs).
  unfold session_at, socket_at. rewrite Hk. exact Hs.
Qed.

(** ** send_packet with a timer *)

(** A packet that is not an ACK, sent to a peer whose session has a sender
    half: the datagram goes out, a fresh timer argument holding a copy of
    the packet is registered, and the sender half remembers it. *)
Lemma send_packet_with_timer (rsocket : Z) (p : rudp_packet)
  (recipient : sockaddr_in) (w : world)
  (i j : nat) (k : rudp_socket_list) (s : session) (sd : sender_session) :
  route rsocket recipient w = Some (i, j, k, s) ->
  sender s = Some sd ->
  can_remember p sd ->
  send_packet false rsocket p recipient w
  = Done 0 (after_send rsocket p recipient i j w).
Proof.
  intros Hr Hsd Hcan.
  pose proof (route_session_at _ _ _ _ _ _ _ Hr) as Hsess.
  apply route_Some in Hr as (Hi & Hk & Hj & Hs).
  unfold send_packet, after_send. run. cbn. rewrite Hi. cbn. rewrite Hk. cbn.
  rewrite Hj. unfold remember_timeout, remember_in. run. cbn.
  destruct (type (header p) =? RUDP_SYN) eqn:Esyn; cbn;
    [rewrite Hk, Hs, Hsd; reflexivity |].
  destruct (type (header p) =? RUDP_FIN) eqn:Efin; cbn;
    [rewrite Hk, Hs, Hsd; reflexivity |].
  destruct (type (header p) =? RUDP_DATA) eqn:Edata; cbn.
  - rewrite Hk, Hs, Hsd. cbn.
    apply Z.eqb_eq in Edata. specialize (Hcan Edata).
    destruct (matching_slot (sliding_window sd) (seqno (header p))) as [index |] eqn:Em;
      [| congruence].
    cbn. do 2 f_equal.
    apply (upd_sender_ext i j _ _ _ s sd).
    + unfold session_at, socket_at. cbn. rewrite Hk. exact Hs.
    + exact Hsd.
    + rewrite Em. reflexivity.
  - do 2 f_equal. rewrite upd_sender_id. reflexivity.
Qed.

(** ** timeout_callback *)

Lemma matching_slot_bound (win : list (option rudp_packet)) (s : Z) (index : nat) :
  matching_slot win s = Some index -> (index < Z.to_nat RUDP_WINDOW)%nat.
Proof.
  unfold matching_slot, window_slots. change (Z.to_nat RUDP_WINDOW) with 3%nat. cbn.
  repeat (match goal with
          | |- context [match ?x with _ => _ end] => destruct x
          | |- context [if ?x then _ else _] => destruct x
          end);
    intros H; try discriminate H; injection H as <-; cbn; lia.
Qed.

Lemma remember_in_keeps (t : ptr) (p : rudp_packet) (sd : sender_session) :
  sliding_window (remember_in t p sd) = sliding_window sd /\
  retransmission_attempts (remember_in t p sd) = retransmission_attempts sd /\
  syn_retransmit_attempts (remember_in t p sd) = syn_retransmit_attempts sd /\
  fin_retransmit_attempts (remember_in t p sd) = fin_retransmit_attempts sd /\
  data_queue (remember_in t p sd) = data_queue sd /\
  snd_status (remember_in t p sd) = snd_status sd /\
  snd_seqno (remember_in t p sd) = snd_seqno sd /\
  snd_session_finished (remember_in t p sd) = snd_session_finished sd.
Proof.
  unfold remember_in.
  destruct (type (header p) =? RUDP_SYN); [repeat split |].
  destruct (type (header p) =? RUDP_FIN); [repeat split |].
  destruct (type (header p) =? RUDP_DATA); [| repeat split].
  destruct (matching_slot (sliding_window sd) (seqno (header p))); repeat split.
Qed.

Lemma retry_counter_remember_in (t : ptr) (p q : rudp_packet) (sd : sender_session) :
  retry_counter q (remember_in t p sd) = retry_counter q sd.
Proof.
  destruct (remember_in_keeps t p sd) as (Hw & Hr & Hs & Hf & _).
  unfold retry_counter. rewrite Hw, Hr, Hs, Hf. reflexivity.
Qed.

Lemma retry_counter_count_retry (p : rudp_packet) (sd : sender_session) (c : Z) :
  window_arrays sd ->
  retry_counter p sd = Some c ->
  retry_counter p (count_retry p sd) = Some (c + 1).
Proof.
  intros (_ & Hlen & _). unfold retry_counter, count_retry.
  destruct (type (header p) =? RUDP_SYN); [intros [= <-]; reflexivity |].
  destruct (type (header p) =? RUDP_FIN); [intros [= <-]; reflexivity |].
  destruct (matching_slot (sliding_window sd) (seqno (header p))) as [index |] eqn:Em;
    [| discriminate].
  intros [= <-]. cbn. rewrite Em. f_equal.
  apply matching_slot_bound in Em.
  apply nth_lookup_Some with (d := 0).
  apply list_lookup_insert_eq. lia.
Qed.

Lemma window_arrays_count_retry (p : rudp_packet) (sd : sender_session) :
  window_arrays sd -> window_arrays (count_retry p sd).
Proof.
  intros (H1 & H2 & H3). unfold window_arrays, count_retry.
  repeat (match goal with
          | |- context [if ?b then _ else _] => destruct b
          | |- context [match matching_slot ?a ?b with _ => _ end] =>
              destruct (matching_slot a b)
          end; cbn); rewrite ?length_insert; auto.
Qed.

Lemma count_retry_keeps (p : rudp_packet) (sd : sender_session) :
  sliding_window (count_retry p sd) = sliding_window sd /\
  data_queue (count_retry p sd) = data_queue sd /\
  snd_status (count_retry p sd) = snd_status sd /\
  snd_seqno (count_retry p sd) = snd_seqno sd.
Proof.
  unfold count_retry.
  destruct (type (header p) =? RUDP_SYN); [repeat split |].
  destruct (type (header p) =? RUDP_FIN); [repeat split |].
  destruct (matching_slot (sliding_window sd) (seqno (header p))); repeat split.
Qed.

(** For a timer whose socket and session exist, [timeout_callback] is the
    part for that session followed by the final [free]. *)
Lemma timeout_callback_for_session (unused : Z) (timeargs : timeoutargs) (w : world)
  (i j : nat) (k : rudp_socket_list) (s : session) :
  route (fd timeargs) (recipient timeargs) w = Some (i, j, k, s) ->
  timeout_callback unused timeargs w
  = bind (timeout_for_session i j timeargs)
      (fun released => bind (free_packet released) (fun _ => ret 0)) w.
Proof.
  intros Hr. apply route_Some in Hr as (Hi & Hk & Hj & Hs).
  unfold timeout_callback. unfold bind at 1, gets at 1.
  unfold bind at 1. rewrite Hi. unfold deref at 1, ret at 1.
  unfold bind at 1, the_socket at 1, bind at 1, gets at 1, socket_at at 1.
  rewrite Hk. unfold deref at 1, ret at 1. rewrite Hj. reflexivity.
Qed.

(** At the ceiling with an event callback: the callback is called, the
    packet is released once, and the call returns. *)
Lemma timeout_gives_up (unused : Z) (timeargs : timeoutargs) (w : world)
  (i j : nat) (k : rudp_socket_list) (s : session) (sd : sender_session)
  (c : Z) (h : fnptr) :
  route (fd timeargs) (recipient timeargs) w = Some (i, j, k, s) ->
  sender s = Some sd ->
  retry_counter (packet timeargs) sd = Some c ->
  RUDP_MAXRETRANS <= c ->
  handler k = Some h ->
  timeout_callback unused timeargs w
  = Done 0 (set_trace
              (trace w ++ [EventUpcall h (fd timeargs) RUDP_EVENT_TIMEOUT
                             (recipient timeargs)]) w).
Proof.
  intros Hr Hsd Hc Hge Hh.
  rewrite (timeout_callback_for_session unused timeargs w i j k s Hr).
  apply route_Some in Hr as (Hi & Hk & Hj & Hs).
  apply Z.geb_le in Hge.
  unfold timeout_for_session, report_timeout, free_packet. run. rewrite Hk, Hs, Hsd. cbn.
  unfold retry_counter in Hc.
  destruct (type (header (packet timeargs)) =? RUDP_SYN).
  { injection Hc as <-. rewrite Hge. cbn. rewrite Hk. cbn. rewrite Hh. reflexivity. }
  destruct (type (header (packet timeargs)) =? RUDP_FIN).
  { injection Hc as <-. rewrite Hge. cbn. rewrite Hk. cbn. rewrite Hh. reflexivity. }
  destruct (matching_slot (sliding_window sd) (seqno (header (packet timeargs))))
    as [index |]; [| discriminate].
  injection Hc as <-. cbn. rewrite Hge. cbn. rewrite Hk. cbn. rewrite Hh. reflexivity.
Qed.

(** At the ceiling without an event callback: the call goes through the
    NULL pointer. *)
Lemma timeout_without_handler (unused : Z) (timeargs : timeoutargs) (w : world)
  (i j : nat) (k : rudp_socket_list) (s : session) (sd : sender_session) (c : Z) :
  route (fd timeargs) (recipient timeargs) w = Some (i, j, k, s) ->
  sender s = Some sd ->
  retry_counter (packet timeargs) sd = Some c ->
  RUDP_MAXRETRANS <= c ->
  handler k = None ->
  timeout_callback unused timeargs w = Fault w.
Proof.
  intros Hr Hsd Hc Hge Hh.
  rewrite (timeout_callback_for_session unused timeargs w i j k s Hr).
  apply route_Some in Hr as (Hi & Hk & Hj & Hs).
  apply Z.geb_le in Hge.
  unfold timeout_for_session, report_timeout, free_packet. run. rewrite Hk, Hs, Hsd. cbn.
  unfold retry_counter in Hc.
  destruct (type (header (packet timeargs)) =? RUDP_SYN).
  { injection Hc as <-. rewrite Hge. cbn. rewrite Hk. cbn. rewrite Hh. reflexivity. }
  destruct (type (header (packet timeargs)) =? RUDP_FIN).
  { injection Hc as <-. rewrite Hge. cbn. rewrite Hk. cbn. rewrite Hh. reflexivity. }
  destruct (matching_slot (sliding_window sd) (seqno (header (packet timeargs))))
    as [index |]; [| discriminate].
  injection Hc as <-. cbn. rewrite Hge. cbn. rewrite Hk. cbn. rewrite Hh. reflexivity.
Qed.

(** Below the ceiling: the counter goes up, the packet is sent again with a
    timer of its own and released, and the [free] that ends the function
    releases it a second time. *)
Lemma timeout_sends_again (unused : Z) (timeargs : timeoutargs) (w : world)
  (i j : nat) (k : rudp_socket_list) (s : session) (sd : sender_session) (c : Z) :
  route (fd timeargs) (recipient timeargs) w = Some (i, j, k, s) ->
  sender s = Some sd ->
  retry_counter (packet timeargs) sd = Some c ->
  c < RUDP_MAXRETRANS ->
  timeout_callback unused timeargs w
  = Fault (after_send (fd timeargs) (packet timeargs) (recipient timeargs) i j
             (upd_sender i j (count_retry (packet timeargs)) w)).
Proof.
  intros Hr Hsd Hc Hlt.
  rewrite (timeout_callback_for_session unused timeargs w i j k s Hr).
  pose proof (route_session_at _ _ _ _ _ _ _ Hr) as Hsess.
  pose proof Hr as Hr'. apply route_Some in Hr' as (Hi & Hk & Hj & Hs).
  set (w1 := upd_sender i j (count_retry (packet timeargs)) w).
  assert (Hlt' : (c >=? RUDP_MAXRETRANS) = false).
  { destruct (Z.geb_spec c RUDP_MAXRETRANS); [lia | reflexivity]. }
  pose proof (route_upd_sender _ _ w i j k s (count_retry (packet timeargs)) Hr) as Hr1.
  fold w1 in Hr1.
  assert (Hcan : can_remember (packet timeargs) (count_retry (packet timeargs) sd)).
  { intros Hty. unfold retry_counter, count_retry in *. rewrite Hty in *.
    change (RUDP_DATA =? RUDP_SYN) with false in *.
    change (RUDP_DATA =? RUDP_FIN) with false in *. cbv iota in *.
    destruct (matching_slot (sliding_window sd) (seqno (header (packet timeargs))))
      as [index |] eqn:Em; [| discriminate].
    cbn. rewrite Em. discriminate. }
  assert (Hsend : send_packet false (fd timeargs) (packet timeargs)
                    (recipient timeargs) w1
                  = Done 0 (after_send (fd timeargs) (packet timeargs)
                              (recipient timeargs) i j w1)).
  { eapply send_packet_with_timer; [exact Hr1 | | exact Hcan].
    cbn. rewrite Hsd. reflexivity. }
  assert (Hstep : timeout_for_session i j timeargs w
                  = bind (retransmit timeargs) (fun _ => ret true) w1).
  { unfold timeout_for_session. run. rewrite Hk, Hs, Hsd. cbn.
    unfold retry_counter in Hc. unfold w1.
    destruct (type (header (packet timeargs)) =? RUDP_SYN) eqn:Esyn.
    { injection Hc as <-. rewrite Hlt'. cbn.
      rewrite (upd_sender_ext i j (count_retry (packet timeargs))
                 (set_syn_retransmit_attempts (syn_retransmit_attempts sd + 1))
                 w s sd Hsess Hsd); [reflexivity |].
      unfold count_retry. rewrite Esyn. reflexivity. }
    destruct (type (header (packet timeargs)) =? RUDP_FIN) eqn:Efin.
    { injection Hc as <-. rewrite Hlt'. cbn.
      rewrite (upd_sender_ext i j (count_retry (packet timeargs))
                 (set_fin_retransmit_attempts (fin_retransmit_attempts sd + 1))
                 w s sd Hsess Hsd); [reflexivity |].
      unfold count_retry. rewrite Esyn, Efin. reflexivity. }
    destruct (matching_slot (sliding_window sd) (seqno (header (packet timeargs))))
      as [index |] eqn:Em; [| discriminate].
    injection Hc as <-. cbn. rewrite Hlt'. cbn.
    rewrite (upd_sender_ext i j (count_retry (packet timeargs))
               (set_retransmission_attempts
                  (<[index := nth index (retransmission_attempts sd) 0 + 1]>
                     (retransmission_attempts sd)))
               w s sd Hsess Hsd); [reflexivity |].
    unfold count_retry. rewrite Esyn, Efin, Em. reflexivity. }
  unfold bind at 1. rewrite Hstep. unfold retransmit, bind. rewrite Hsend. reflexivity.
Qed.

(** C8.  A retransmission timer fires for a packet of a session with a
    sender half; [c] is the retry counter that belongs to the packet (the
    SYN counter, the FIN counter, or the counter of the window slot holding
    the DATA packet).  If [c] is below [RUDP_MAXRETRANS], the counter
    becomes [c + 1], the same packet is handed to [sendto] once more and a
    timer is registered for it again, as the claim says; but the branch
    releases [timeargs->packet] and the end of the function releases it a
    second time, so the call does not return: the run ends there.  If [c]
    has reached [RUDP_MAXRETRANS], a registered event callback gets a
    TIMEOUT event naming the peer, nothing is sent, the session is left as
    it is and the call returns 0; without a registered callback the call
    goes through the NULL pointer. *)
Theorem timeout_callback_releases_the_packet_twice
  (unused : Z) (timeargs : timeoutargs) (w : world)
  (i j : nat) (k : rudp_socket_list) (s : session) (sd : sender_session) (c : Z) :
  route (fd timeargs) (recipient timeargs) w = Some (i, j, k, s) ->
  sender s = Some sd ->
  window_arrays sd ->
  retry_counter (packet timeargs) sd = Some c ->
  (c < RUDP_MAXRETRANS ->
   exists w',
     timeout_callback unused timeargs w = Fault w' /\
     trace w' = trace w ++ [Sendto (fd timeargs) (packet timeargs) (recipient timeargs)] /\
     timeouts w' = timeouts w ++ [(next_alloc w, timeargs)] /\
     (exists sd', sender_at i j w' = Some sd' /\
                  retry_counter (packet timeargs) sd' = Some (c + 1) /\
                  sliding_window sd' = sliding_window sd /\
                  data_queue sd' = data_queue sd /\
                  snd_status sd' = snd_status sd /\
                  snd_seqno sd' = snd_seqno sd)) /\
  (RUDP_MAXRETRANS <= c ->
   (forall h, handler k = Some h ->
      timeout_callback unused timeargs w
      = Done 0 (set_trace
                  (trace w ++ [EventUpcall h (fd timeargs) RUDP_EVENT_TIMEOUT
                                 (recipient timeargs)])
                  w)) /\
   (handler k = None -> timeout_callback unused timeargs w = Fault w)).
Proof.
  intros Hr Hsd Hwf Hc. split.
  - intros Hlt.
    rewrite (timeout_sends_again unused timeargs w i j k s sd c Hr Hsd Hc Hlt).
    eexists. split; [reflexivity |].
    split; [reflexivity |].
    split; [cbn; destruct timeargs; reflexivity |].
    exists (remember_in (next_alloc w) (packet timeargs)
              (count_retry (packet timeargs) sd)).
    destruct (remember_in_keeps (next_alloc w) (packet timeargs)
                (count_retry (packet timeargs) sd)) as (K1 & _ & _ & _ & K5 & K6 & K7 & _).
    destruct (count_retry_keeps (packet timeargs) sd) as (L1 & L2 & L3 & L4).
    split.
    { apply route_Some in Hr as (Hi & Hk & Hj & Hs).
      unfold sender_at, session_at, socket_at, after_send,
        upd_sender, upd_session, upd_socket; cbn.
      rewrite !list_lookup_alter_eq, Hk; cbn.
      rewrite !list_lookup_alter_eq, Hs; cbn. rewrite Hsd. reflexivity. }
    split.
    { rewrite retry_counter_remember_in. apply retry_counter_count_retry; assumption. }
    split; [rewrite K1, L1; reflexivity |].
    split; [rewrite K5, L2; reflexivity |].
    split; [rewrite K6, L3; reflexivity |].
    rewrite K7, L4. reflexivity.
  - intros Hge. split.
    + intros h Hh. apply (timeout_gives_up unused timeargs w i j k s sd c h); assumption.
    + intros Hh. apply (timeout_without_handler unused timeargs w i j k s sd c); assumption.
Qed.

Lemma timeout_callback_releases_the_packet_twice_witness :
  (exists w',
     timeout_callback 0 syn_timer syn_unanswered_world = Fault w' /\
     trace w' = trace syn_unanswered_world
                ++ [Sendto (fd syn_timer) (packet syn_timer) (recipient syn_timer)] /\
     timeouts w' = timeouts syn_unanswered_world
                   ++ [(next_alloc syn_unanswered_world, syn_timer)]) /\
  (exists w',
     timeout_callback 0 data_1002_timer sender_world = Fault w' /\
     trace w' = trace sender_world
                ++ [Sendto (fd data_1002_timer) (packet data_1002_timer)
                      (recipient data_1002_timer)]).
Proof.
  split.
  - destruct (proj1 (timeout_callback_releases_the_packet_twice 0 syn_timer
                       syn_unanswered_world 0 0
                       (routed_socket 3 host_B syn_unanswered_world)
                       (routed_session 3 host_B syn_unanswered_world)
                       (routed_sender 3 host_B syn_unanswered_world) 0
                       ltac:(vm_compute; reflexivity) ltac:(vm_compute; reflexivity)
                       ltac:(vm_compute; repeat split; reflexivity)
                       ltac:(vm_compute; reflexivity))
                ltac:(vm_compute; reflexivity))
      as (w' & Hrun & Htr & Hto & _).
    exists w'. split; [exact Hrun |]. split; [exact Htr | exact Hto].
  - destruct (proj1 (timeout_callback_releases_the_packet_twice 0 data_1002_timer
                       sender_world 0 0
                       (routed_socket 3 host_B sender_world)
                       (routed_session 3 host_B sender_world)
                       (routed_sender 3 host_B sender_world) 0
                       ltac:(vm_compute; reflexivity) ltac:(vm_compute; reflexivity)
                       ltac:(vm_compute; repeat split; reflexivity)
                       ltac:(vm_compute; reflexivity))
                ltac:(vm_compute; reflexivity))
      as (w' & Hrun & Htr & _).
    exists w'. split; [exact Hrun | exact Htr].
Defined.

(** ** rudp_sendto *)

Lemma compare_sockaddr_refl (a : sockaddr_in) : compare_sockaddr a a = 1.
Proof. unfold compare_sockaddr. rewrite !Z.eqb_refl. reflexivity. Qed.

Lemma seek_session_app_new (to : sockaddr_in) (l : list session) (s : session) :
  seek_session to l = None -> address s = to ->
  seek_session to (l ++ [s]) = Some (length l).
Proof.
  intros Hn Ha. induction l as [| s0 l IH]; cbn in *.
  - rewrite Ha, compare_sockaddr_refl. reflexivity.
  - destruct (compare_sockaddr (address s0) to =? 1); [discriminate |].
    destruct (seek_session to l); [discriminate |].
    rewrite IH by reflexivity. reflexivity.
Qed.

(** The calls [rudp_sendto] refuses: a length out of range, a NULL peer
    address, or an empty socket list.  It returns -1 and changes nothing. *)
Lemma rudp_sendto_refused (rsocket : Z) (data : list byte) (len : Z)
  (to : option sockaddr_in) (w : world) :
  len < 0 \/ len > RUDP_MAXPKTSIZE \/ to = None \/ socket_list_head w = [] ->
  rudp_sendto rsocket data len to w = Done (-1) w.
Proof.
  intros H. unfold rudp_sendto.
  destruct ((len <? 0) || (len >? RUDP_MAXPKTSIZE)) eqn:Elen; [reflexivity |].
  apply orb_false_elim in Elen as [E1 E2].
  apply Z.ltb_ge in E1. rewrite Z.gtb_ltb in E2. apply Z.ltb_ge in E2.
  destruct to as [to |]; [| reflexivity].
  destruct H as [H | [H | [H | H]]]; try lia; try discriminate.
  run. rewrite H. reflexivity.
Qed.

(** A valid call on a socket that is not in a non-empty list: the search
    runs off the end of the list and the test after it reads through NULL. *)
Lemma rudp_sendto_unknown_socket (rsocket : Z) (data : list byte) (len : Z)
  (to : sockaddr_in) (w : world) :
  0 <= len <= RUDP_MAXPKTSIZE ->
  socket_list_head w <> [] ->
  seek_socket rsocket (socket_list_head w) = None ->
  rudp_sendto rsocket data len (Some to) w = Fault w.
Proof.
  intros Hlen Hne Hseek. unfold rudp_sendto.
  replace ((len <? 0) || (len >? RUDP_MAXPKTSIZE)) with false
    by (symmetry; apply orb_false_intro; [apply Z.ltb_ge | rewrite Z.gtb_ltb; apply Z.ltb_ge]; lia).
  run. rewrite Hseek. destruct (socket_list_head w); [congruence | reflexivity].
Qed.

(** A valid call that addresses a peer without a session: the sender half
    is created, exactly one SYN is sent, and the call returns 0. *)
Lemma rudp_sendto_new_peer (rsocket : Z) (data : list byte) (len : Z)
  (to : sockaddr_in) (w : world) (i : nat) (k : rudp_socket_list) :
  0 <= len <= RUDP_MAXPKTSIZE ->
  seek_socket rsocket (socket_list_head w) = Some i ->
  socket_at i w = Some k ->
  seek_session to (sessions_list_head k) = None ->
  rudp_sendto rsocket data len (Some to) w
  = Done 0 (after_first_sendto rsocket data len to i k w).
Proof.
  intros Hlen Hi Hk Hnone. unfold socket_at in Hk.
  destruct (seek_socket_nonempty _ _ _ Hi) as (k0 & rest & Hl).
  set (seqno := u32 (rand_seq w (rand_calls w))).
  set (node := new_sender_node seqno to
                 [{| item := firstn (Z.to_nat len) data; len := len |}]).
  set (w1 := upd_socket i
               (fun k => set_sessions_list_head (sessions_list_head k ++ [node]) k)
               (set_rand_calls (S (rand_calls w)) w)).
  assert (Hroute : route rsocket to w1
                   = Some (i, length (sessions_list_head k),
                           set_sessions_list_head (sessions_list_head k ++ [node]) k,
                           node)).
  { unfold route, socket_at, w1, upd_socket. cbn.
    rewrite seek_socket_alter by reflexivity. rewrite Hi.
    rewrite list_lookup_alter_eq, Hk. cbn.
    rewrite seek_session_app_new by (exact Hnone || reflexivity).
    rewrite lookup_app_r by lia. rewrite Nat.sub_diag. reflexivity. }
  assert (Hsend : send_packet false rsocket (create_rudp_packet RUDP_SYN seqno 0 None) to w1
                  = Done 0 (after_first_sendto rsocket data len to i k w)).
  { apply (send_packet_with_timer _ _ _ _ _ _ _ _ _ Hroute eq_refl). intros H. discriminate H. }
  assert (Hcreate : forall r, r = rand_seq w (rand_calls w) ->
            bind rand (fun r => bind (create_sender_session i (u32 r) to
                                 [{| item := firstn (Z.to_nat len) data; len := len |}])
                                (fun _ => ret (true, u32 r))) w
            = Done (true, seqno) w1).
  { intros r ->. unfold create_sender_session, rand. run. cbn. rewrite Hk. reflexivity. }
  unfold rudp_sendto.
  replace ((len <? 0) || (len >? RUDP_MAXPKTSIZE)) with false
    by (symmetry; apply orb_false_intro; [apply Z.ltb_ge | rewrite Z.gtb_ltb; apply Z.ltb_ge]; lia).
  unfold bind at 1. unfold gets at 1. rewrite Hl, <- Hl.
  unfold bind at 1. rewrite Hi. unfold deref at 1, ret at 1.
  unfold bind at 1. unfold the_socket at 1, bind at 1, gets at 1, socket_at at 1.
  rewrite Hk. unfold deref at 1, ret at 1.
  unfold bind at 1.
  destruct (sessions_list_head k) as [| s0 ss] eqn:Hss.
  - rewrite (Hcreate _ eq_refl). cbn [fst snd].
    unfold send_syn, bind. rewrite Hsend. reflexivity.
  - rewrite Hnone. rewrite (Hcreate _ eq_refl). cbn [fst snd].
    unfold send_syn, bind. rewrite Hsend. reflexivity.
Qed.

(** C9: two valid calls on which the code diverges from the claim.  With
    the socket list of [sender_world] (descriptor 3 only), a call on handle
    7 faults instead of returning -1.  In [receiver_world], where host A has
    a session with a receiver half only, a call that addresses host A sends
    its SYN and then faults instead of returning 0. *)
Theorem rudp_sendto_faults :
  rudp_sendto 7 hello 5 (Some host_B) sender_world = Fault sender_world /\
  (exists w', rudp_sendto 4 hello 5 (Some host_A) receiver_world = Fault w' /\
              sent (trace w')
              = sent (trace receiver_world)
                ++ [(4, create_rudp_packet RUDP_SYN 0 0 None, host_A)] /\
              timeouts w' = timeouts receiver_world).
Proof.
  split.
  - vm_compute. reflexivity.
  - eexists. split; [vm_compute; reflexivity |]. split; vm_compute; reflexivity.
Qed.

(** ** The sliding window: shift and refill *)

(** An array of [RUDP_WINDOW] cells, cell by cell. *)
Lemma three_cells {A} (a : list A) :
  length a = Z.to_nat RUDP_WINDOW -> exists x y z, a = [x; y; z].
Proof.
  change (Z.to_nat RUDP_WINDOW) with 3%nat.
  destruct a as [| x [| y [| z [| ? ?]]]]; try discriminate. eauto.
Qed.

Lemma shift_left_cells {A} (null x y z : A) : shift_left null [x; y; z] = [y; z; null].
Proof. reflexivity. Qed.

Lemma left_packed_cells (x y z : option rudp_packet) :
  left_packed [x; y; z] <-> (x = None -> y = None) /\ (y = None -> z = None).
Proof.
  unfold left_packed, slot. split.
  - intros H. split; [apply (H 0%nat) | apply (H 1%nat)].
  - intros [H0 H1] [| [| [| n]]]; cbn; auto.
Qed.

Lemma first_unused_slot_cells (x y z : option rudp_packet) :
  first_unused_slot [x; y; z]
  = match x, y, z with
    | None, _, _ => Some 0%nat
    | Some _, None, _ => Some 1%nat
    | Some _, Some _, None => Some 2%nat
    | Some _, Some _, Some _ => None
    end.
Proof. destruct x, y, z; reflexivity. Qed.

Lemma first_unused_slot_bound (win : list (option rudp_packet)) (index : nat) :
  first_unused_slot win = Some index ->
  (index < Z.to_nat RUDP_WINDOW)%nat /\ slot win index = None.
Proof.
  unfold first_unused_slot, window_slots. change (Z.to_nat RUDP_WINDOW) with 3%nat. cbn.
  destruct (slot win 2) eqn:E2, (slot win 1) eqn:E1, (slot win 0) eqn:E0;
    intros H; try discriminate H; injection H as <-; split; (lia || assumption).
Qed.

(** The shift keeps a left-packed window left-packed. *)
Lemma left_packed_shift (win : list (option rudp_packet)) :
  length win = Z.to_nat RUDP_WINDOW ->
  left_packed win -> left_packed (shift_left None win).
Proof.
  intros Hlen Hlp. destruct (three_cells win Hlen) as (x & y & z & ->).
  rewrite shift_left_cells. apply left_packed_cells in Hlp as [H0 H1].
  apply left_packed_cells. split; [exact H1 | reflexivity].
Qed.

(** Filling the first unused slot keeps a left-packed window left-packed. *)
Lemma left_packed_place (win : list (option rudp_packet)) (index : nat)
  (p : rudp_packet) :
  length win = Z.to_nat RUDP_WINDOW ->
  left_packed win ->
  first_unused_slot win = Some index ->
  left_packed (<[index := Some p]> win).
Proof.
  intros Hlen Hlp Hfirst. destruct (three_cells win Hlen) as (x & y & z & ->).
  rewrite first_unused_slot_cells in Hfirst.
  apply left_packed_cells in Hlp as [H0 H1].
  destruct x, y, z; try discriminate Hfirst; injection Hfirst as <-; cbn;
    apply left_packed_cells; split; intros; try discriminate; auto.
Qed.

Lemma matching_slot_placed (win : list (option rudp_packet)) (index : nat)
  (p : rudp_packet) :
  length win = Z.to_nat RUDP_WINDOW ->
  (index < Z.to_nat RUDP_WINDOW)%nat ->
  matching_slot (<[index := Some p]> win) (seqno (header p)) <> None.
Proof.
  intros Hlen Hidx. destruct (three_cells win Hlen) as (x & y & z & ->).
  change (Z.to_nat RUDP_WINDOW) with 3%nat in Hidx.
  unfold matching_slot, window_slots. change (Z.to_nat RUDP_WINDOW) with 3%nat.
  destruct index as [| [| [| n]]]; [| | | lia]; cbn;
    rewrite ?Z.eqb_refl;
    repeat (match goal with
            | |- context [match ?o with Some _ => _ | None => _ end] => destruct o
            | |- context [if ?b then _ else _] => destruct b
            end); discriminate.
Qed.

Lemma window_arrays_place (index : nat) (p : rudp_packet) (rest : list data)
  (sd : sender_session) :
  window_arrays sd -> window_arrays (place_packet index p rest sd).
Proof.
  intros (H1 & H2 & H3). unfold window_arrays, place_packet. cbn.
  rewrite !length_insert. auto.
Qed.

Lemma window_arrays_remember (t : ptr) (p : rudp_packet) (sd : sender_session) :
  window_arrays sd -> window_arrays (remember_in t p sd).
Proof.
  intros (H1 & H2 & H3). unfold window_arrays, remember_in.
  repeat (match goal with
          | |- context [if ?b then _ else _] => destruct b
          | |- context [match matching_slot ?a ?b with _ => _ end] =>
              destruct (matching_slot a b)
          end; cbn); rewrite ?length_insert; auto.
Qed.

Lemma window_arrays_shift (sd : sender_session) :
  window_arrays sd -> window_arrays (shift_window sd).
Proof.
  intros (H1 & H2 & H3).
  destruct (three_cells _ H1) as (a & b & c & E1).
  destruct (three_cells _ H2) as (a' & b' & c' & E2).
  destruct (three_cells _ H3) as (a'' & b'' & c'' & E3).
  unfold window_arrays, shift_window. cbn. rewrite E1, E2, E3. repeat split.
Qed.

Lemma route_same_sockets (file : Z) (peer : sockaddr_in) (w1 w2 : world) :
  socket_list_head w1 = socket_list_head w2 -> route file peer w1 = route file peer w2.
Proof. intros H. unfold route, socket_at. rewrite H. reflexivity. Qed.

Lemma route_after_send (file : Z) (peer : sockaddr_in) (w : world)
  (i j : nat) (k : rudp_socket_list) (s : session)
  (rsocket : Z) (p : rudp_packet) (recipient : sockaddr_in) :
  route file peer w = Some (i, j, k, s) ->
  route file peer (after_send rsocket p recipient i j w)
  = Some (i, j,
          set_sessions_list_head
            (alter (fun s => set_sender (remember_in (next_alloc w) p <$> sender s) s)
               j (sessions_list_head k)) k,
          set_sender (remember_in (next_alloc w) p <$> sender s) s).
Proof.
  intros Hr.
  rewrite <- (route_upd_sender file peer w i j k s (remember_in (next_alloc w) p) Hr).
  apply route_same_sockets. reflexivity.
Qed.

Lemma route_sender_at (file : Z) (peer : sockaddr_in) (w : world)
  (i j : nat) (k : rudp_socket_list) (s : session) :
  route file peer w = Some (i, j, k, s) -> sender_at i j w = sender s.
Proof.
  intros Hr. unfold sender_at. rewrite (route_session_at _ _ _ _ _ _ _ Hr). reflexivity.
Qed.

(** The refill loop runs to its end without a fault. *)
Lemma refill_window_runs (file : Z) (from : sockaddr_in) (queue : list data) :
  forall (w : world) (i j : nat) (k : rudp_socket_list) (s : session)
         (sd : sender_session),
    route file from w = Some (i, j, k, s) ->
    sender s = Some sd ->
    window_arrays sd ->
    refill_window file from i j queue w = Done tt (refill_world file from i j queue w).
Proof.
  induction queue as [| d rest IH]; intros w i j k s sd Hr Hsd Hwf; [reflexivity |].
  pose proof (route_sender_at _ _ _ _ _ _ _ Hr) as Hat. rewrite Hsd in Hat.
  pose proof (route_session_at _ _ _ _ _ _ _ Hr) as Hsess.
  cbn [refill_window refill_world]. rewrite Hat.
  unfold bind at 1. unfold the_sender, the_session, bind, gets, deref, ret.
  rewrite Hsess, Hsd.
  destruct (slot (sliding_window sd) last_slot) as [q |] eqn:Elast; [reflexivity |].
  destruct (first_unused_slot (sliding_window sd)) as [index |] eqn:Efirst.
  2:{ exfalso. destruct Hwf as (Hlen & _).
      destruct (three_cells _ Hlen) as (x & y & z & E). rewrite E in *.
      rewrite first_unused_slot_cells in Efirst.
      change (slot [x; y; z] last_slot) with z in Elast. subst z.
      destruct x, y; discriminate. }
  cbv zeta. unfold modify at 1.
  fold (next_data_packet (snd_seqno sd) d).
  set (datap := next_data_packet (snd_seqno sd) d).
  set (w1 := upd_sender i j (place_packet index datap rest) w).
  pose proof (route_upd_sender file from w i j k s (place_packet index datap rest) Hr)
    as Hr1. fold w1 in Hr1.
  assert (Hsd1 : sender (set_sender (place_packet index datap rest <$> sender s) s)
                 = Some (place_packet index datap rest sd)).
  { cbn. rewrite Hsd. reflexivity. }
  assert (Hwf1 : window_arrays (place_packet index datap rest sd))
    by (apply window_arrays_place; exact Hwf).
  assert (Hcan : can_remember datap (place_packet index datap rest sd)).
  { intros _. cbn. apply matching_slot_placed; [apply Hwf |].
    apply (first_unused_slot_bound _ _ Efirst). }
  rewrite (send_packet_with_timer file datap from w1 i j _ _ _ Hr1 Hsd1 Hcan).
  pose proof (route_after_send file from w1 i j _ _ file datap from Hr1) as Hr2.
  eapply IH; [exact Hr2 | |].
  - cbn. rewrite Hsd. reflexivity.
  - apply window_arrays_remember. exact Hwf1.
Qed.

(** ** Reading the state after an update *)

Lemma session_at_upd_session_eq (i j : nat) (f : session -> session) (w : world) :
  session_at i j (upd_session i j f w) = f <$> session_at i j w.
Proof.
  unfold session_at, socket_at, upd_session, upd_socket. cbn.
  rewrite list_lookup_alter_eq.
  destruct (socket_list_head w !! i) as [k |]; cbn; [| reflexivity].
  apply list_lookup_alter_eq.
Qed.

Lemma session_at_upd_session_ne (i j i' j' : nat) (f : session -> session) (w : world) :
  (i, j) <> (i', j') ->
  session_at i' j' (upd_session i j f w) = session_at i' j' w.
Proof.
  intros Hne. unfold session_at, socket_at, upd_session, upd_socket. cbn.
  destruct (Nat.eq_dec i i') as [<- | Hi].
  - rewrite list_lookup_alter_eq.
    destruct (socket_list_head w !! i) as [k |]; cbn; [| reflexivity].
    apply list_lookup_alter_ne. congruence.
  - rewrite list_lookup_alter_ne by exact Hi. reflexivity.
Qed.

Lemma sender_at_upd_sender_eq (i j : nat) (f : sender_session -> sender_session)
  (w : world) :
  sender_at i j (upd_sender i j f w) = f <$> sender_at i j w.
Proof.
  unfold sender_at, upd_sender. rewrite session_at_upd_session_eq.
  destruct (session_at i j w) as [s |]; reflexivity.
Qed.

Lemma sender_at_upd_sender_ne (i j i' j' : nat) (f : sender_session -> sender_session)
  (w : world) :
  (i, j) <> (i', j') -> sender_at i' j' (upd_sender i j f w) = sender_at i' j' w.
Proof.
  intros Hne. unfold sender_at, upd_sender.
  rewrite session_at_upd_session_ne by exact Hne. reflexivity.
Qed.

Lemma sender_at_same_sockets (i j : nat) (w1 w2 : world) :
  socket_list_head w1 = socket_list_head w2 -> sender_at i j w1 = sender_at i j w2.
Proof. intros H. unfold sender_at, session_at, socket_at. rewrite H. reflexivity. Qed.

Lemma sender_at_after_send (rsocket : Z) (p : rudp_packet) (recipient : sockaddr_in)
  (i j : nat) (w : world) :
  sender_at i j (after_send rsocket p recipient i j w)
  = remember_in (next_alloc w) p <$> sender_at i j w.
Proof.
  rewrite <- (sender_at_upd_sender_eq i j (remember_in (next_alloc w) p) w).
  apply sender_at_same_sockets. reflexivity.
Qed.

Lemma socket_at_upd_session (i j i' : nat) (f : session -> session) (w : world) :
  socket_at i' (upd_session i j f w)
  = (fun k => if Nat.eqb i i'
              then set_sessions_list_head (alter f j (sessions_list_head k)) k
              else k) <$> socket_at i' w.
Proof.
  unfold socket_at, upd_session, upd_socket. cbn.
  destruct (Nat.eqb_spec i i') as [<- | Hne].
  - apply list_lookup_alter_eq.
  - rewrite list_lookup_alter_ne by exact Hne.
    destruct (socket_list_head w !! i'); reflexivity.
Qed.

(** The sender half after the refill loop. *)
Lemma sender_at_refill_world (file : Z) (from : sockaddr_in) (i j : nat)
  (queue : list data) :
  forall (w : world) (sd : sender_session),
    sender_at i j w = Some sd ->
    sender_at i j (refill_world file from i j queue w)
    = Some (refill_sender (next_alloc w) queue sd).
Proof.
  induction queue as [| d rest IH]; intros w sd Hsd; [exact Hsd |].
  cbn [refill_world refill_sender]. rewrite Hsd.
  destruct (slot (sliding_window sd) last_slot); [exact Hsd |].
  destruct (first_unused_slot (sliding_window sd)) as [index |]; [| exact Hsd].
  cbv zeta. rewrite (IH _ (remember_in (next_alloc w) (next_data_packet (snd_seqno sd) d)
                            (place_packet index (next_data_packet (snd_seqno sd) d) rest sd))).
  - reflexivity.
  - rewrite sender_at_after_send, sender_at_upd_sender_eq, Hsd. reflexivity.
Qed.

Lemma refill_world_timeouts (file : Z) (from : sockaddr_in) (i j : nat)
  (queue : list data) :
  forall w, exists added,
    timeouts (refill_world file from i j queue w) = timeouts w ++ added.
Proof.
  induction queue as [| d rest IH]; intros w; [exists []; symmetry; apply app_nil_r |].
  cbn [refill_world].
  destruct (sender_at i j w) as [sd |]; [| exists []; symmetry; apply app_nil_r].
  destruct (slot (sliding_window sd) last_slot); [exists []; symmetry; apply app_nil_r |].
  destruct (first_unused_slot (sliding_window sd)) as [index |];
    [| exists []; symmetry; apply app_nil_r].
  cbv zeta.
  match goal with
  | |- context [refill_world file from i j rest ?w2] =>
      destruct (IH w2) as (added & ->)
  end.
  cbn. rewrite <- app_assoc. eauto.
Qed.

(** The refill loop leaves the fields of every socket other than its session
    list alone. *)
Lemma refill_world_socket (file : Z) (from : sockaddr_in) (i j : nat)
  (queue : list data) (i' : nat) :
  forall w k, socket_at i' w = Some k ->
    exists k', socket_at i' (refill_world file from i j queue w) = Some k' /\
               close_requested k' = close_requested k /\
               handler k' = handler k /\ recv_handler k' = recv_handler k /\
               rsock k' = rsock k /\
               length (sessions_list_head k') = length (sessions_list_head k).
Proof.
  induction queue as [| d rest IH]; intros w k Hk; [eauto 10 |].
  cbn [refill_world].
  destruct (sender_at i j w) as [sd |]; [| eauto 10].
  destruct (slot (sliding_window sd) last_slot); [eauto 10 |].
  destruct (first_unused_slot (sliding_window sd)) as [index |]; [| eauto 10].
  cbv zeta.
  match goal with
  | |- context [refill_world file from i j rest ?w2] =>
      assert (H2 : exists k2, socket_at i' w2 = Some k2 /\
                     close_requested k2 = close_requested k /\
                     handler k2 = handler k /\ recv_handler k2 = recv_handler k /\
                     rsock k2 = rsock k /\
                     length (sessions_list_head k2) = length (sessions_list_head k))
  end.
  { unfold after_send, upd_sender, socket_at in *. cbn.
    unfold upd_session, upd_socket. cbn.
    destruct (Nat.eq_dec i i') as [<- | Hne].
    - rewrite !list_lookup_alter_eq, Hk. cbn. eexists. split; [reflexivity |].
      cbn. rewrite !length_alter. auto.
    - rewrite !list_lookup_alter_ne by exact Hne. rewrite Hk. eauto 10. }
  destruct H2 as (k2 & Hk2 & Hc & Hh & Hrh & Hrs & Hl).
  destruct (IH _ _ Hk2) as (k' & Hk' & Hc' & Hh' & Hrh' & Hrs' & Hl').
  exists k'. split; [exact Hk' |]. repeat split; congruence.
Qed.

(** ** Relations kept by a run *)

Section Keeps.
Variable R : world -> world -> Prop.
Hypothesis R_refl : forall w, R w w.
Hypothesis R_trans : forall w1 w2 w3, R w1 w2 -> R w2 w3 -> R w1 w3.

Lemma keeps_ret {A} (a : A) : keeps R (ret a).
Proof. intros w. apply R_refl. Qed.

Lemma keeps_fault {A} : keeps R (@fault A).
Proof. intros w. apply R_refl. Qed.

Lemma keeps_gets {A} (f : world -> A) : keeps R (gets f).
Proof. intros w. apply R_refl. Qed.

Lemma keeps_deref {A} (o : option A) : keeps R (deref o).
Proof. destruct o; [apply keeps_ret | apply keeps_fault]. Qed.

Lemma keeps_modify (g : world -> world) : (forall w, R w (g w)) -> keeps R (modify g).
Proof. intros H w. apply H. Qed.

Lemma keeps_bind {A B} (m : M A) (f : A -> M B) :
  keeps R m -> (forall a, keeps R (f a)) -> keeps R (bind m f).
Proof.
  intros Hm Hf w. unfold bind. specialize (Hm w).
  destruct (m w) as [a w' | w']; cbn in *; [| exact Hm].
  eapply R_trans; [exact Hm | apply Hf].
Qed.

Lemma keeps_the_socket (i : nat) : keeps R (the_socket i).
Proof. apply keeps_bind; [apply keeps_gets | intros; apply keeps_deref]. Qed.

Lemma keeps_the_session (i j : nat) : keeps R (the_session i j).
Proof. apply keeps_bind; [apply keeps_gets | intros; apply keeps_deref]. Qed.

Lemma keeps_the_sender (i j : nat) : keeps R (the_sender i j).
Proof. apply keeps_bind; [apply keeps_the_session | intros; apply keeps_deref]. Qed.

Lemma keeps_the_receiver (i j : nat) : keeps R (the_receiver i j).
Proof. apply keeps_bind; [apply keeps_the_session | intros; apply keeps_deref]. Qed.
End Keeps.

(** One step of a proof that a command keeps a relation: follow the shape of
    the command, leaving the state changes to be justified. *)
Ltac keeps_step Hrefl Htrans :=
  lazymatch goal with
  | |- keeps _ (bind _ _) => apply (keeps_bind _ Htrans); [| intros ?]
  | |- keeps _ (ret _) => apply (keeps_ret _ Hrefl)
  | |- keeps _ fault => apply (keeps_fault _ Hrefl)
  | |- keeps _ (gets _) => apply (keeps_gets _ Hrefl)
  | |- keeps _ (deref _) => apply (keeps_deref _ Hrefl)
  | |- keeps _ (the_socket _) => apply (keeps_the_socket _ Hrefl Htrans)
  | |- keeps _ (the_session _ _) => apply (keeps_the_session _ Hrefl Htrans)
  | |- keeps _ (the_sender _ _) => apply (keeps_the_sender _ Hrefl Htrans)
  | |- keeps _ (the_receiver _ _) => apply (keeps_the_receiver _ Hrefl Htrans)
  | |- keeps _ (modify _) => apply keeps_modify; intros ?
  | |- keeps _ (emit _) => apply keeps_modify; intros ?
  | |- keeps _ (if ?b then _ else _) => destruct b
  | |- keeps _ (match ?x with _ => _ end) => destruct x
  end.

(** *** Steps that leave every window alone *)

Lemma windows_kept_refl (w : world) : windows_kept w w.
Proof. split; [reflexivity | exists []; symmetry; apply app_nil_r]. Qed.

Lemma windows_kept_trans (w1 w2 w3 : world) :
  windows_kept w1 w2 -> windows_kept w2 w3 -> windows_kept w1 w3.
Proof.
  intros [H1 (a1 & T1)] [H2 (a2 & T2)]. split.
  - intros i j. rewrite H2. apply H1.
  - exists (a1 ++ a2). rewrite T2, T1, app_assoc. reflexivity.
Qed.

Lemma windows_kept_same_sockets (w w' : world) :
  socket_list_head w' = socket_list_head w ->
  (exists added, timeouts w' = timeouts w ++ added) ->
  windows_kept w w'.
Proof.
  intros Hs Ht. split; [| exact Ht].
  intros i j. unfold window_at. rewrite (sender_at_same_sockets i j w' w Hs). reflexivity.
Qed.

Lemma windows_kept_upd_sender (i j : nat) (f : sender_session -> sender_session)
  (w : world) :
  (forall sd, sliding_window (f sd) = sliding_window sd /\
              retransmission_attempts (f sd) = retransmission_attempts sd /\
              data_timeout_arg (f sd) = data_timeout_arg sd) ->
  windows_kept w (upd_sender i j f w).
Proof.
  intros Hf. split; [| exists []; symmetry; apply app_nil_r].
  intros i' j'. unfold window_at.
  destruct (decide ((i, j) = (i', j'))) as [[= <- <-] | Hne].
  - rewrite sender_at_upd_sender_eq.
    destruct (sender_at i j w) as [sd |]; cbn; [| reflexivity].
    destruct (Hf sd) as (-> & -> & ->). reflexivity.
  - rewrite sender_at_upd_sender_ne by exact Hne. reflexivity.
Qed.

Ltac windows_step := keeps_step windows_kept_refl windows_kept_trans.

Lemma remember_timeout_windows_kept (i j : nat) (t : ptr) (p : rudp_packet) :
  type (header p) <> RUDP_DATA -> keeps windows_kept (remember_timeout i j t p).
Proof.
  intros Hty. apply Z.eqb_neq in Hty. unfold remember_timeout. rewrite Hty.
  repeat windows_step; apply windows_kept_upd_sender; intros sd; repeat split.
Qed.

Lemma send_packet_windows_kept (is_ack : bool) (rsocket : Z) (p : rudp_packet)
  (recipient : sockaddr_in) :
  type (header p) <> RUDP_DATA ->
  keeps windows_kept (send_packet is_ack rsocket p recipient).
Proof.
  intros Hty. unfold send_packet, malloc_timeoutargs, event_timeout.
  repeat windows_step;
    try (apply remember_timeout_windows_kept; exact Hty);
    try (apply windows_kept_same_sockets; [reflexivity | exists []; symmetry; apply app_nil_r]).
  apply windows_kept_same_sockets; [reflexivity |]. cbn. eauto.
Qed.

Lemma send_fins_windows_kept (file : Z) (i : nat) (js : list nat) :
  keeps windows_kept (send_fins file i js).
Proof.
  induction js as [| j rest IH]; cbn [send_fins]; [apply keeps_ret, windows_kept_refl |].
  repeat windows_step;
    try exact IH;
    try (apply send_packet_windows_kept; discriminate);
    apply windows_kept_upd_sender; intros sd'; repeat split.
Qed.

(** *** What the refill does to a sender half *)

Lemma nth_insert_ne {A} (l : list A) (i n : nat) (x d : A) :
  i <> n -> nth n (<[i := x]> l) d = nth n l d.
Proof. intros H. rewrite !nth_lookup, list_lookup_insert_ne by exact H. reflexivity. Qed.

(** The refill only fills empty slots: a packet in flight keeps its slot and
    its retry counter. *)
Lemma refill_sender_keeps_occupied (queue : list data) :
  forall (t : ptr) (sd : sender_session) (n : nat) (q : rudp_packet),
    slot (sliding_window sd) n = Some q ->
    slot (sliding_window (refill_sender t queue sd)) n = Some q /\
    nth n (retransmission_attempts (refill_sender t queue sd)) 0
    = nth n (retransmission_attempts sd) 0.
Proof.
  induction queue as [| d rest IH]; intros t sd n q Hq; [auto |].
  cbn [refill_sender].
  destruct (slot (sliding_window sd) last_slot); [auto |].
  destruct (first_unused_slot (sliding_window sd)) as [index |] eqn:Hfirst; [| auto].
  cbv zeta.
  destruct (first_unused_slot_bound _ _ Hfirst) as [_ Hempty].
  assert (Hne : index <> n) by (intros ->; rewrite Hempty in Hq; discriminate).
  set (datap := next_data_packet (snd_seqno sd) d).
  destruct (remember_in_keeps t datap (place_packet index datap rest sd))
    as (Hw & Hrt & _).
  destruct (IH (S t) (remember_in t datap (place_packet index datap rest sd)) n q)
    as [H1 H2].
  - rewrite Hw. cbn. unfold slot. rewrite nth_insert_ne by exact Hne. exact Hq.
  - split; [exact H1 |]. rewrite H2, Hrt. cbn. apply nth_insert_ne. exact Hne.
Qed.

(** The refill is greedy: it stops only when the queue is empty or the
    window is full. *)
Lemma refill_sender_greedy (queue : list data) :
  forall (t : ptr) (sd : sender_session),
    window_arrays sd ->
    data_queue sd = queue ->
    data_queue (refill_sender t queue sd) = [] \/
    slot (sliding_window (refill_sender t queue sd)) last_slot <> None.
Proof.
  induction queue as [| d rest IH]; intros t sd Hwf Hq; [left; exact Hq |].
  cbn [refill_sender].
  destruct (slot (sliding_window sd) last_slot) as [q |] eqn:Elast.
  { right. rewrite Elast. discriminate. }
  destruct (first_unused_slot (sliding_window sd)) as [index |] eqn:Hfirst.
  2:{ exfalso. destruct Hwf as (Hlen & _).
      destruct (three_cells _ Hlen) as (x & y & z & E). rewrite E in *.
      rewrite first_unused_slot_cells in Hfirst.
      change (slot [x; y; z] last_slot) with z in Elast. subst z.
      destruct x, y; discriminate. }
  cbv zeta. apply IH.
  - apply window_arrays_remember, window_arrays_place, Hwf.
  - set (datap := next_data_packet (snd_seqno sd) d).
    destruct (remember_in_keeps t datap (place_packet index datap rest sd))
      as (_ & _ & _ & _ & Hdq & _).
    rewrite Hdq. reflexivity.
Qed.

(** The shift moves every cell one position to the left. *)
Lemma shift_window_moves_left (sd : sender_session) (n : nat) (q : rudp_packet) :
  window_arrays sd ->
  slot (sliding_window sd) (S n) = Some q ->
  slot (sliding_window (shift_window sd)) n = Some q /\
  nth n (retransmission_attempts (shift_window sd)) 0
  = nth (S n) (retransmission_attempts sd) 0.
Proof.
  intros (H1 & H2 & _) Hq.
  destruct (three_cells _ H1) as (a & b & c & E1).
  destruct (three_cells _ H2) as (a' & b' & c' & E2).
  unfold shift_window. cbn [sliding_window retransmission_attempts
    set_sliding_window set_retransmission_attempts set_data_timeout_arg].
  rewrite E1, E2 in *. rewrite !shift_left_cells.
  destruct n as [| [| n]]; cbn in *; auto.
  destruct n; discriminate.
Qed.

(** ** The sender half: acknowledgements of DATA *)

Lemma u32_head_plus_one (h a : Z) :
  0 <= h < 2 ^ 32 -> 0 <= a < 2 ^ 32 ->
  (h = u32 (a - 1) <-> a = u32 (h + 1)).
Proof.
  intros Hh Ha. unfold u32.
  destruct (Z.eq_dec a 0) as [-> | Hnz].
  - change ((0 - 1) mod 2 ^ 32) with (2 ^ 32 - 1). split; intros H.
    + subst h. reflexivity.
    + destruct (Z.eq_dec h (2 ^ 32 - 1)) as [-> | Hne]; [reflexivity |].
      rewrite Z.mod_small in H by lia. lia.
  - rewrite (Z.mod_small (a - 1)) by lia. split; intros H.
    + subst h. replace (a - 1 + 1) with a by lia. rewrite Z.mod_small; lia.
    + destruct (Z.eq_dec h (2 ^ 32 - 1)) as [-> | Hne].
      * exfalso. change ((2 ^ 32 - 1 + 1) mod 2 ^ 32) with 0 in H. lia.
      * rewrite Z.mod_small in H by lia. lia.
Qed.

Lemma shift_window_arrays (sd : sender_session) :
  window_arrays sd ->
  sliding_window (shift_window sd) = tl (sliding_window sd) ++ [None] /\
  retransmission_attempts (shift_window sd) = tl (retransmission_attempts sd) ++ [0] /\
  data_timeout_arg (shift_window sd) = tl (data_timeout_arg sd) ++ [None].
Proof.
  intros (H1 & H2 & H3).
  destruct (three_cells _ H1) as (a & b & c & E1).
  destruct (three_cells _ H2) as (a' & b' & c' & E2).
  destruct (three_cells _ H3) as (a'' & b'' & c'' & E3).
  unfold shift_window. cbn. rewrite E1, E2, E3. repeat split.
Qed.

(** The effect of an ACK on a sender half in state OPEN with [head] in slot
    0 of its window, whatever the world: an ACK whose sequence number is not
    [head]'s plus 1 changes nothing; one that is, with [t0] the timer
    argument of slot 0, cancels that timer, shifts the three per-slot arrays
    left by one and refills the window from the queue. *)
Lemma data_ack_effect
  (file : Z) (from : sockaddr_in) (w : world) (p : rudp_packet)
  (i j : nat) (k : rudp_socket_list) (s : session) (sd : sender_session)
  (head : rudp_packet) :
  route file from w = Some (i, j, k, s) ->
  sender s = Some sd ->
  snd_status sd = OPEN ->
  window_arrays sd ->
  slot (sliding_window sd) 0 = Some head ->
  type (header p) = RUDP_ACK ->
  0 <= seqno (header head) < 2 ^ 32 ->
  0 <= seqno (header p) < 2 ^ 32 ->
  (seqno (header p) <> u32 (seqno (header head) + 1) ->
   dispatch_packet file p from w = Done 0 w) /\
  (seqno (header p) = u32 (seqno (header head) + 1) ->
   forall t0, slot (data_timeout_arg sd) 0 = Some t0 ->
   window_at i j (final (dispatch_packet file p from w))
   = window_at i j (after_data_ack file from i j sd t0 w) /\
   sender_at i j (after_data_ack file from i j sd t0 w)
   = Some (refill_sender (next_alloc w) (data_queue sd) (shift_window sd)) /\
   (forall n q,
      slot (sliding_window sd) (S n) = Some q ->
      slot (sliding_window
              (refill_sender (next_alloc w) (data_queue sd) (shift_window sd))) n
      = Some q /\
      nth n (retransmission_attempts
               (refill_sender (next_alloc w) (data_queue sd) (shift_window sd))) 0
      = nth (S n) (retransmission_attempts sd) 0) /\
   (data_queue (refill_sender (next_alloc w) (data_queue sd) (shift_window sd)) = [] \/
    slot (sliding_window
            (refill_sender (next_alloc w) (data_queue sd) (shift_window sd))) last_slot
    <> None) /\
   (exists added,
      timeouts (final (dispatch_packet file p from w))
      = List.filter (fun e => negb (Nat.eqb (fst e) t0)) (timeouts w) ++ added) /\
   (close_requested k = false ->
    dispatch_packet file p from w = Done 0 (after_data_ack file from i j sd t0 w))).
Proof.
  intros Hr Hsd Hopen Hwf Hhead Hty Hh Ha.
  pose proof (route_session_at _ _ _ _ _ _ _ Hr) as Hsess.
  pose proof (route_sender_at _ _ _ _ _ _ _ Hr) as Hat. rewrite Hsd in Hat.
  pose proof Hr as Hr'. apply route_Some in Hr' as (Hi & Hk & Hj & Hs).
  destruct (seek_socket_nonempty _ _ _ Hi) as (k0 & rest & Hl).
  assert (Hss : exists s0 ss, sessions_list_head k = s0 :: ss).
  { destruct (sessions_list_head k); [discriminate | eauto]. }
  destruct Hss as (s0 & ss & Hss).
  assert (Hrun : dispatch_packet file p from w
                 = bind (ack_for_session file i j (header p) from) (fun _ => ret 0) w).
  { unfold dispatch_packet. run. rewrite Hl, <- Hl, Hi, Hk.
    rewrite Hss, <- Hss, Hj, Hty. reflexivity. }
  rewrite Hrun. clear Hrun.
  split.
  - intros Hne.
    assert (Htest : (seqno (header head) =? u32 (seqno (header p) - 1)) = false).
    { apply Z.eqb_neq. intros E. apply Hne. apply u32_head_plus_one; assumption. }
    unfold ack_for_session. run. rewrite Hk, Hs, Hsd, Hopen, Hhead, Htest. reflexivity.
  - intros Heq t0 Ht0.
    assert (Htest : (seqno (header head) =? u32 (seqno (header p) - 1)) = true).
    { apply Z.eqb_eq. apply u32_head_plus_one; assumption. }
    set (w1 := upd_sender i j shift_window (cancel_timeout t0 w)).
    set (w2 := after_data_ack file from i j sd t0 w).
    assert (Hr1 : route file from w1
                  = Some (i, j,
                          set_sessions_list_head
                            (alter (fun s => set_sender (shift_window <$> sender s) s)
                               j (sessions_list_head k)) k,
                          set_sender (shift_window <$> sender s) s)).
    { unfold w1. apply route_upd_sender.
      rewrite <- Hr. apply route_same_sockets. reflexivity. }
    assert (Hrefill : refill_window file from i j (data_queue sd) w1 = Done tt w2).
    { eapply refill_window_runs; [exact Hr1 | |].
      - cbn. rewrite Hsd. reflexivity.
      - apply window_arrays_shift. exact Hwf. }
    assert (Hat1 : sender_at i j w1 = Some (shift_window sd)).
    { unfold w1. rewrite sender_at_upd_sender_eq.
      rewrite (sender_at_same_sockets i j (cancel_timeout t0 w) w eq_refl), Hat.
      reflexivity. }
    assert (Hk1 : socket_at i w1
                  = Some (set_sessions_list_head
                            (alter (fun s => set_sender (shift_window <$> sender s) s)
                               j (sessions_list_head k)) k)).
    { apply route_Some in Hr1 as (_ & Hk1 & _). exact Hk1. }
    destruct (refill_world_socket file from i j (data_queue sd) i w1 _ Hk1)
      as (k2 & Hk2 & Hc2 & _).
    cbn in Hc2.
    assert (Hack : ack_for_session file i j (header p) from w
                   = (if close_requested k
                      then send_fins file i (seq 0 (length (sessions_list_head k2)))
                      else ret tt) w2).
    { unfold ack_for_session. unfold bind at 1.
      unfold the_sender, the_session, bind, gets, deref, ret, session_at, socket_at.
      rewrite Hk, Hs, Hsd, Hopen, Hhead, Htest, Ht0.
      unfold event_timeout_delete, modify. fold (cancel_timeout t0 w). fold w1.
      rewrite Hrefill. unfold the_socket, bind, gets, deref, ret.
      unfold socket_at in Hk2. unfold socket_at, w2, after_data_ack. fold w1.
      rewrite Hk2, Hc2. reflexivity. }
    assert (Hsender2 : sender_at i j w2
                       = Some (refill_sender (next_alloc w) (data_queue sd) (shift_window sd))).
    { unfold w2, after_data_ack. fold w1.
      rewrite (sender_at_refill_world file from i j (data_queue sd) w1 _ Hat1).
      reflexivity. }
    destruct (refill_world_timeouts file from i j (data_queue sd) w1) as (added2 & Ht2).
    change (refill_world file from i j (data_queue sd) w1) with w2 in Ht2.
    change (timeouts w1)
      with (List.filter (fun e => negb (Nat.eqb (fst e) t0)) (timeouts w)) in Ht2.
    assert (Hmoves : forall n q,
               slot (sliding_window sd) (S n) = Some q ->
               slot (sliding_window
                       (refill_sender (next_alloc w) (data_queue sd) (shift_window sd))) n
               = Some q /\
               nth n (retransmission_attempts
                        (refill_sender (next_alloc w) (data_queue sd) (shift_window sd))) 0
               = nth (S n) (retransmission_attempts sd) 0).
    { intros n q Hq.
      destruct (shift_window_moves_left sd n q Hwf Hq) as [Hs1 Hs2].
      destruct (refill_sender_keeps_occupied (data_queue sd) (next_alloc w)
                  (shift_window sd) n q Hs1) as [Hf1 Hf2].
      split; [exact Hf1 | rewrite Hf2; exact Hs2]. }
    pose proof (refill_sender_greedy (data_queue sd) (next_alloc w) (shift_window sd)
                  (window_arrays_shift sd Hwf) eq_refl) as Hgreedy.
    unfold bind at 1 2 3. rewrite Hack.
    destruct (close_requested k) eqn:Hclose.
    + pose proof (send_fins_windows_kept file i
                    (seq 0 (length (sessions_list_head k2))) w2) as [Hwin (added & Hta)].
      destruct (send_fins file i (seq 0 (length (sessions_list_head k2))) w2)
        as [[] w3 | w3]; cbn in *.
      all: split; [apply Hwin |]; split; [exact Hsender2 |]; split; [exact Hmoves |].
      all: split; [exact Hgreedy |]; split; [| discriminate].
      all: exists (added2 ++ added); rewrite Hta, Ht2, app_assoc; reflexivity.
    + cbn. split; [reflexivity |]. split; [exact Hsender2 |]. split; [exact Hmoves |].
      split; [exact Hgreedy |]. split; [| reflexivity].
      exists added2. exact Ht2.
Qed.

(** ** Every window stays left-packed *)

Lemma safe_refl (w : world) : safe w w.
Proof. intros H. exact H. Qed.

Lemma safe_trans (w1 w2 w3 : world) : safe w1 w2 -> safe w2 w3 -> safe w1 w3.
Proof. unfold safe. auto. Qed.

Ltac safe_step := keeps_step safe_refl safe_trans.

Lemma safe_same_sockets (w w' : world) :
  socket_list_head w' = socket_list_head w -> safe w w'.
Proof.
  intros Hs Hok i j sd Hsd. apply (Hok i j).
  rewrite <- Hsd. symmetry. apply sender_at_same_sockets. exact Hs.
Qed.

(** An update of the sender half at ([i], [j]) is safe when it keeps that
    very sender half well-formed. *)
Lemma safe_upd_sender (i j : nat) (f : sender_session -> sender_session) (w : world) :
  (forall sd, sender_at i j w = Some sd -> sender_ok sd -> sender_ok (f sd)) ->
  safe w (upd_sender i j f w).
Proof.
  intros Hf Hok i' j' sd' Hsd'.
  destruct (decide ((i, j) = (i', j'))) as [[= <- <-] | Hne].
  - rewrite sender_at_upd_sender_eq in Hsd'.
    destruct (sender_at i j w) as [sd |] eqn:Hsd; [| discriminate].
    injection Hsd' as <-. apply Hf; [reflexivity |]. apply (Hok i j). exact Hsd.
  - rewrite sender_at_upd_sender_ne in Hsd' by exact Hne. apply (Hok i' j'). exact Hsd'.
Qed.

(** An update of a session that leaves its sender half alone is safe. *)
Lemma safe_upd_session (i j : nat) (f : session -> session) (w : world) :
  (forall s, sender (f s) = sender s) -> safe w (upd_session i j f w).
Proof.
  intros Hf Hok i' j' sd' Hsd'. apply (Hok i' j'). rewrite <- Hsd'.
  unfold sender_at.
  destruct (decide ((i, j) = (i', j'))) as [[= <- <-] | Hne].
  - rewrite session_at_upd_session_eq.
    destruct (session_at i j w) as [s |]; cbn; [| reflexivity].
    symmetry. apply Hf.
  - rewrite session_at_upd_session_ne by exact Hne. reflexivity.
Qed.

(** An update of a socket that leaves its session list alone is safe. *)
Lemma safe_upd_socket (i : nat) (f : rudp_socket_list -> rudp_socket_list) (w : world) :
  (forall k, sessions_list_head (f k) = sessions_list_head k) ->
  safe w (upd_socket i f w).
Proof.
  intros Hf Hok i' j' sd' Hsd'. apply (Hok i' j'). rewrite <- Hsd'.
  unfold sender_at, session_at, socket_at, upd_socket. cbn.
  destruct (Nat.eq_dec i i') as [<- | Hne].
  - rewrite list_lookup_alter_eq.
    destruct (socket_list_head w !! i) as [k |]; cbn; [| reflexivity].
    rewrite Hf. reflexivity.
  - rewrite list_lookup_alter_ne by exact Hne. reflexivity.
Qed.

Lemma new_sender_session_ok (seqno : Z) (queue : list data) :
  sender_ok (new_sender_session seqno queue).
Proof.
  split; [repeat split |].
  unfold new_sender_session. cbn. apply left_packed_cells. auto.
Qed.

(** Appending a session whose sender half, if any, is well-formed is safe. *)
Lemma safe_append_session (i : nat) (s : session) (w : world) :
  (forall sd, sender s = Some sd -> sender_ok sd) ->
  safe w (upd_socket i
            (fun k => set_sessions_list_head (sessions_list_head k ++ [s]) k) w).
Proof.
  intros Hs Hok i' j' sd' Hsd'.
  unfold sender_at, session_at, socket_at, upd_socket in Hsd'. cbn in Hsd'.
  destruct (Nat.eq_dec i i') as [<- | Hne].
  - rewrite list_lookup_alter_eq in Hsd'.
    destruct (socket_list_head w !! i) as [k |] eqn:Hk; cbn in Hsd'; [| discriminate].
    destruct (Nat.lt_ge_cases j' (length (sessions_list_head k))) as [Hlt | Hge].
    + rewrite lookup_app_l in Hsd' by exact Hlt. apply (Hok i j').
      unfold sender_at, session_at, socket_at. rewrite Hk. exact Hsd'.
    + rewrite lookup_app_r in Hsd' by exact Hge.
      destruct (j' - length (sessions_list_head k))%nat as [| n]; cbn in Hsd'.
      * apply Hs. exact Hsd'.
      * discriminate.
  - rewrite list_lookup_alter_ne in Hsd' by exact Hne. apply (Hok i' j').
    exact Hsd'.
Qed.

(** The check a pointwise proof starts from: the sender half a command read
    is the one the world holds. *)
Lemma the_sender_done (i j : nat) (w : world) (sd : sender_session) (w' : world) :
  the_sender i j w = Done sd w' -> w' = w /\ sender_at i j w = Some sd.
Proof.
  unfold the_sender, the_session, sender_at. run.
  destruct (match socket_list_head w !! i with
            | Some k => sessions_list_head k !! j
            | None => None
            end) as [s |]; cbn; [| discriminate].
  destruct (sender s); cbn; [| discriminate].
  intros [= -> ->]. auto.
Qed.

(** A command that starts by reading the sender half at ([i], [j]) is safe
    when its continuation is, knowing which sender half was read. *)
Lemma keeps_safe_the_sender {A} (i j : nat) (f : sender_session -> M A) :
  (forall sd w, sender_at i j w = Some sd -> safe w (final (f sd w))) ->
  keeps safe (bind (the_sender i j) f).
Proof.
  intros Hf w. unfold bind.
  destruct (the_sender i j w) as [sd w' |] eqn:E.
  - apply the_sender_done in E as [-> Hsd]. apply Hf. exact Hsd.
  - pose proof (keeps_the_sender safe safe_refl safe_trans i j w) as H.
    rewrite E in H. exact H.
Qed.

Lemma remember_timeout_safe (i j : nat) (t : ptr) (p : rudp_packet) :
  keeps safe (remember_timeout i j t p).
Proof.
  unfold remember_timeout.
  destruct (type (header p) =? RUDP_SYN).
  { repeat safe_step. apply safe_upd_sender. intros sd _ Hok. exact Hok. }
  destruct (type (header p) =? RUDP_FIN).
  { repeat safe_step. apply safe_upd_sender. intros sd _ Hok. exact Hok. }
  destruct (type (header p) =? RUDP_DATA); [| apply keeps_ret, safe_refl].
  apply keeps_safe_the_sender. intros sd w Hsd.
  destruct (matching_slot (sliding_window sd) (seqno (header p))) as [index |];
    [| apply safe_refl].
  cbn. apply safe_upd_sender. intros sd' Hsd' [(H1 & H2 & H3) Hlp].
  rewrite Hsd in Hsd'. injection Hsd' as <-.
  split; [| exact Hlp]. repeat split; cbn; rewrite ?length_insert; assumption.
Qed.

Lemma send_packet_safe (is_ack : bool) (rsocket : Z) (p : rudp_packet)
  (recipient : sockaddr_in) :
  keeps safe (send_packet is_ack rsocket p recipient).
Proof.
  unfold send_packet, malloc_timeoutargs, event_timeout.
  repeat safe_step;
    try apply remember_timeout_safe;
    apply safe_same_sockets; reflexivity.
Qed.

Lemma send_ack_safe (file seqno : Z) (to : sockaddr_in) :
  keeps safe (send_ack file seqno to).
Proof. unfold send_ack. repeat safe_step. apply send_packet_safe. Qed.

Lemma safe_modify_then {A} (g : world -> world) (m : M A) (w : world) :
  safe w (g w) -> keeps safe m ->
  safe w (final (bind (modify g) (fun _ => m) w)).
Proof. intros Hg Hm. unfold bind, modify. eapply safe_trans; [exact Hg | apply Hm]. Qed.

Lemma place_packet_ok (index : nat) (p : rudp_packet) (rest : list data)
  (sd : sender_session) :
  first_unused_slot (sliding_window sd) = Some index ->
  sender_ok sd -> sender_ok (place_packet index p rest sd).
Proof.
  intros Hfirst [Hwf Hlp]. split; [apply window_arrays_place; exact Hwf |].
  cbn. apply left_packed_place; [apply Hwf | exact Hlp | exact Hfirst].
Qed.

Lemma refill_window_safe (file : Z) (from : sockaddr_in) (i j : nat)
  (queue : list data) :
  keeps safe (refill_window file from i j queue).
Proof.
  induction queue as [| d rest IH]; cbn [refill_window]; [apply keeps_ret, safe_refl |].
  apply keeps_safe_the_sender. intros sd w Hsd.
  destruct (slot (sliding_window sd) last_slot); [apply safe_refl |].
  destruct (first_unused_slot (sliding_window sd)) as [index |] eqn:Hfirst;
    [| apply safe_refl].
  change (deref (Some index)) with (@ret nat index). unfold bind at 1, ret at 1.
  apply safe_modify_then.
  - apply safe_upd_sender. intros sd' Hsd' Hok.
    rewrite Hsd in Hsd'. injection Hsd' as <-. apply place_packet_ok; assumption.
  - safe_step; [apply send_packet_safe | exact IH].
Qed.

Lemma drain_after_syn_safe (file : Z) (from : sockaddr_in) (i j : nat)
  (queue : list data) :
  forall syn_sqn, keeps safe (drain_after_syn file from i j syn_sqn queue).
Proof.
  induction queue as [| d rest IH]; intros syn_sqn; cbn [drain_after_syn];
    [apply keeps_ret, safe_refl |].
  apply keeps_safe_the_sender. intros sd w Hsd.
  destruct (slot (sliding_window sd) last_slot); [apply safe_refl |].
  destruct (first_unused_slot (sliding_window sd)) as [index |] eqn:Hfirst;
    [| apply safe_refl].
  change (deref (Some index)) with (@ret nat index). unfold bind at 1, ret at 1.
  apply safe_modify_then.
  - apply safe_upd_sender. intros sd' Hsd' Hok.
    rewrite Hsd in Hsd'. injection Hsd' as <-. apply place_packet_ok; assumption.
  - safe_step; [apply send_packet_safe | apply IH].
Qed.

Lemma send_fins_safe (file : Z) (i : nat) (js : list nat) :
  keeps safe (send_fins file i js).
Proof.
  induction js as [| j rest IH]; cbn [send_fins]; [apply keeps_ret, safe_refl |].
  repeat safe_step;
    try exact IH;
    try apply send_packet_safe;
    apply safe_upd_sender; intros sd' _ Hok; exact Hok.
Qed.

Lemma close_if_done_safe (file : Z) (from : sockaddr_in) (i : nat) :
  keeps safe (close_if_done file from i).
Proof.
  unfold close_if_done, event_fd_delete.
  repeat safe_step; apply safe_same_sockets; reflexivity.
Qed.

Lemma shift_window_ok (sd : sender_session) : sender_ok sd -> sender_ok (shift_window sd).
Proof.
  intros [Hwf Hlp]. split; [apply window_arrays_shift; exact Hwf |].
  cbn. apply left_packed_shift; [apply Hwf | exact Hlp].
Qed.

Lemma create_receiver_session_safe (i : nat) (seqno : Z) (addr : sockaddr_in) :
  keeps safe (create_receiver_session i seqno addr).
Proof.
  unfold create_receiver_session. repeat safe_step.
  apply safe_append_session. intros sd H. discriminate H.
Qed.

Lemma create_sender_session_safe (i : nat) (seqno : Z) (to : sockaddr_in)
  (queue : list data) :
  keeps safe (create_sender_session i seqno to queue).
Proof.
  unfold create_sender_session. repeat safe_step.
  apply safe_append_session. intros sd [= <-]. apply new_sender_session_ok.
Qed.

Lemma ack_for_session_safe (file : Z) (i j : nat) (rudpheader : rudp_hdr)
  (from : sockaddr_in) :
  keeps safe (ack_for_session file i j rudpheader from).
Proof.
  unfold ack_for_session, event_timeout_delete.
  repeat safe_step;
    try apply drain_after_syn_safe;
    try apply refill_window_safe;
    try apply send_fins_safe;
    try apply close_if_done_safe;
    try (apply safe_same_sockets; reflexivity);
    try (apply safe_upd_sender; intros sd' _ Hok; first [exact Hok | apply shift_window_ok, Hok]).
Qed.

Lemma data_for_session_safe (file : Z) (i j : nat) (received_packet : rudp_packet)
  (from : sockaddr_in) :
  keeps safe (data_for_session file i j received_packet from).
Proof.
  unfold data_for_session.
  repeat safe_step;
    try apply send_ack_safe;
    try (apply safe_same_sockets; reflexivity);
    apply safe_upd_session; intros s; reflexivity.
Qed.

Lemma fin_for_session_safe (file : Z) (i j : nat) (rudpheader : rudp_hdr)
  (from : sockaddr_in) :
  keeps safe (fin_for_session file i j rudpheader from).
Proof.
  unfold fin_for_session.
  repeat safe_step;
    try apply send_ack_safe;
    try apply close_if_done_safe;
    apply safe_upd_session; intros s; reflexivity.
Qed.

Lemma syn_for_session_safe (file : Z) (i j : nat) (rudpheader : rudp_hdr)
  (from : sockaddr_in) :
  keeps safe (syn_for_session file i j rudpheader from).
Proof.
  unfold syn_for_session.
  repeat safe_step;
    try apply send_ack_safe;
    apply safe_upd_session; intros s; reflexivity.
Qed.

Lemma syn_from_new_peer_safe (file : Z) (i : nat) (rudpheader : rudp_hdr)
  (from : sockaddr_in) :
  keeps safe (syn_from_new_peer file i rudpheader from).
Proof.
  unfold syn_from_new_peer.
  repeat safe_step; [apply create_receiver_session_safe | apply send_ack_safe].
Qed.

Lemma dispatch_packet_safe (file : Z) (p : rudp_packet) (from : sockaddr_in) :
  keeps safe (dispatch_packet file p from).
Proof.
  unfold dispatch_packet.
  repeat safe_step;
    first [ apply syn_from_new_peer_safe | apply syn_for_session_safe
          | apply ack_for_session_safe | apply data_for_session_safe
          | apply fin_for_session_safe ].
Qed.

Lemma first_free_slot_unused (win : list (option rudp_packet)) :
  length win = Z.to_nat RUDP_WINDOW -> first_free_slot win = first_unused_slot win.
Proof.
  intros Hlen. destruct (three_cells win Hlen) as (x & y & z & ->).
  rewrite first_unused_slot_cells. destruct x, y, z; reflexivity.
Qed.

Lemma the_session_done (i j : nat) (w : world) (s : session) (w' : world) :
  the_session i j w = Done s w' -> w' = w /\ session_at i j w = Some s.
Proof.
  unfold the_session, session_at. run.
  destruct (match socket_list_head w !! i with
            | Some k => sessions_list_head k !! j
            | None => None
            end) as [s' |]; cbn; [| discriminate].
  intros [= -> ->]. auto.
Qed.

Lemma keeps_safe_the_session {A} (i j : nat) (f : session -> M A) :
  (forall s w, session_at i j w = Some s -> safe w (final (f s w))) ->
  keeps safe (bind (the_session i j) f).
Proof.
  intros Hf w. unfold bind.
  destruct (the_session i j w) as [s w' |] eqn:E.
  - apply the_session_done in E as [-> Hs]. apply Hf. exact Hs.
  - pose proof (keeps_the_session safe safe_refl safe_trans i j w) as H.
    rewrite E in H. exact H.
Qed.

Lemma send_or_queue_safe (rsocket : Z) (i j : nat) (sd : sender_session)
  (data_item : data) (data : list byte) (len : Z) (to : sockaddr_in) (w : world) :
  sender_at i j w = Some sd ->
  safe w (final (send_or_queue rsocket i j sd data_item data len to w)).
Proof.
  intros Hsd. unfold send_or_queue.
  assert (Hq : forall b : bool,
             keeps safe (if b
                         then modify (upd_sender i j
                                (fun sd => set_data_queue (data_queue sd ++ [data_item]) sd))
                         else ret tt)).
  { intros [|]; [| apply keeps_ret, safe_refl].
    apply keeps_modify. intros w'. apply safe_upd_sender. intros sd' _ Hok. exact Hok. }
  destruct (bool_decide (snd_status sd = OPEN)
            && negb match data_queue sd with [] => false | _ :: _ => true end).
  2:{ apply (keeps_bind safe safe_trans); [apply keeps_ret, safe_refl | exact Hq]. }
  destruct (first_free_slot (sliding_window sd)) as [slot_i |] eqn:Hfree.
  2:{ apply (keeps_bind safe safe_trans); [apply keeps_ret, safe_refl | exact Hq]. }
  unfold bind at 1.
  match goal with
  | |- safe w (final (match (bind (modify ?g) ?f) w with _ => _ end)) =>
      assert (Hfirst : safe w (final (bind (modify g) f w)))
  end.
  { apply safe_modify_then.
    - apply safe_upd_sender. intros sd' Hsd' [Hwf Hlp].
      rewrite Hsd in Hsd'. injection Hsd' as <-.
      rewrite first_free_slot_unused in Hfree by apply Hwf.
      split.
      + destruct Hwf as (H1 & H2 & H3). repeat split; cbn; rewrite ?length_insert; assumption.
      + cbn. apply left_packed_place; [apply Hwf | exact Hlp | exact Hfree].
    - safe_step; [apply send_packet_safe | apply keeps_ret, safe_refl]. }
  match goal with
  | |- safe w (final (match ?m w with _ => _ end)) =>
      destruct (m w) as [b w1 | w1]; cbn in *; [| exact Hfirst]
  end.
  eapply safe_trans; [exact Hfirst | apply Hq].
Qed.

Lemma safe_then_ret {A B} (m : M A) (b : B) (w : world) :
  safe w (final (m w)) -> safe w (final (bind m (fun _ => ret b) w)).
Proof. unfold bind. destruct (m w); auto. Qed.

Lemma send_syn_safe (rsocket seqno : Z) (to : sockaddr_in) :
  keeps safe (send_syn rsocket seqno to).
Proof. unfold send_syn. repeat safe_step. apply send_packet_safe. Qed.

Lemma rand_safe : keeps safe rand.
Proof. unfold rand. repeat safe_step. apply safe_same_sockets. reflexivity. Qed.

Lemma rudp_sendto_safe (rsocket : Z) (data : list byte) (len : Z)
  (to : option sockaddr_in) :
  keeps safe (rudp_sendto rsocket data len to).
Proof.
  unfold rudp_sendto.
  destruct ((len <? 0) || (len >? RUDP_MAXPKTSIZE)); [apply keeps_ret, safe_refl |].
  destruct to as [to |]; [| apply keeps_ret, safe_refl].
  safe_step; [safe_step |]. destruct a; [safe_step |].
  safe_step; [safe_step |]. safe_step; [safe_step |].
  safe_step; [| repeat safe_step; apply send_syn_safe].
  destruct (sessions_list_head a1).
  { repeat safe_step; [apply rand_safe | apply create_sender_session_safe]. }
  destruct (seek_session to (s :: l)) as [j |].
  2:{ repeat safe_step; [apply rand_safe | apply create_sender_session_safe]. }
  apply keeps_safe_the_session. intros s' w Hs'.
  destruct (sender s') as [sd |] eqn:Hsd.
  - apply safe_then_ret. apply send_or_queue_safe.
    unfold sender_at. rewrite Hs'. exact Hsd.
  - apply (keeps_bind safe safe_trans); [apply rand_safe | intros ?].
    repeat safe_step;
      first [apply rand_safe | apply create_sender_session_safe | apply send_syn_safe].
Qed.

Lemma report_timeout_safe (i : nat) (timeargs : timeoutargs) :
  keeps safe (report_timeout i timeargs).
Proof.
  unfold report_timeout. repeat safe_step. apply safe_same_sockets. reflexivity.
Qed.

Lemma free_packet_safe (released : bool) : keeps safe (free_packet released).
Proof. unfold free_packet. repeat safe_step. Qed.

Lemma retransmit_safe (timeargs : timeoutargs) : keeps safe (retransmit timeargs).
Proof.
  unfold retransmit. safe_step; [apply send_packet_safe | apply free_packet_safe].
Qed.

Lemma timeout_for_session_safe (i j : nat) (timeargs : timeoutargs) :
  keeps safe (timeout_for_session i j timeargs).
Proof.
  unfold timeout_for_session. cbv zeta.
  apply keeps_safe_the_sender. intros sd w Hsd.
  assert (Hsent : keeps safe (bind (retransmit timeargs) (fun _ => ret true))).
  { repeat safe_step. apply retransmit_safe. }
  assert (Hgave : keeps safe (bind (report_timeout i timeargs) (fun _ => ret false))).
  { repeat safe_step. apply report_timeout_safe. }
  assert (Hcount : forall g : sender_session -> sender_session,
             (forall sd', sender_ok sd' -> sender_ok (g sd')) ->
             safe w (final (bind (modify (upd_sender i j g))
                              (fun _ => bind (retransmit timeargs)
                                          (fun _ => ret true)) w))).
  { intros g Hg. apply safe_modify_then; [| apply Hsent].
    apply safe_upd_sender. intros sd' _ Hok. apply Hg. exact Hok. }
  destruct (type (header (packet timeargs)) =? RUDP_SYN).
  { destruct (syn_retransmit_attempts sd >=? RUDP_MAXRETRANS);
      [apply Hgave | apply Hcount; intros sd' Hok; exact Hok]. }
  destruct (type (header (packet timeargs)) =? RUDP_FIN).
  { destruct (fin_retransmit_attempts sd >=? RUDP_MAXRETRANS);
      [apply Hgave | apply Hcount; intros sd' Hok; exact Hok]. }
  destruct (matching_slot (sliding_window sd) (seqno (header (packet timeargs))))
    as [index |]; [| apply safe_refl].
  change (deref (Some index)) with (@ret nat index). unfold bind at 1, ret at 1.
  destruct (nth index (retransmission_attempts sd) 0 >=? RUDP_MAXRETRANS);
    [apply Hgave |].
  apply safe_modify_then; [| apply Hsent].
  apply safe_upd_sender. intros sd' Hsd' [(H1 & H2 & H3) Hlp].
  rewrite Hsd in Hsd'. injection Hsd' as <-.
  split; [| exact Hlp]. repeat split; cbn; rewrite ?length_insert; assumption.
Qed.

Lemma timeout_callback_safe (unused : Z) (timeargs : timeoutargs) :
  keeps safe (timeout_callback unused timeargs).
Proof.
  unfold timeout_callback. repeat safe_step;
    first [apply timeout_for_session_safe | apply free_packet_safe].
Qed.

Lemma timer_expires_safe (t : ptr) : keeps safe (timer_expires t).
Proof.
  unfold timer_expires. safe_step; [safe_step |].
  destruct (List.find (fun e => Nat.eqb (fst e) t) a) as [[t' timeargs] |];
    [| apply keeps_ret, safe_refl].
  safe_step; [| apply timeout_callback_safe].
  safe_step. apply safe_same_sockets. reflexivity.
Qed.

Lemma rudp_socket_safe (sockfd : Z) : keeps safe (rudp_socket sockfd).
Proof.
  unfold rudp_socket, event_fd. repeat safe_step;
    try (apply safe_same_sockets; reflexivity).
  intros Hok i j sd Hsd. apply (Hok i j).
  unfold sender_at, session_at, socket_at in *. cbn in Hsd.
  destruct (Nat.lt_ge_cases i (length (socket_list_head w))) as [Hlt | Hge].
  - rewrite lookup_app_l in Hsd by exact Hlt. exact Hsd.
  - rewrite lookup_app_r in Hsd by exact Hge.
    destruct (i - length (socket_list_head w))%nat as [| n]; cbn in Hsd.
    + destruct j; discriminate.
    + discriminate.
Qed.

Lemma rudp_close_safe (rsocket : Z) : keeps safe (rudp_close rsocket).
Proof.
  unfold rudp_close. repeat safe_step. apply safe_upd_socket. reflexivity.
Qed.

Lemma rudp_recvfrom_handler_safe (rsocket : Z) (h : option fnptr) :
  keeps safe (rudp_recvfrom_handler rsocket h).
Proof.
  unfold rudp_recvfrom_handler. repeat safe_step. apply safe_upd_socket. reflexivity.
Qed.

Lemma rudp_event_handler_safe (rsocket : Z) (h : option fnptr) :
  keeps safe (rudp_event_handler rsocket h).
Proof.
  unfold rudp_event_handler. repeat safe_step. apply safe_upd_socket. reflexivity.
Qed.

Lemma run_call_safe (c : call) : keeps safe (run_call c).
Proof.
  destruct c; cbn [run_call].
  - apply rudp_socket_safe.
  - apply rudp_close_safe.
  - apply rudp_recvfrom_handler_safe.
  - apply rudp_event_handler_safe.
  - apply rudp_sendto_safe.
  - apply dispatch_packet_safe.
  - apply timer_expires_safe.
Qed.

(** In every world a process passes through, the per-slot arrays of every
    sender half are full size and every window is left-packed. *)
Lemma reachable_windows_ok (w : world) : reachable w -> windows_ok w.
Proof.
  induction 1 as [rs | w c r w' Hreach IH Hrun].
  - intros i j sd Hsd. destruct i; discriminate Hsd.
  - pose proof (run_call_safe c w IH) as H. rewrite Hrun in H. exact H.
Qed.

Lemma reachable_run_calls (cs : list call) :
  forall w w', reachable w -> run_calls cs w = Some w' -> reachable w'.
Proof.
  induction cs as [| c rest IH]; intros w w' Hw Hrun; cbn in Hrun.
  - injection Hrun as <-. exact Hw.
  - destruct (run_call c w) as [r w1 |] eqn:E; [| discriminate].
    apply (IH w1 w'); [| exact Hrun]. apply (reachable_next w c r w1 Hw E).
Qed.

(** C6.  In a world the process can be in, after any packet is dispatched
    (in particular after every ACK an OPEN sender half processes, with its
    shift and refill), every sender half has a left-packed window: no index
    [n] has [window[n]] empty and [window[n+1]] occupied. *)
Theorem window_left_packed_after_ack
  (w : world) (file : Z) (p : rudp_packet) (from : sockaddr_in)
  (i j : nat) (sd : sender_session) :
  reachable w ->
  type (header p) = RUDP_ACK ->
  sender_at i j (final (dispatch_packet file p from w)) = Some sd ->
  ~ exists n q, slot (sliding_window sd) n = None /\
                slot (sliding_window sd) (S n) = Some q.
Proof.
  intros Hreach _ Hsd (n & q & Hn & Hq).
  pose proof (dispatch_packet_safe file p from w (reachable_windows_ok w Hreach)) as Hok.
  destruct (Hok i j sd Hsd) as [_ Hlp].
  rewrite (Hlp n Hn) in Hq. discriminate.
Qed.

Lemma sender_world_reachable : reachable sender_world.
Proof.
  apply (reachable_run_calls sender_calls (initial_world (fun n => 1000 + Z.of_nat n))).
  - apply reachable_start.
  - vm_compute. reflexivity.
Qed.

Lemma window_left_packed_after_ack_witness :
  ~ exists n q,
      slot (sliding_window
              (refill_sender (next_alloc sender_world)
                 (data_queue (routed_sender 3 host_B sender_world))
                 (shift_window (routed_sender 3 host_B sender_world)))) n = None /\
      slot (sliding_window
              (refill_sender (next_alloc sender_world)
                 (data_queue (routed_sender 3 host_B sender_world))
                 (shift_window (routed_sender 3 host_B sender_world)))) (S n) = Some q.
Proof.
  apply (window_left_packed_after_ack sender_world 3 ack_1002 host_B 0 0).
  - exact sender_world_reachable.
  - reflexivity.
  - vm_compute. reflexivity.
Defined.

(** ** Every occupied slot has its timer *)

Lemma timers_kept_refl (w : world) : timers_kept w w.
Proof. intros i j sd Hsd. left. exists sd. auto. Qed.

Lemma timers_kept_trans (w1 w2 w3 : world) :
  timers_kept w1 w2 -> timers_kept w2 w3 -> timers_kept w1 w3.
Proof.
  intros H12 H23 i j sd3 H3.
  destruct (H23 i j sd3 H3) as [(sd2 & H2 & Hw & Ht) | Hnew]; [| right; exact Hnew].
  destruct (H12 i j sd2 H2) as [(sd1 & H1 & Hw' & Ht') | Hnew].
  - left. exists sd1. split; [exact H1 |]. split; [congruence | auto].
  - right. intros n. rewrite Hw. apply Hnew.
Qed.

Lemma timers_kept_ok (w w' : world) : timers_kept w w' -> timers_ok w -> timers_ok w'.
Proof.
  intros Hk Hok i j sd' Hsd' n Hocc.
  destruct (Hk i j sd' Hsd') as [(sd & Hsd & Hw & Ht) | Hnew].
  - apply Ht. apply (Hok i j sd Hsd). rewrite <- Hw. exact Hocc.
  - exfalso. apply Hocc. apply Hnew.
Qed.

Ltac timers_step := keeps_step timers_kept_refl timers_kept_trans.

Lemma timers_kept_same_sockets (w w' : world) :
  socket_list_head w' = socket_list_head w -> timers_kept w w'.
Proof.
  intros Hs i j sd Hsd. left. exists sd.
  rewrite <- Hsd. split; [apply sender_at_same_sockets; symmetry; exact Hs | auto].
Qed.

Lemma timers_kept_upd_sender (i j : nat) (f : sender_session -> sender_session)
  (w : world) :
  (forall sd, sender_at i j w = Some sd ->
     sliding_window (f sd) = sliding_window sd /\
     forall n, slot (data_timeout_arg sd) n <> None ->
               slot (data_timeout_arg (f sd)) n <> None) ->
  timers_kept w (upd_sender i j f w).
Proof.
  intros Hf i' j' sd' Hsd'. left.
  destruct (decide ((i, j) = (i', j'))) as [[= <- <-] | Hne].
  - rewrite sender_at_upd_sender_eq in Hsd'.
    destruct (sender_at i j w) as [sd |] eqn:Hsd; [| discriminate].
    injection Hsd' as <-. exists sd. split; [reflexivity |]. apply Hf. reflexivity.
  - rewrite sender_at_upd_sender_ne in Hsd' by exact Hne. exists sd'. auto.
Qed.

Lemma timers_kept_upd_session (i j : nat) (f : session -> session) (w : world) :
  (forall s, sender (f s) = sender s) -> timers_kept w (upd_session i j f w).
Proof.
  intros Hf i' j' sd' Hsd'. left. exists sd'. split; [| auto].
  rewrite <- Hsd'. unfold sender_at.
  destruct (decide ((i, j) = (i', j'))) as [[= <- <-] | Hne].
  - rewrite session_at_upd_session_eq.
    destruct (session_at i j w) as [s |]; cbn; [| reflexivity].
    symmetry. apply Hf.
  - rewrite session_at_upd_session_ne by exact Hne. reflexivity.
Qed.

Lemma timers_kept_upd_socket (i : nat) (f : rudp_socket_list -> rudp_socket_list)
  (w : world) :
  (forall k, sessions_list_head (f k) = sessions_list_head k) ->
  timers_kept w (upd_socket i f w).
Proof.
  intros Hf i' j' sd' Hsd'. left. exists sd'. split; [| auto].
  rewrite <- Hsd'. unfold sender_at, session_at, socket_at, upd_socket. cbn.
  destruct (Nat.eq_dec i i') as [<- | Hne].
  - rewrite list_lookup_alter_eq.
    destruct (socket_list_head w !! i) as [k |]; cbn; [| reflexivity].
    rewrite Hf. reflexivity.
  - rewrite list_lookup_alter_ne by exact Hne. reflexivity.
Qed.

Lemma timers_kept_append_session (i : nat) (s : session) (w : world) :
  (forall sd, sender s = Some sd -> forall n, slot (sliding_window sd) n = None) ->
  timers_kept w (upd_socket i
                   (fun k => set_sessions_list_head (sessions_list_head k ++ [s]) k) w).
Proof.
  intros Hs i' j' sd' Hsd'.
  unfold sender_at, session_at, socket_at, upd_socket in Hsd'. cbn in Hsd'.
  destruct (Nat.eq_dec i i') as [<- | Hne].
  - rewrite list_lookup_alter_eq in Hsd'.
    destruct (socket_list_head w !! i) as [k |] eqn:Hk; cbn in Hsd'; [| discriminate].
    destruct (Nat.lt_ge_cases j' (length (sessions_list_head k))) as [Hlt | Hge].
    + rewrite lookup_app_l in Hsd' by exact Hlt. left. exists sd'. split; [| auto].
      unfold sender_at, session_at, socket_at. rewrite Hk. exact Hsd'.
    + rewrite lookup_app_r in Hsd' by exact Hge.
      destruct (j' - length (sessions_list_head k))%nat as [| n]; cbn in Hsd'.
      * right. apply Hs. exact Hsd'.
      * discriminate.
  - rewrite list_lookup_alter_ne in Hsd' by exact Hne. left. exists sd'. auto.
Qed.

(** A command that starts by reading the sender half at ([i], [j]) keeps a
    relation when its continuation does, knowing which sender half was
    read. *)
Lemma keeps_known_the_sender {A} (R : world -> world -> Prop) (i j : nat)
  (f : sender_session -> M A) :
  (forall w, R w w) ->
  (forall sd w, sender_at i j w = Some sd -> R w (final (f sd w))) ->
  keeps R (bind (the_sender i j) f).
Proof.
  intros Hrefl Hf w. unfold bind.
  destruct (the_sender i j w) as [sd w' | w'] eqn:E.
  - apply the_sender_done in E as [-> Hsd]. apply Hf. exact Hsd.
  - assert (w' = w) as ->; [| apply Hrefl].
    revert E. unfold the_sender, the_session, bind, gets, deref, ret, fault.
    destruct (session_at i j w) as [s |]; [destruct (sender s) |]; intros [= <-]; reflexivity.
Qed.

Lemma slot_insert_some {A} (a : list (option A)) (index n : nat) (x : A) :
  slot a n <> None -> slot (<[index := Some x]> a) n <> None.
Proof.
  unfold slot. intros H. destruct (Nat.eq_dec index n) as [<- | Hne].
  - rewrite nth_lookup. destruct (Nat.lt_ge_cases index (length a)) as [Hlt | Hge].
    + rewrite list_lookup_insert_eq by exact Hlt. discriminate.
    + rewrite list_insert_ge by exact Hge. rewrite <- nth_lookup. exact H.
  - rewrite nth_insert_ne by exact Hne. exact H.
Qed.

Lemma remember_timeout_timers_kept (i j : nat) (t : ptr) (p : rudp_packet) :
  keeps timers_kept (remember_timeout i j t p).
Proof.
  unfold remember_timeout.
  destruct (type (header p) =? RUDP_SYN).
  { repeat timers_step. apply timers_kept_upd_sender. intros sd _. auto. }
  destruct (type (header p) =? RUDP_FIN).
  { repeat timers_step. apply timers_kept_upd_sender. intros sd _. auto. }
  destruct (type (header p) =? RUDP_DATA); [| apply keeps_ret, timers_kept_refl].
  apply keeps_known_the_sender; [apply timers_kept_refl |]. intros sd w Hsd.
  destruct (matching_slot (sliding_window sd) (seqno (header p))) as [index |];
    [| apply timers_kept_refl].
  cbn. apply timers_kept_upd_sender. intros sd' Hsd'.
  rewrite Hsd in Hsd'. injection Hsd' as <-. split; [reflexivity |].
  intros n Hn. cbn. apply slot_insert_some. exact Hn.
Qed.

Lemma send_packet_timers_kept (is_ack : bool) (rsocket : Z) (p : rudp_packet)
  (recipient : sockaddr_in) :
  keeps timers_kept (send_packet is_ack rsocket p recipient).
Proof.
  unfold send_packet, malloc_timeoutargs, event_timeout.
  repeat timers_step;
    try apply remember_timeout_timers_kept;
    apply timers_kept_same_sockets; reflexivity.
Qed.

Lemma send_ack_timers_kept (file seqno : Z) (to : sockaddr_in) :
  keeps timers_kept (send_ack file seqno to).
Proof. unfold send_ack. repeat timers_step. apply send_packet_timers_kept. Qed.

Lemma send_fins_timers_kept (file : Z) (i : nat) (js : list nat) :
  keeps timers_kept (send_fins file i js).
Proof.
  induction js as [| j rest IH]; cbn [send_fins]; [apply keeps_ret, timers_kept_refl |].
  repeat timers_step;
    try exact IH;
    try apply send_packet_timers_kept;
    apply timers_kept_upd_sender; intros sd' _; auto.
Qed.

Lemma close_if_done_timers_kept (file : Z) (from : sockaddr_in) (i : nat) :
  keeps timers_kept (close_if_done file from i).
Proof.
  unfold close_if_done, event_fd_delete.
  repeat timers_step; apply timers_kept_same_sockets; reflexivity.
Qed.

Lemma create_receiver_session_timers_kept (i : nat) (seqno : Z) (addr : sockaddr_in) :
  keeps timers_kept (create_receiver_session i seqno addr).
Proof.
  unfold create_receiver_session. repeat timers_step.
  apply timers_kept_append_session. intros sd H. discriminate H.
Qed.

Lemma create_sender_session_timers_kept (i : nat) (seqno : Z) (to : sockaddr_in)
  (queue : list data) :
  keeps timers_kept (create_sender_session i seqno to queue).
Proof.
  unfold create_sender_session. repeat timers_step.
  apply timers_kept_append_session. intros sd [= <-] n.
  destruct n as [| [| [| n]]]; cbn; try reflexivity. destruct n; reflexivity.
Qed.

Lemma data_for_session_timers_kept (file : Z) (i j : nat) (received_packet : rudp_packet)
  (from : sockaddr_in) :
  keeps timers_kept (data_for_session file i j received_packet from).
Proof.
  unfold data_for_session.
  repeat timers_step;
    try apply send_ack_timers_kept;
    try (apply timers_kept_same_sockets; reflexivity);
    apply timers_kept_upd_session; intros s; reflexivity.
Qed.

Lemma fin_for_session_timers_kept (file : Z) (i j : nat) (rudpheader : rudp_hdr)
  (from : sockaddr_in) :
  keeps timers_kept (fin_for_session file i j rudpheader from).
Proof.
  unfold fin_for_session.
  repeat timers_step;
    try apply send_ack_timers_kept;
    try apply close_if_done_timers_kept;
    apply timers_kept_upd_session; intros s; reflexivity.
Qed.

Lemma syn_for_session_timers_kept (file : Z) (i j : nat) (rudpheader : rudp_hdr)
  (from : sockaddr_in) :
  keeps timers_kept (syn_for_session file i j rudpheader from).
Proof.
  unfold syn_for_session.
  repeat timers_step;
    try apply send_ack_timers_kept;
    apply timers_kept_upd_session; intros s; reflexivity.
Qed.

Lemma syn_from_new_peer_timers_kept (file : Z) (i : nat) (rudpheader : rudp_hdr)
  (from : sockaddr_in) :
  keeps timers_kept (syn_from_new_peer file i rudpheader from).
Proof.
  unfold syn_from_new_peer.
  repeat timers_step; [apply create_receiver_session_timers_kept | apply send_ack_timers_kept].
Qed.

Lemma timeout_callback_timers_kept (unused : Z) (timeargs : timeoutargs) :
  keeps timers_kept (timeout_callback unused timeargs).
Proof.
  unfold timeout_callback, timeout_for_session, report_timeout, retransmit,
    free_packet.
  repeat timers_step;
    try apply send_packet_timers_kept;
    try (apply timers_kept_same_sockets; reflexivity);
    apply timers_kept_upd_sender; intros sd' _; auto.
Qed.

Lemma timer_expires_timers_kept (t : ptr) : keeps timers_kept (timer_expires t).
Proof.
  unfold timer_expires. timers_step; [timers_step |].
  destruct (List.find (fun e => Nat.eqb (fst e) t) a) as [[t' timeargs] |];
    [| apply keeps_ret, timers_kept_refl].
  timers_step; [| apply timeout_callback_timers_kept].
  timers_step. apply timers_kept_same_sockets. reflexivity.
Qed.

Lemma rudp_socket_timers_kept (sockfd : Z) : keeps timers_kept (rudp_socket sockfd).
Proof.
  unfold rudp_socket, event_fd. repeat timers_step;
    try (apply timers_kept_same_sockets; reflexivity).
  intros i j sd Hsd. left. exists sd. split; [| auto].
  unfold sender_at, session_at, socket_at in *. cbn in Hsd.
  destruct (Nat.lt_ge_cases i (length (socket_list_head w))) as [Hlt | Hge].
  - rewrite lookup_app_l in Hsd by exact Hlt. exact Hsd.
  - rewrite lookup_app_r in Hsd by exact Hge.
    destruct (i - length (socket_list_head w))%nat as [| n]; cbn in Hsd.
    + destruct j; discriminate.
    + discriminate.
Qed.

Lemma rudp_close_timers_kept (rsocket : Z) : keeps timers_kept (rudp_close rsocket).
Proof.
  unfold rudp_close. repeat timers_step. apply timers_kept_upd_socket. reflexivity.
Qed.

Lemma rudp_recvfrom_handler_timers_kept (rsocket : Z) (h : option fnptr) :
  keeps timers_kept (rudp_recvfrom_handler rsocket h).
Proof.
  unfold rudp_recvfrom_handler. repeat timers_step.
  apply timers_kept_upd_socket. reflexivity.
Qed.

Lemma rudp_event_handler_timers_kept (rsocket : Z) (h : option fnptr) :
  keeps timers_kept (rudp_event_handler rsocket h).
Proof.
  unfold rudp_event_handler. repeat timers_step.
  apply timers_kept_upd_socket. reflexivity.
Qed.

Lemma send_syn_timers_kept (rsocket seqno : Z) (to : sockaddr_in) :
  keeps timers_kept (send_syn rsocket seqno to).
Proof. unfold send_syn. repeat timers_step. apply send_packet_timers_kept. Qed.

Lemma rand_timers_kept : keeps timers_kept rand.
Proof. unfold rand. repeat timers_step. apply timers_kept_same_sockets. reflexivity. Qed.

(** *** Runs that complete *)

Lemma bind_done {A B} (m : M A) (f : A -> M B) (w : world) (b : B) (w' : world) :
  bind m f w = Done b w' -> exists a w1, m w = Done a w1 /\ f a w1 = Done b w'.
Proof. unfold bind. destruct (m w) as [a w1 | w1]; [eauto | discriminate]. Qed.

Lemma timers_kept_done {A} (m : M A) (w : world) (a : A) (w' : world) :
  keeps timers_kept m -> m w = Done a w' -> timers_ok w -> timers_ok w'.
Proof. intros K E. specialize (K w). rewrite E in K. apply timers_kept_ok. exact K. Qed.

Lemma safe_done {A} (m : M A) (w : world) (a : A) (w' : world) :
  keeps safe m -> m w = Done a w' -> windows_ok w -> windows_ok w'.
Proof. intros K E. specialize (K w). rewrite E in K. exact K. Qed.

Lemma keeps_timers_of_kept {A} (m : M A) : keeps timers_kept m -> keeps_timers m.
Proof. intros K w a w' _ Ht E. exact (timers_kept_done m w a w' K E Ht). Qed.

(** *** The sender half after a shift, and after a packet is placed and sent *)

Lemma timers_set_shift (sd : sender_session) :
  window_arrays sd -> timers_set sd -> timers_set (shift_window sd).
Proof.
  intros (H1 & _ & H3) Ht.
  destruct (three_cells _ H1) as (x & y & z & E1).
  destruct (three_cells _ H3) as (a & b & c & E3).
  unfold timers_set in *. unfold shift_window.
  cbn [sliding_window data_timeout_arg set_data_timeout_arg set_retransmission_attempts set_sliding_window].
  rewrite E1, E3 in *.
  rewrite !shift_left_cells.
  intros [| [| [| n]]] H; cbn in *.
  - apply (Ht 1%nat). exact H.
  - apply (Ht 2%nat). exact H.
  - exfalso. apply H. reflexivity.
  - exfalso. apply H. destruct n; reflexivity.
Qed.

Lemma matching_slot_first_unused (win : list (option rudp_packet)) (index : nat)
  (p : rudp_packet) :
  length win = Z.to_nat RUDP_WINDOW ->
  left_packed win ->
  first_unused_slot win = Some index ->
  matching_slot (<[index := Some p]> win) (seqno (header p)) = Some index.
Proof.
  intros Hlen Hlp Hfirst. destruct (three_cells win Hlen) as (x & y & z & ->).
  rewrite first_unused_slot_cells in Hfirst.
  apply left_packed_cells in Hlp as [L0 L1].
  unfold matching_slot, window_slots. change (Z.to_nat RUDP_WINDOW) with 3%nat.
  destruct x as [x |]; [destruct y as [y |]; [destruct z as [z |] |] |];
    try discriminate Hfirst; injection Hfirst as <-;
    repeat (match goal with
            | L : None = None -> _ |- _ => specialize (L eq_refl); subst
            end);
    cbn; rewrite Z.eqb_refl;
    repeat (match goal with
            | |- context [if ?b then _ else _] => destruct b
            end); reflexivity.
Qed.

Lemma timers_set_placed (t : ptr) (datap : rudp_packet) (index : nat)
  (sd sd1 : sender_session) :
  sender_ok sd -> timers_set sd ->
  first_unused_slot (sliding_window sd) = Some index ->
  type (header datap) = RUDP_DATA ->
  sliding_window sd1 = <[index := Some datap]> (sliding_window sd) ->
  data_timeout_arg sd1 = data_timeout_arg sd ->
  timers_set (remember_in t datap sd1).
Proof.
  intros [(H1 & _ & H3) Hlp] Ht Hfirst Hty Hwin Htim.
  pose proof (matching_slot_first_unused _ index datap H1 Hlp Hfirst) as Hm.
  destruct (first_unused_slot_bound _ _ Hfirst) as [Hidx _].
  intros n. destruct (remember_in_keeps t datap sd1) as (-> & _).
  unfold remember_in. rewrite Hty. cbn. rewrite Hwin, Hm. cbn. rewrite Htim.
  unfold slot. destruct (Nat.eq_dec index n) as [<- | Hne].
  - intros _. rewrite nth_lookup, list_lookup_insert_eq by (rewrite H3; exact Hidx).
    discriminate.
  - rewrite !nth_insert_ne by exact Hne. apply Ht.
Qed.

Lemma sender_ok_placed (t : ptr) (datap : rudp_packet) (index : nat)
  (rest : list data) (sd : sender_session) :
  sender_ok sd ->
  first_unused_slot (sliding_window sd) = Some index ->
  sender_ok (remember_in t datap (place_packet index datap rest sd)).
Proof.
  intros Hok Hfirst.
  pose proof (place_packet_ok index datap rest sd Hfirst Hok) as [Hwf Hlp].
  split; [apply window_arrays_remember; exact Hwf |].
  destruct (remember_in_keeps t datap (place_packet index datap rest sd)) as (-> & _).
  exact Hlp.
Qed.

Lemma refill_sender_timers (queue : list data) :
  forall (t : ptr) (sd : sender_session),
    sender_ok sd -> timers_set sd -> timers_set (refill_sender t queue sd).
Proof.
  induction queue as [| d rest IH]; intros t sd Hok Ht; [exact Ht |].
  cbn [refill_sender].
  destruct (slot (sliding_window sd) last_slot); [exact Ht |].
  destruct (first_unused_slot (sliding_window sd)) as [index |] eqn:Hfirst; [| exact Ht].
  cbv zeta. apply IH.
  - apply sender_ok_placed; assumption.
  - apply (timers_set_placed t _ index sd); try assumption; reflexivity.
Qed.

Lemma sender_at_after_send_ne (rsocket : Z) (p : rudp_packet) (recipient : sockaddr_in)
  (i j i' j' : nat) (w : world) :
  (i, j) <> (i', j') ->
  sender_at i' j' (after_send rsocket p recipient i j w) = sender_at i' j' w.
Proof.
  intros Hne.
  rewrite <- (sender_at_upd_sender_ne i j i' j' (remember_in (next_alloc w) p) w Hne).
  apply sender_at_same_sockets. reflexivity.
Qed.

Lemma sender_at_refill_world_ne (file : Z) (from : sockaddr_in) (i j i' j' : nat)
  (queue : list data) :
  (i, j) <> (i', j') ->
  forall w, sender_at i' j' (refill_world file from i j queue w) = sender_at i' j' w.
Proof.
  intros Hne. induction queue as [| d rest IH]; intros w; [reflexivity |].
  cbn [refill_world].
  destruct (sender_at i j w) as [sd |]; [| reflexivity].
  destruct (slot (sliding_window sd) last_slot); [reflexivity |].
  destruct (first_unused_slot (sliding_window sd)) as [index |]; [| reflexivity].
  cbv zeta. rewrite IH, sender_at_after_send_ne by exact Hne.
  apply sender_at_upd_sender_ne. exact Hne.
Qed.

(** The refill loop leaves every occupied slot with its timer. *)
Lemma refill_world_timers (file : Z) (from : sockaddr_in) (i j : nat)
  (queue : list data) (w : world) :
  windows_ok w -> timers_ok w -> timers_ok (refill_world file from i j queue w).
Proof.
  intros Hok Ht i' j' sd' Hsd'.
  destruct (decide ((i, j) = (i', j'))) as [[= <- <-] | Hne].
  - destruct (sender_at i j w) as [sd |] eqn:Hsd.
    + rewrite (sender_at_refill_world file from i j queue w sd Hsd) in Hsd'.
      injection Hsd' as <-.
      apply refill_sender_timers; [apply (Hok i j) | apply (Ht i j)]; exact Hsd.
    + destruct queue as [| d rest]; cbn [refill_world] in Hsd';
        rewrite ?Hsd in Hsd'; discriminate.
  - rewrite sender_at_refill_world_ne in Hsd' by exact Hne. apply (Ht i' j'). exact Hsd'.
Qed.

Lemma windows_ok_upd_sender (i j : nat) (f : sender_session -> sender_session)
  (w : world) :
  (forall sd, sender_ok sd -> sender_ok (f sd)) ->
  windows_ok w -> windows_ok (upd_sender i j f w).
Proof. intros Hf. apply safe_upd_sender. intros sd _. apply Hf. Qed.

Lemma timers_ok_upd_sender (i j : nat) (f : sender_session -> sender_session)
  (w : world) :
  (forall sd, sender_ok sd -> timers_set sd -> timers_set (f sd)) ->
  windows_ok w -> timers_ok w -> timers_ok (upd_sender i j f w).
Proof.
  intros Hf Hok Ht i' j' sd' Hsd'.
  destruct (decide ((i, j) = (i', j'))) as [[= <- <-] | Hne].
  - rewrite sender_at_upd_sender_eq in Hsd'.
    destruct (sender_at i j w) as [sd |] eqn:Hsd; [| discriminate].
    injection Hsd' as <-. apply Hf; [apply (Hok i j) | apply (Ht i j)]; exact Hsd.
  - rewrite sender_at_upd_sender_ne in Hsd' by exact Hne. apply (Ht i' j'). exact Hsd'.
Qed.

(** *** The refill loop of a SYN acknowledgement *)

Lemma drain_after_syn_runs (file : Z) (from : sockaddr_in) (queue : list data) :
  forall (w : world) (i j : nat) (k : rudp_socket_list) (s : session)
         (sd : sender_session),
    route file from w = Some (i, j, k, s) ->
    sender s = Some sd ->
    window_arrays sd ->
    drain_after_syn file from i j (snd_seqno sd) queue w
    = Done tt (refill_world file from i j queue w).
Proof.
  induction queue as [| d rest IH]; intros w i j k s sd Hr Hsd Hwf; [reflexivity |].
  pose proof (route_sender_at _ _ _ _ _ _ _ Hr) as Hat. rewrite Hsd in Hat.
  pose proof (route_session_at _ _ _ _ _ _ _ Hr) as Hsess.
  cbn [drain_after_syn refill_world]. rewrite Hat.
  unfold bind at 1. unfold the_sender, the_session, bind, gets, deref, ret.
  rewrite Hsess, Hsd.
  destruct (slot (sliding_window sd) last_slot) as [q |] eqn:Elast; [reflexivity |].
  destruct (first_unused_slot (sliding_window sd)) as [index |] eqn:Efirst.
  2:{ exfalso. destruct Hwf as (Hlen & _).
      destruct (three_cells _ Hlen) as (x & y & z & E). rewrite E in *.
      rewrite first_unused_slot_cells in Efirst.
      change (slot [x; y; z] last_slot) with z in Elast. subst z.
      destruct x, y; discriminate. }
  cbv zeta. unfold modify at 1.
  fold (next_data_packet (snd_seqno sd) d).
  set (datap := next_data_packet (snd_seqno sd) d).
  set (w1 := upd_sender i j (place_packet index datap rest) w).
  pose proof (route_upd_sender file from w i j k s (place_packet index datap rest) Hr)
    as Hr1. fold w1 in Hr1.
  assert (Hsd1 : sender (set_sender (place_packet index datap rest <$> sender s) s)
                 = Some (place_packet index datap rest sd)).
  { cbn. rewrite Hsd. reflexivity. }
  assert (Hwf1 : window_arrays (place_packet index datap rest sd))
    by (apply window_arrays_place; exact Hwf).
  assert (Hcan : can_remember datap (place_packet index datap rest sd)).
  { intros _. cbn. apply matching_slot_placed; [apply Hwf |].
    apply (first_unused_slot_bound _ _ Efirst). }
  rewrite (send_packet_with_timer file datap from w1 i j _ _ _ Hr1 Hsd1 Hcan).
  pose proof (route_after_send file from w1 i j _ _ file datap from Hr1) as Hr2.
  assert (Hseq : snd_seqno (remember_in (next_alloc w1) datap
                              (place_packet index datap rest sd))
                 = u32 (snd_seqno sd + 1)).
  { destruct (remember_in_keeps (next_alloc w1) datap (place_packet index datap rest sd))
      as (_ & _ & _ & _ & _ & _ & H & _).
    rewrite H. reflexivity. }
  rewrite <- Hseq.
  apply (IH _ i j _ _ _ Hr2).
  - cbn. rewrite Hsd. reflexivity.
  - apply window_arrays_remember. exact Hwf1.
Qed.

(** *** The commands that fill a slot *)

Lemma route_cancel_timeout (file : Z) (peer : sockaddr_in) (t : ptr) (w : world) :
  route file peer (cancel_timeout t w) = route file peer w.
Proof. apply route_same_sockets. reflexivity. Qed.

Lemma ack_for_session_timers (file : Z) (i j : nat) (rudpheader : rudp_hdr)
  (from : sockaddr_in) (w : world) (k : rudp_socket_list) (s : session)
  (a : unit) (w' : world) :
  route file from w = Some (i, j, k, s) ->
  windows_ok w -> timers_ok w ->
  ack_for_session file i j rudpheader from w = Done a w' ->
  timers_ok w'.
Proof.
  intros Hr Hok Ht Hdone.
  unfold ack_for_session in Hdone. cbv zeta in Hdone.
  apply bind_done in Hdone as (sd & w0 & Hread & Hdone).
  apply the_sender_done in Hread as [-> Hat].
  pose proof (route_sender_at _ _ _ _ _ _ _ Hr) as Hsd. rewrite Hat in Hsd.
  symmetry in Hsd.
  destruct (Hok i j sd Hat) as [Hwf Hlp].
  assert (Hstep : forall (t : ptr) (f : sender_session -> sender_session),
             (forall sd', sender_ok sd' -> sender_ok (f sd')) ->
             (forall sd', sender_ok sd' -> timers_set sd' -> timers_set (f sd')) ->
             let w1 := upd_sender i j f (cancel_timeout t w) in
             windows_ok w1 /\ timers_ok w1 /\
             route file from w1
             = Some (i, j,
                     set_sessions_list_head
                       (alter (fun s => set_sender (f <$> sender s) s)
                          j (sessions_list_head k)) k,
                     set_sender (f <$> sender s) s)).
  { intros t f Hf1 Hf2 w1.
    assert (Hok0 : windows_ok (cancel_timeout t w))
      by (apply (safe_same_sockets w); [reflexivity | exact Hok]).
    assert (Ht0 : timers_ok (cancel_timeout t w))
      by (apply (timers_kept_ok w); [apply timers_kept_same_sockets; reflexivity | exact Ht]).
    split; [apply windows_ok_upd_sender; assumption |].
    split; [apply timers_ok_upd_sender; assumption |].
    apply route_upd_sender. rewrite route_cancel_timeout. exact Hr. }
  destruct (snd_status sd).
  - (* SYN_SENT *)
    destruct (u32 (seqno rudpheader - 1) =? snd_seqno sd);
      [| injection Hdone as _ <-; exact Ht].
    destruct (syn_timeout_arg sd) as [t |]; [| discriminate Hdone].
    destruct (Hstep t (set_snd_status OPEN)) as (Hok1 & Ht1 & Hr1);
      [intros sd' H; exact H | intros sd' _ H; exact H |].
    apply bind_done in Hdone as ([] & w1 & H1 & Hdone). injection H1 as <-.
    apply bind_done in Hdone as (t' & w2 & H2 & Hdone). injection H2 as <- <-.
    apply bind_done in Hdone as ([] & w3 & H3 & Hdone). injection H3 as <-.
    fold (cancel_timeout t w) in Hdone.
    change (snd_seqno sd) with (snd_seqno (set_snd_status OPEN sd)) in Hdone.
    rewrite (drain_after_syn_runs file from (data_queue sd) _ i j _ _
               (set_snd_status OPEN sd) Hr1) in Hdone.
    + injection Hdone as _ <-. apply refill_world_timers; assumption.
    + cbn. rewrite Hsd. reflexivity.
    + exact Hwf.
  - (* OPENING *)
    injection Hdone as _ <-. exact Ht.
  - (* OPEN *)
    destruct (slot (sliding_window sd) 0) as [head |];
      [| injection Hdone as _ <-; exact Ht].
    destruct (seqno (header head) =? u32 (seqno rudpheader - 1));
      [| injection Hdone as _ <-; exact Ht].
    destruct (slot (data_timeout_arg sd) 0) as [t0 |]; [| discriminate Hdone].
    destruct (Hstep t0 shift_window) as (Hok1 & Ht1 & Hr1).
    { apply shift_window_ok. }
    { intros sd' [Hwf' _]. apply timers_set_shift. exact Hwf'. }
    apply bind_done in Hdone as ([] & w1 & H1 & Hdone). injection H1 as <-.
    apply bind_done in Hdone as (t' & w2 & H2 & Hdone). injection H2 as <- <-.
    apply bind_done in Hdone as ([] & w3 & H3 & Hdone). injection H3 as <-.
    apply bind_done in Hdone as ([] & w4 & H4 & Hdone).
    fold (cancel_timeout t0 w) in H4.
    rewrite (refill_window_runs file from (data_queue sd) _ i j _ _
               (shift_window sd) Hr1) in H4.
    + injection H4 as <-.
      refine (timers_kept_done _ _ _ _ _ Hdone _).
      * repeat timers_step. apply send_fins_timers_kept.
      * apply refill_world_timers; assumption.
    + cbn. rewrite Hsd. reflexivity.
    + apply window_arrays_shift. exact Hwf.
  - (* FIN_SENT *)
    refine (timers_kept_done _ _ _ _ _ Hdone Ht).
    unfold event_timeout_delete.
    repeat timers_step;
      try apply close_if_done_timers_kept;
      try (apply timers_kept_same_sockets; reflexivity);
      apply timers_kept_upd_sender; intros sd' _; auto.
Qed.

Lemma route_found (file : Z) (peer : sockaddr_in) (w : world) (i j : nat)
  (k : rudp_socket_list) :
  seek_socket file (socket_list_head w) = Some i ->
  socket_at i w = Some k ->
  seek_session peer (sessions_list_head k) = Some j ->
  exists s, route file peer w = Some (i, j, k, s).
Proof.
  intros Hi Hk Hj. destruct (seek_session_Some _ _ _ Hj) as (s & Hs & _).
  exists s. unfold route. rewrite Hi, Hk, Hj, Hs. reflexivity.
Qed.

Lemma the_socket_done (i : nat) (w : world) (k : rudp_socket_list) (w' : world) :
  the_socket i w = Done k w' -> w' = w /\ socket_at i w = Some k.
Proof.
  unfold the_socket, socket_at. run.
  destruct (socket_list_head w !! i) as [k' |]; cbn; [| discriminate].
  intros [= -> ->]. auto.
Qed.

Lemma dispatch_packet_timers (file : Z) (p : rudp_packet) (from : sockaddr_in) :
  keeps_timers (dispatch_packet file p from).
Proof.
  intros w a w' Hok Ht Hdone.
  destruct (type (header p) =? RUDP_ACK) eqn:Hack.
  2:{ refine (timers_kept_done _ _ _ _ _ Hdone Ht).
      unfold dispatch_packet. cbv zeta. rewrite Hack.
      repeat timers_step;
        first [ apply syn_from_new_peer_timers_kept | apply syn_for_session_timers_kept
              | apply data_for_session_timers_kept | apply fin_for_session_timers_kept ]. }
  assert (Hsyn : (type (header p) =? RUDP_SYN) = false).
  { apply Z.eqb_eq in Hack. rewrite Hack. reflexivity. }
  unfold dispatch_packet in Hdone. cbv zeta in Hdone. rewrite Hack, Hsyn in Hdone.
  apply bind_done in Hdone as (sl & w0 & H0 & Hdone). injection H0 as <- <-.
  destruct (socket_list_head w) as [| k0 rest] eqn:Hl;
    [injection Hdone as _ <-; exact Ht |].
  apply bind_done in Hdone as (i & w0 & H0 & Hdone).
  destruct (seek_socket file (k0 :: rest)) as [i' |] eqn:Hi; [| discriminate H0].
  injection H0 as <- <-.
  apply bind_done in Hdone as (k & w0 & H0 & Hdone).
  apply the_socket_done in H0 as [-> Hk].
  apply bind_done in Hdone as ([] & w1 & H1 & Hdone). injection Hdone as _ <-.
  destruct (sessions_list_head k) as [| s0 ss] eqn:Hss;
    [injection H1 as <-; exact Ht |].
  destruct (seek_session from (s0 :: ss)) as [j |] eqn:Hj;
    [| injection H1 as <-; exact Ht].
  apply bind_done in H1 as ([] & w0 & H0 & H1). injection H0 as <-.
  destruct (route_found file from w i' j k) as (s & Hr);
    [rewrite Hl; exact Hi | exact Hk | rewrite Hss; exact Hj |].
  exact (ack_for_session_timers file i' j (header p) from w k s tt w1 Hr Hok Ht H1).
Qed.

Lemma send_or_queue_timers (rsocket : Z) (i j : nat) (sd : sender_session)
  (data_item : data) (data : list byte) (len : Z) (to : sockaddr_in)
  (w : world) (k : rudp_socket_list) (s : session) (a : unit) (w' : world) :
  route rsocket to w = Some (i, j, k, s) ->
  sender s = Some sd ->
  windows_ok w -> timers_ok w ->
  send_or_queue rsocket i j sd data_item data len to w = Done a w' ->
  timers_ok w'.
Proof.
  intros Hr Hsd Hok Ht Hdone.
  pose proof (route_sender_at _ _ _ _ _ _ _ Hr) as Hat. rewrite Hsd in Hat.
  destruct (Hok i j sd Hat) as [Hwf Hlp]. pose proof (Ht i j sd Hat) as Hts.
  unfold send_or_queue in Hdone. cbv zeta in Hdone.
  apply bind_done in Hdone as (b & w1 & H1 & Hdone).
  assert (Hq : timers_ok w1 -> timers_ok w').
  { refine (timers_kept_done _ _ _ _ _ Hdone).
    destruct b; [| apply keeps_ret, timers_kept_refl].
    apply keeps_modify. intros w2. apply timers_kept_upd_sender. intros sd' _. auto. }
  apply Hq. clear Hq Hdone.
  destruct (bool_decide (snd_status sd = OPEN)
            && negb match data_queue sd with [] => false | _ :: _ => true end);
    [| injection H1 as _ <-; exact Ht].
  destruct (first_free_slot (sliding_window sd)) as [slot_i |] eqn:Hfree;
    [| injection H1 as _ <-; exact Ht].
  rewrite first_free_slot_unused in Hfree by apply Hwf.
  apply bind_done in H1 as ([] & w2 & H2 & H1). injection H2 as <-.
  apply bind_done in H1 as (z & w3 & H3 & H1). injection H1 as _ <-.
  set (datap := create_rudp_packet RUDP_DATA (u32 (snd_seqno sd + 1)) len (Some data)) in *.
  set (g := fun sd0 : sender_session =>
              set_retransmission_attempts (<[slot_i := 0]> (retransmission_attempts sd0))
                (set_sliding_window (<[slot_i := Some datap]> (sliding_window sd0))
                   (set_snd_seqno (u32 (snd_seqno sd + 1)) sd0))) in *.
  pose proof (route_upd_sender rsocket to w i j k s g Hr) as Hr1.
  rewrite (send_packet_with_timer rsocket datap to _ i j _ _ (g sd) Hr1) in H3.
  - injection H3 as _ <-.
    intros i' j' sd' Hsd'.
    destruct (decide ((i, j) = (i', j'))) as [[= <- <-] | Hne].
    + rewrite sender_at_after_send, sender_at_upd_sender_eq, Hat in Hsd'.
      injection Hsd' as <-.
      apply (timers_set_placed _ datap slot_i sd); try assumption; try reflexivity.
      split; assumption.
    + rewrite sender_at_after_send_ne, sender_at_upd_sender_ne in Hsd' by exact Hne.
      apply (Ht i' j'). exact Hsd'.
  - cbn. rewrite Hsd. reflexivity.
  - intros _. cbn. apply matching_slot_placed; [apply Hwf |].
    apply (first_unused_slot_bound _ _ Hfree).
Qed.

Lemma rudp_sendto_timers (rsocket : Z) (data : list byte) (len : Z)
  (to : option sockaddr_in) :
  keeps_timers (rudp_sendto rsocket data len to).
Proof.
  intros w a w' Hok Ht Hdone. unfold rudp_sendto in Hdone.
  destruct ((len <? 0) || (len >? RUDP_MAXPKTSIZE)); [injection Hdone as _ <-; exact Ht |].
  destruct to as [to |]; [| injection Hdone as _ <-; exact Ht].
  apply bind_done in Hdone as (sl & w0 & H0 & Hdone). injection H0 as <- <-.
  destruct (socket_list_head w) as [| k0 rest] eqn:Hl;
    [injection Hdone as _ <-; exact Ht |].
  apply bind_done in Hdone as (i & w0 & H0 & Hdone).
  destruct (seek_socket rsocket (k0 :: rest)) as [i' |] eqn:Hi; [| discriminate H0].
  injection H0 as <- <-.
  apply bind_done in Hdone as (k & w0 & H0 & Hdone).
  apply the_socket_done in H0 as [-> Hk]. cbv zeta in Hdone.
  apply bind_done in Hdone as (created & w1 & H1 & Hdone).
  assert (Hq : timers_ok w1 -> timers_ok w').
  { refine (timers_kept_done _ _ _ _ _ Hdone).
    repeat timers_step. apply send_syn_timers_kept. }
  apply Hq. clear Hq Hdone.
  assert (Hnew : forall (q : bool) (w0 w2 : world) (c : bool * Z),
             timers_ok w0 ->
             (r <- rand ;;
              create_sender_session i' (u32 r) to
                [{| item := firstn (Z.to_nat len) data; len := len |}] ;;
              ret (q, u32 r)) w0 = Done c w2 ->
             timers_ok w2).
  { intros q w0 w2 c Ht0 H. refine (timers_kept_done _ _ _ _ _ H Ht0).
    repeat timers_step; [apply rand_timers_kept | apply create_sender_session_timers_kept]. }
  destruct (sessions_list_head k) as [| s0 ss] eqn:Hss;
    [exact (Hnew true w w1 created Ht H1) |].
  destruct (seek_session to (s0 :: ss)) as [j |] eqn:Hj;
    [| exact (Hnew true w w1 created Ht H1)].
  apply bind_done in H1 as (s & w0 & H0 & H1).
  apply the_session_done in H0 as [-> Hs].
  destruct (sender s) as [sd |] eqn:Hsd.
  - apply bind_done in H1 as ([] & w2 & H2 & H1). injection H1 as _ <-.
    destruct (route_found rsocket to w i' j k) as (s' & Hr);
      [rewrite Hl; exact Hi | exact Hk | rewrite Hss; exact Hj |].
    pose proof (route_session_at _ _ _ _ _ _ _ Hr) as Hs'.
    rewrite Hs in Hs'. injection Hs' as <-.
    exact (send_or_queue_timers rsocket i' j sd _ data len to w k s tt w2
             Hr Hsd Hok Ht H2).
  - refine (timers_kept_done _ _ _ _ _ H1 Ht).
    repeat timers_step;
      first [ apply rand_timers_kept | apply create_sender_session_timers_kept
            | apply send_syn_timers_kept ].
Qed.

Lemma run_call_timers (c : call) : keeps_timers (run_call c).
Proof.
  destruct c; cbn [run_call].
  - apply keeps_timers_of_kept, rudp_socket_timers_kept.
  - apply keeps_timers_of_kept, rudp_close_timers_kept.
  - apply keeps_timers_of_kept, rudp_recvfrom_handler_timers_kept.
  - apply keeps_timers_of_kept, rudp_event_handler_timers_kept.
  - apply rudp_sendto_timers.
  - apply dispatch_packet_timers.
  - apply keeps_timers_of_kept, timer_expires_timers_kept.
Qed.

(** In every world a process passes through, every occupied window slot has
    its timer argument set. *)
Lemma reachable_timers_ok (w : world) : reachable w -> timers_ok w.
Proof.
  induction 1 as [rs | w c r w' Hreach IH Hrun].
  - intros i j sd Hsd. destruct i; discriminate Hsd.
  - exact (run_call_timers c w r w' (reachable_windows_ok w Hreach) IH Hrun).
Qed.

(** ** The sender half: acknowledgements of DATA in a running process *)

(** ** The refill loop, round by round *)

Lemma refill_world_effects (file : Z) (from : sockaddr_in) (i j : nat)
  (queue : list data) :
  forall (w : world) (sd : sender_session),
    sender_at i j w = Some sd ->
    trace (refill_world file from i j queue w)
    = trace w ++ map (fun p => Sendto file p from)
                   (refill_packets (next_alloc w) queue sd) /\
    timeouts (refill_world file from i j queue w)
    = timeouts w ++ timers_from (next_alloc w) file from
                      (refill_packets (next_alloc w) queue sd).
Proof.
  induction queue as [| d rest IH]; intros w sd Hsd.
  - cbn. rewrite !app_nil_r. auto.
  - cbn [refill_world refill_packets]. rewrite Hsd.
    destruct (slot (sliding_window sd) last_slot); [cbn; rewrite !app_nil_r; auto |].
    destruct (first_unused_slot (sliding_window sd)) as [index |];
      [| cbn; rewrite !app_nil_r; auto].
    cbv zeta.
    set (datap := next_data_packet (snd_seqno sd) d).
    set (w2 := after_send file datap from i j
                 (upd_sender i j (place_packet index datap rest) w)).
    assert (Hsd2 : sender_at i j w2
                   = Some (remember_in (next_alloc w) datap
                             (place_packet index datap rest sd))).
    { unfold w2. rewrite sender_at_after_send, sender_at_upd_sender_eq, Hsd. reflexivity. }
    destruct (IH w2 _ Hsd2) as [Htr Hto].
    change (next_alloc w2) with (S (next_alloc w)) in Htr, Hto.
    rewrite Htr, Hto. unfold timers_from. cbn. rewrite <- !app_assoc. auto.
Qed.

(** What [send_packet] records for a DATA packet that was just put into the
    first unused slot: its timer argument, in that slot. *)
Lemma remember_placed (t : ptr) (datap : rudp_packet) (index : nat) (rest : list data)
  (sd : sender_session) :
  sender_ok sd ->
  first_unused_slot (sliding_window sd) = Some index ->
  type (header datap) = RUDP_DATA ->
  remember_in t datap (place_packet index datap rest sd)
  = set_data_timeout_arg (<[index := Some t]> (data_timeout_arg sd))
      (place_packet index datap rest sd).
Proof.
  intros [Hwf Hlp] Hfirst Hty. unfold remember_in. rewrite Hty. cbn.
  rewrite (matching_slot_first_unused _ index datap (proj1 Hwf) Hlp Hfirst). reflexivity.
Qed.

Lemma refill_round (t : ptr) (d : data) (rest : list data) (sd : sender_session)
  (index : nat) :
  sender_ok sd ->
  slot (sliding_window sd) last_slot = None ->
  first_unused_slot (sliding_window sd) = Some index ->
  refill_sender t (d :: rest) sd
  = refill_sender (S t) rest
      (set_data_timeout_arg (<[index := Some t]> (data_timeout_arg sd))
         (place_packet index (next_data_packet (snd_seqno sd) d) rest sd)) /\
  refill_packets t (d :: rest) sd
  = next_data_packet (snd_seqno sd) d
    :: refill_packets (S t) rest
         (set_data_timeout_arg (<[index := Some t]> (data_timeout_arg sd))
            (place_packet index (next_data_packet (snd_seqno sd) d) rest sd)).
Proof.
  intros Hok Hlast Hfirst. cbn [refill_sender refill_packets]. rewrite Hlast, Hfirst.
  cbv zeta. rewrite remember_placed by (assumption || reflexivity). auto.
Qed.

Lemma refill_halt (t : ptr) (queue : list data) (sd : sender_session) (q : rudp_packet) :
  slot (sliding_window sd) last_slot = Some q ->
  refill_sender t queue sd = sd /\ refill_packets t queue sd = [].
Proof.
  intros Hlast. destruct queue; cbn [refill_sender refill_packets]; [auto |].
  rewrite Hlast. auto.
Qed.

Lemma sender_ok_cells (st : rudp_state_t) (s : Z) (x y z : option rudp_packet)
  (a b c : Z) (q : list data) (f : bool) (ts tf : option ptr) (tx ty tz : option ptr)
  (sc fc : Z) :
  (x = None -> y = None) -> (y = None -> z = None) ->
  sender_ok (mk_sender st s [x; y; z] [a; b; c] q f ts tf [tx; ty; tz] sc fc).
Proof.
  intros L0 L1. split; [repeat split |]. apply left_packed_cells. auto.
Qed.

(** One round of the loop on a sender half whose arrays are written out:
    the first unused slot is slot 0, 1 or 2. *)
Lemma refill_slot_0 (t : ptr) (d : data) (rest : list data) (st : rudp_state_t) (s : Z)
  (a b c : Z) (dq : list data) (fin : bool) (ts tf tx ty tz : option ptr) (sc fc : Z) :
  refill_sender t (d :: rest)
    (mk_sender st s [None; None; None] [a; b; c] dq fin ts tf [tx; ty; tz] sc fc)
  = refill_sender (S t) rest
      (mk_sender st (u32 (s + 1)) [Some (next_data_packet s d); None; None] [0; b; c]
         rest fin ts tf [Some t; ty; tz] sc fc) /\
  refill_packets t (d :: rest)
    (mk_sender st s [None; None; None] [a; b; c] dq fin ts tf [tx; ty; tz] sc fc)
  = next_data_packet s d
    :: refill_packets (S t) rest
         (mk_sender st (u32 (s + 1)) [Some (next_data_packet s d); None; None] [0; b; c]
            rest fin ts tf [Some t; ty; tz] sc fc).
Proof.
  apply (refill_round t d rest
           (mk_sender st s [None; None; None] [a; b; c] dq fin ts tf [tx; ty; tz] sc fc)
           0%nat); [apply sender_ok_cells; auto | reflexivity | reflexivity].
Qed.

Lemma refill_slot_1 (t : ptr) (d : data) (rest : list data) (st : rudp_state_t) (s : Z)
  (p : rudp_packet) (a b c : Z) (dq : list data) (fin : bool)
  (ts tf tx ty tz : option ptr) (sc fc : Z) :
  refill_sender t (d :: rest)
    (mk_sender st s [Some p; None; None] [a; b; c] dq fin ts tf [tx; ty; tz] sc fc)
  = refill_sender (S t) rest
      (mk_sender st (u32 (s + 1)) [Some p; Some (next_data_packet s d); None] [a; 0; c]
         rest fin ts tf [tx; Some t; tz] sc fc) /\
  refill_packets t (d :: rest)
    (mk_sender st s [Some p; None; None] [a; b; c] dq fin ts tf [tx; ty; tz] sc fc)
  = next_data_packet s d
    :: refill_packets (S t) rest
         (mk_sender st (u32 (s + 1)) [Some p; Some (next_data_packet s d); None] [a; 0; c]
            rest fin ts tf [tx; Some t; tz] sc fc).
Proof.
  apply (refill_round t d rest
           (mk_sender st s [Some p; None; None] [a; b; c] dq fin ts tf [tx; ty; tz] sc fc)
           1%nat); [apply sender_ok_cells; intros; (discriminate || reflexivity)
                   | reflexivity | reflexivity].
Qed.

Lemma refill_slot_2 (t : ptr) (d : data) (rest : list data) (st : rudp_state_t) (s : Z)
  (p q : rudp_packet) (a b c : Z) (dq : list data) (fin : bool)
  (ts tf tx ty tz : option ptr) (sc fc : Z) :
  refill_sender t (d :: rest)
    (mk_sender st s [Some p; Some q; None] [a; b; c] dq fin ts tf [tx; ty; tz] sc fc)
  = refill_sender (S t) rest
      (mk_sender st (u32 (s + 1)) [Some p; Some q; Some (next_data_packet s d)] [a; b; 0]
         rest fin ts tf [tx; ty; Some t] sc fc) /\
  refill_packets t (d :: rest)
    (mk_sender st s [Some p; Some q; None] [a; b; c] dq fin ts tf [tx; ty; tz] sc fc)
  = next_data_packet s d
    :: refill_packets (S t) rest
         (mk_sender st (u32 (s + 1)) [Some p; Some q; Some (next_data_packet s d)] [a; b; 0]
            rest fin ts tf [tx; ty; Some t] sc fc).
Proof.
  apply (refill_round t d rest
           (mk_sender st s [Some p; Some q; None] [a; b; c] dq fin ts tf [tx; ty; tz] sc fc)
           2%nat); [apply sender_ok_cells; intros; (discriminate || reflexivity)
                   | reflexivity | reflexivity].
Qed.

(** The loop on a full window. *)
Lemma refill_full (t : ptr) (queue : list data) (st : rudp_state_t) (s : Z)
  (p q r : rudp_packet) (wa : list Z) (dq : list data) (fin : bool)
  (ts tf : option ptr) (ta : list (option ptr)) (sc fc : Z) :
  refill_sender t queue
    (mk_sender st s [Some p; Some q; Some r] wa dq fin ts tf ta sc fc)
  = mk_sender st s [Some p; Some q; Some r] wa dq fin ts tf ta sc fc /\
  refill_packets t queue
    (mk_sender st s [Some p; Some q; Some r] wa dq fin ts tf ta sc fc) = [].
Proof. apply (refill_halt t queue _ r). reflexivity. Qed.

Ltac refill_rounds :=
  repeat first
    [ rewrite (proj1 (refill_slot_0 _ _ _ _ _ _ _ _ _ _ _ _ _ _ _ _ _))
    | rewrite (proj2 (refill_slot_0 _ _ _ _ _ _ _ _ _ _ _ _ _ _ _ _ _))
    | rewrite (proj1 (refill_slot_1 _ _ _ _ _ _ _ _ _ _ _ _ _ _ _ _ _ _))
    | rewrite (proj2 (refill_slot_1 _ _ _ _ _ _ _ _ _ _ _ _ _ _ _ _ _ _))
    | rewrite (proj1 (refill_slot_2 _ _ _ _ _ _ _ _ _ _ _ _ _ _ _ _ _ _ _))
    | rewrite (proj2 (refill_slot_2 _ _ _ _ _ _ _ _ _ _ _ _ _ _ _ _ _ _ _))
    | rewrite (proj1 (refill_full _ _ _ _ _ _ _ _ _ _ _ _ _ _ _))
    | rewrite (proj2 (refill_full _ _ _ _ _ _ _ _ _ _ _ _ _ _ _)) ];
  cbn [refill_sender refill_packets].

Ltac cells_done :=
  rewrite ?firstn_O;
  cbn [numbered length map app repeat Nat.sub List.last];
  repeat match goal with |- _ /\ _ => split end;
  try reflexivity;
  intros [| [| [| m]]] Hn; cbn in Hn; try lia;
  rewrite ?Nat.add_0_r, ?Nat.add_1_r;
  repeat match goal with
         | |- context [(?t + 2)%nat] => replace (t + 2)%nat with (S (S t)) by lia
         end;
  split; reflexivity.

Lemma refilled_behind_two (t : ptr) (st : rudp_state_t) (s : Z)
  (head p1 p2 : rudp_packet) (a b c : Z) (dq : list data) (fin : bool)
  (ts tf tx ty tz : option ptr) (sc fc : Z) :
  refilled_as_claimed t
    (mk_sender st s [Some head; Some p1; Some p2] [a; b; c] dq fin ts tf [tx; ty; tz] sc fc)
    (refill_sender t dq
       (mk_sender st s [Some p1; Some p2; None] [b; c; 0] dq fin ts tf [ty; tz; None] sc fc))
    (refill_packets t dq
       (mk_sender st s [Some p1; Some p2; None] [b; c; 0] dq fin ts tf [ty; tz; None] sc fc)).
Proof.
  unfold refilled_as_claimed, from_queue, behind_head.
  change (Z.to_nat RUDP_WINDOW) with 3%nat.
  cbn [sliding_window retransmission_attempts data_timeout_arg data_queue snd_seqno
       snd_status tl].
  destruct dq as [| d1 rest];
    cbn [omap list_omap id length firstn numbered app map Nat.sub repeat skipn List.last];
    refill_rounds; cells_done.
Qed.

Lemma refilled_behind_one (t : ptr) (st : rudp_state_t) (s : Z)
  (head p1 : rudp_packet) (a b c : Z) (dq : list data) (fin : bool)
  (ts tf tx ty tz : option ptr) (sc fc : Z) :
  refilled_as_claimed t
    (mk_sender st s [Some head; Some p1; None] [a; b; c] dq fin ts tf [tx; ty; tz] sc fc)
    (refill_sender t dq
       (mk_sender st s [Some p1; None; None] [b; c; 0] dq fin ts tf [ty; tz; None] sc fc))
    (refill_packets t dq
       (mk_sender st s [Some p1; None; None] [b; c; 0] dq fin ts tf [ty; tz; None] sc fc)).
Proof.
  unfold refilled_as_claimed, from_queue, behind_head.
  change (Z.to_nat RUDP_WINDOW) with 3%nat.
  cbn [sliding_window retransmission_attempts data_timeout_arg data_queue snd_seqno
       snd_status tl].
  destruct dq as [| d1 [| d2 rest]];
    cbn [omap list_omap id length firstn numbered app map Nat.sub repeat skipn List.last];
    refill_rounds; cells_done.
Qed.

Lemma refilled_behind_none (t : ptr) (st : rudp_state_t) (s : Z)
  (head : rudp_packet) (a b c : Z) (dq : list data) (fin : bool)
  (ts tf tx ty tz : option ptr) (sc fc : Z) :
  refilled_as_claimed t
    (mk_sender st s [Some head; None; None] [a; b; c] dq fin ts tf [tx; ty; tz] sc fc)
    (refill_sender t dq
       (mk_sender st s [None; None; None] [b; c; 0] dq fin ts tf [ty; tz; None] sc fc))
    (refill_packets t dq
       (mk_sender st s [None; None; None] [b; c; 0] dq fin ts tf [ty; tz; None] sc fc)).
Proof.
  unfold refilled_as_claimed, from_queue, behind_head.
  change (Z.to_nat RUDP_WINDOW) with 3%nat.
  cbn [sliding_window retransmission_attempts data_timeout_arg data_queue snd_seqno
       snd_status tl].
  destruct dq as [| d1 [| d2 [| d3 rest]]];
    cbn [omap list_omap id length firstn numbered app map Nat.sub repeat skipn List.last];
    refill_rounds; cells_done.
Qed.

(** After a correct acknowledgement, for a sender half whose arrays are full
    size and whose window is left-packed with [head] in slot 0. *)
Lemma shifted_and_refilled (t : ptr) (sd : sender_session) (head : rudp_packet) :
  sender_ok sd ->
  slot (sliding_window sd) 0 = Some head ->
  sliding_window sd
  = Some head :: map Some (behind_head sd)
    ++ repeat None (Z.to_nat RUDP_WINDOW - 1 - length (behind_head sd)) /\
  refilled_as_claimed t sd
    (refill_sender t (data_queue sd) (shift_window sd))
    (refill_packets t (data_queue sd) (shift_window sd)).
Proof.
  intros [(H1 & H2 & H3) Hlp] Hhead.
  destruct (three_cells _ H1) as (x & y & z & E1).
  destruct (three_cells _ H2) as (a & b & c & E2).
  destruct (three_cells _ H3) as (tx & ty & tz & E3).
  destruct sd as [st s win ra dq fin ts tf ta sc fc]. cbn in E1, E2, E3. subst win ra ta.
  cbn in Hhead. subst x. apply left_packed_cells in Hlp as [_ L1].
  destruct y as [p1 |]; [destruct z as [p2 |] |].
  - split; [reflexivity | apply refilled_behind_two].
  - split; [reflexivity | apply refilled_behind_one].
  - specialize (L1 eq_refl). subst z.
    split; [reflexivity | apply refilled_behind_none].
Qed.


(** C2.  In a world the process can be in, a sender half in state OPEN has
    [head] in slot 0 of its window and an ACK arrives.  If the ACK's
    sequence number is not [head]'s plus 1, nothing changes: window, retry
    counters and timers stay as they are.  If it is, slot 0 has a timer
    [t0], and afterwards: [head] is gone from the window, which holds the
    packets that were behind it, each one slot further down with its retry
    counter and its timer argument, and behind them the packets made of the
    first queued datagrams, as many as there is room for, numbered on from
    the session's number, each with retry counter 0 and a timer argument of
    its own; the slots after those are empty.  Without a pending close
    request the call returns 0 and that is the whole effect: the timer [t0]
    is cancelled, the new packets are sent and their timers registered in
    that order, the datagrams they were made of are off the queue, the
    session's number is that of the last packet made, and no other sender
    half is touched. *)
Theorem data_ack_shifts_window_iff_head_plus_one
  (file : Z) (from : sockaddr_in) (w : world) (p : rudp_packet)
  (i j : nat) (k : rudp_socket_list) (s : session) (sd : sender_session)
  (head : rudp_packet) :
  reachable w ->
  route file from w = Some (i, j, k, s) ->
  sender s = Some sd ->
  snd_status sd = OPEN ->
  slot (sliding_window sd) 0 = Some head ->
  type (header p) = RUDP_ACK ->
  0 <= seqno (header head) < 2 ^ 32 ->
  0 <= seqno (header p) < 2 ^ 32 ->
  (seqno (header p) <> u32 (seqno (header head) + 1) ->
   dispatch_packet file p from w = Done 0 w) /\
  (seqno (header p) = u32 (seqno (header head) + 1) ->
   exists t0 att' tim',
     slot (data_timeout_arg sd) 0 = Some t0 /\
     sliding_window sd
     = Some head :: map Some (behind_head sd)
       ++ repeat None (Z.to_nat RUDP_WINDOW - 1 - length (behind_head sd)) /\
     window_at i j (final (dispatch_packet file p from w))
     = Some (map Some (behind_head sd ++ from_queue sd)
             ++ repeat None
                  (Z.to_nat RUDP_WINDOW - length (behind_head sd ++ from_queue sd)),
             att', tim') /\
     (forall n, (n < length (behind_head sd))%nat ->
        nth n att' 0 = nth (S n) (retransmission_attempts sd) 0 /\
        slot tim' n = slot (data_timeout_arg sd) (S n)) /\
     (forall n, (n < length (from_queue sd))%nat ->
        nth (length (behind_head sd) + n) att' 0 = 0 /\
        slot tim' (length (behind_head sd) + n) = Some (next_alloc w + n)%nat) /\
     (exists added,
        timeouts (final (dispatch_packet file p from w))
        = List.filter (fun e => negb (Nat.eqb (fst e) t0)) (timeouts w) ++ added) /\
     (close_requested k = false ->
      exists w' sd',
        dispatch_packet file p from w = Done 0 w' /\
        sender_at i j w' = Some sd' /\
        snd_status sd' = OPEN /\
        data_queue sd'
        = skipn (Z.to_nat RUDP_WINDOW - length (behind_head sd)) (data_queue sd) /\
        snd_seqno sd'
        = List.last (map (fun q => seqno (header q)) (from_queue sd)) (snd_seqno sd) /\
        trace w' = trace w ++ map (fun q => Sendto file q from) (from_queue sd) /\
        timeouts w'
        = List.filter (fun e => negb (Nat.eqb (fst e) t0)) (timeouts w)
          ++ timers_from (next_alloc w) file from (from_queue sd) /\
        (forall i' j', (i, j) <> (i', j') -> sender_at i' j' w' = sender_at i' j' w))).
Proof.
  intros Hreach Hr Hsd Hopen Hhead Hty Hh Ha.
  pose proof (route_sender_at _ _ _ _ _ _ _ Hr) as Hat. rewrite Hsd in Hat.
  pose proof (reachable_windows_ok w Hreach i j sd Hat) as Hok.
  pose proof (reachable_timers_ok w Hreach i j sd Hat 0%nat) as Ht0.
  destruct (data_ack_effect file from w p i j k s sd head
              Hr Hsd Hopen (proj1 Hok) Hhead Hty Hh Ha) as [Hno Hyes].
  split; [exact Hno |].
  intros Heq. destruct (slot (data_timeout_arg sd) 0) as [t0 |] eqn:E;
    [| exfalso; apply Ht0; [rewrite Hhead; discriminate | reflexivity]].
  destruct (Hyes Heq t0 eq_refl) as (Hwin & Hsender & _ & _ & Hadded & Hrun).
  destruct (shifted_and_refilled (next_alloc w) sd head Hok Hhead)
    as (Hbefore & Hsent & Hwin' & Hmoved & Hfresh & Hqueue & Hseq & Hstatus).
  set (sd2 := refill_sender (next_alloc w) (data_queue sd) (shift_window sd)) in *.
  exists t0, (retransmission_attempts sd2), (data_timeout_arg sd2).
  split; [reflexivity |]. split; [exact Hbefore |].
  split.
  { rewrite Hwin. unfold window_at. rewrite Hsender, Hwin'. reflexivity. }
  split; [exact Hmoved |]. split; [exact Hfresh |]. split; [exact Hadded |].
  intros Hclose. specialize (Hrun Hclose).
  set (w1 := upd_sender i j shift_window (cancel_timeout t0 w)).
  assert (Hat1 : sender_at i j w1 = Some (shift_window sd)).
  { unfold w1. rewrite sender_at_upd_sender_eq.
    rewrite (sender_at_same_sockets i j (cancel_timeout t0 w) w eq_refl), Hat.
    reflexivity. }
  destruct (refill_world_effects file from i j (data_queue sd) w1 _ Hat1) as [Htr Hto].
  change (next_alloc w1) with (next_alloc w) in Htr, Hto.
  rewrite Hsent in Htr, Hto.
  exists (after_data_ack file from i j sd t0 w), sd2.
  split; [exact Hrun |]. split; [exact Hsender |].
  split; [rewrite Hstatus; exact Hopen |].
  split; [exact Hqueue |]. split; [exact Hseq |].
  split; [exact Htr |]. split; [exact Hto |].
  intros i' j' Hne. unfold after_data_ack. fold w1.
  rewrite (sender_at_refill_world_ne file from i j i' j' (data_queue sd) Hne w1).
  unfold w1. rewrite sender_at_upd_sender_ne by exact Hne.
  apply sender_at_same_sockets. reflexivity.
Qed.

Lemma data_ack_shifts_window_iff_head_plus_one_witness :
  dispatch_packet 3 ack_1003 host_B sender_world = Done 0 sender_world /\
  exists att' tim' w',
    window_at 0 0 (final (dispatch_packet 3 ack_1002 host_B sender_world))
    = Some ([Some (create_rudp_packet RUDP_DATA 1002 4 (Some hello));
             Some (create_rudp_packet RUDP_DATA 1003 3 (Some hello));
             Some (create_rudp_packet RUDP_DATA 1004 2 (Some hello))], att', tim') /\
    dispatch_packet 3 ack_1002 host_B sender_world = Done 0 w' /\
    trace w'
    = trace sender_world
      ++ [Sendto 3 (create_rudp_packet RUDP_DATA 1004 2 (Some hello)) host_B].
Proof.
  split.
  - refine (proj1 (data_ack_shifts_window_iff_head_plus_one 3 host_B sender_world ack_1003
                     0 0 (routed_socket 3 host_B sender_world)
                     (routed_session 3 host_B sender_world)
                     (routed_sender 3 host_B sender_world)
                     (create_rudp_packet RUDP_DATA 1001 5 (Some hello))
                     sender_world_reachable _ _ _ _ _ _ _) _);
      try (vm_compute; reflexivity); try (vm_compute; repeat split; discriminate).
  - destruct (proj2 (data_ack_shifts_window_iff_head_plus_one 3 host_B sender_world ack_1002
                       0 0 (routed_socket 3 host_B sender_world)
                       (routed_session 3 host_B sender_world)
                       (routed_sender 3 host_B sender_world)
                       (create_rudp_packet RUDP_DATA 1001 5 (Some hello))
                       sender_world_reachable
                       ltac:(vm_compute; reflexivity) ltac:(vm_compute; reflexivity)
                       ltac:(vm_compute; reflexivity) ltac:(vm_compute; reflexivity)
                       ltac:(vm_compute; reflexivity)
                       ltac:(vm_compute; repeat split; discriminate)
                       ltac:(vm_compute; repeat split; discriminate))
                ltac:(vm_compute; reflexivity))
      as (t0 & att' & tim' & _ & _ & Hwin & _ & _ & _ & Hrun).
    destruct (Hrun ltac:(vm_compute; reflexivity))
      as (w' & sd' & Hdone & _ & _ & _ & _ & Htr & _).
    exists att', tim', w'.
    split; [rewrite Hwin; do 2 f_equal; vm_compute; reflexivity |].
    split; [exact Hdone |].
    rewrite Htr. vm_compute. reflexivity.
Defined.

(** ** A stream of DATA packets is delivered once and in order *)

(** One DATA packet for a session with a receiver half: the run completes,
    the session stays where it is, and the data-received callback is called
    exactly when the packet is the expected one. *)
Lemma data_packet_step (file : Z) (from : sockaddr_in) (w : world) (p : rudp_packet)
  (i j : nat) (k : rudp_socket_list) (s : session) (r : receiver_session) (h : fnptr) :
  route file from w = Some (i, j, k, s) ->
  receiver s = Some r ->
  recv_handler k = Some h ->
  type (header p) = RUDP_DATA ->
  exists w' k' s',
    dispatch_packet file p from w = Done 0 w' /\
    route file from w' = Some (i, j, k', s') /\
    receiver s' = Some (receive_data (seqno (header p)) r) /\
    recv_handler k' = Some h /\
    delivered (trace w')
    = delivered (trace w)
      ++ (if seqno (header p) =? expected_seqno r then [upcall_of p] else []).
Proof.
  intros Hr Hrcv Hh Hty.
  pose proof Hr as Hr'. apply route_Some in Hr' as (Hi & Hk & Hj & Hs).
  destruct (seek_socket_nonempty _ _ _ Hi) as (k0 & rest & Hl).
  assert (Hss : exists s0 ss, sessions_list_head k = s0 :: ss).
  { destruct (sessions_list_head k); [discriminate | eauto]. }
  destruct Hss as (s0 & ss & Hss).
  assert (Hrun : dispatch_packet file p from w
                 = bind (data_for_session file i j p from) (fun _ => ret 0) w).
  { unfold dispatch_packet. run. rewrite Hl, <- Hl, Hi, Hk.
    rewrite Hss, <- Hss, Hj, Hty. reflexivity. }
  rewrite Hrun. clear Hrun.
  unfold data_for_session, receive_data. run. rewrite Hk, Hs, Hrcv. cbn.
  destruct (seqno (header p) =? expected_seqno r) eqn:Eexp.
  - set (f1 := fun s : session =>
                 set_receiver (set_rcv_status OPEN <$> receiver s) s).
    set (f2 := fun s : session =>
                 set_receiver (set_expected_seqno (u32 (seqno (header p) + 1))
                               <$> receiver s) s).
    set (ack := Sendto file (create_rudp_packet RUDP_ACK (u32 (seqno (header p) + 1)) 0 None)
                  from).
    set (up := RecvUpcall h file from (payload p) (payload_length p)).
    destruct (bool_decide (rcv_status r = OPENING)) eqn:Eop; cbn.
    + pose proof (route_upd_session file from w i j k s f1 Hr ltac:(reflexivity)) as Hr1.
      pose proof (route_upd_session file from _ i j _ _ f2 Hr1 ltac:(reflexivity)) as Hr2.
      pose proof Hr2 as Hr2'. apply route_Some in Hr2' as (_ & Hk2 & _).
      unfold upd_receiver. fold f1 f2. unfold socket_at.
      unfold upd_session at 1 2, upd_socket in Hk2. cbn in Hk2.
      rewrite Hk2. cbn. rewrite Hh. cbn.
      exists (set_trace ((trace w ++ [ack]) ++ [up])
                (set_trace (trace w ++ [ack]) (upd_session i j f2 (upd_session i j f1 w)))).
      eexists _, _. split; [reflexivity |]. split; [| split; [| split]].
      * rewrite <- Hr2. apply route_same_sockets. reflexivity.
      * unfold f2, f1. cbn. rewrite Hrcv. reflexivity.
      * cbn. exact Hh.
      * unfold delivered. cbn. rewrite !flat_map_app. cbn. rewrite !app_nil_r. reflexivity.
    + pose proof (route_upd_session file from w i j k s f2 Hr ltac:(reflexivity)) as Hr2.
      pose proof Hr2 as Hr2'. apply route_Some in Hr2' as (_ & Hk2 & _).
      unfold upd_receiver. fold f2. unfold socket_at.
      unfold upd_session at 1, upd_socket in Hk2. cbn in Hk2.
      rewrite Hk2. cbn. rewrite Hh. cbn.
      exists (set_trace ((trace w ++ [ack]) ++ [up])
                (set_trace (trace w ++ [ack]) (upd_session i j f2 w))).
      eexists _, _. split; [reflexivity |]. split; [| split; [| split]].
      * rewrite <- Hr2. apply route_same_sockets. reflexivity.
      * unfold f2. cbn. rewrite Hrcv. cbn. destruct r; reflexivity.
      * cbn. exact Hh.
      * unfold delivered. cbn. rewrite !flat_map_app. cbn. rewrite !app_nil_r. reflexivity.
  - set (ack := Sendto file (create_rudp_packet RUDP_ACK (u32 (seqno (header p) + 1)) 0 None)
                  from).
    destruct (bool_decide (rcv_status r = OPENING)); cbn;
      destruct (SEQ_GEQ (seqno (header p)) (u32 (expected_seqno r - RUDP_WINDOW))
                && SEQ_LT (seqno (header p)) (expected_seqno r)); cbn.
    1, 3: exists (set_trace (trace w ++ [ack]) w), k, s.
    3, 4: exists w, k, s.
    all: split; [reflexivity |]; split; [| split; [| split]];
      try exact Hrcv; try exact Hh;
      try (rewrite <- Hr; apply route_same_sockets; reflexivity);
      try (unfold delivered; cbn; rewrite ?flat_map_app; cbn; rewrite ?app_nil_r; reflexivity).
Qed.

Lemma expected_after_data (s : Z) (r : receiver_session) :
  expected_seqno (receive_data s r)
  = if s =? expected_seqno r then u32 (expected_seqno r + 1) else expected_seqno r.
Proof.
  unfold receive_data. destruct (Z.eqb_spec s (expected_seqno r)) as [-> | _]; reflexivity.
Qed.

(** A stream of DATA packets from one peer, duplicates and stray packets
    included, is dispatched without a fault, and the data-received callback
    gets exactly the packets that were the expected one on arrival, in
    order. *)
Lemma data_stream_delivered (file : Z) (from : sockaddr_in) (ps : list rudp_packet) :
  forall (w : world) (i j : nat) (k : rudp_socket_list) (s : session)
         (r : receiver_session) (h : fnptr),
    route file from w = Some (i, j, k, s) ->
    receiver s = Some r ->
    recv_handler k = Some h ->
    List.Forall (fun p => type (header p) = RUDP_DATA) ps ->
    exists w',
      dispatch_all file from ps w = Done tt w' /\
      delivered (trace w')
      = delivered (trace w) ++ map upcall_of (accepted (expected_seqno r) ps).
Proof.
  induction ps as [| p rest IH]; intros w i j k s r h Hr Hrcv Hh Hall.
  - exists w. split; [reflexivity |]. cbn. symmetry. apply app_nil_r.
  - inversion Hall as [| p' rest' Hp Hrest]; subst.
    destruct (data_packet_step file from w p i j k s r h Hr Hrcv Hh Hp)
      as (w1 & k1 & s1 & Hrun & Hr1 & Hrcv1 & Hh1 & Hd1).
    destruct (IH w1 i j k1 s1 _ h Hr1 Hrcv1 Hh1 Hrest) as (w' & Hrun' & Hd').
    exists w'. split.
    + cbn [dispatch_all]. unfold bind. rewrite Hrun. exact Hrun'.
    + rewrite Hd', Hd1, expected_after_data. cbn [accepted].
      destruct (seqno (header p) =? expected_seqno r); cbn.
      * rewrite <- app_assoc. reflexivity.
      * rewrite app_nil_r. reflexivity.
Qed.

(** The sequence numbers of the accepted packets are consecutive, starting
    with the expected one. *)
Lemma accepted_seqnos (ps : list rudp_packet) :
  forall e, 0 <= e < 2 ^ 32 ->
    map (fun p => seqno (header p)) (accepted e ps)
    = map (fun n => u32 (e + Z.of_nat n)) (seq 0 (length (accepted e ps))).
Proof.
  induction ps as [| p rest IH]; intros e He; [reflexivity |].
  cbn [accepted]. destruct (Z.eqb_spec (seqno (header p)) e) as [E | _]; [| apply IH, He].
  cbn [map length seq]. f_equal.
  - rewrite E. unfold u32. rewrite Z.add_0_r, Z.mod_small; lia.
  - rewrite IH by (unfold u32; apply Z.mod_pos_bound; lia).
    rewrite <- seq_shift, map_map. apply map_ext. intros n.
    unfold u32. rewrite Z.add_mod_idemp_l by lia. f_equal. lia.
Qed.

(** Hence no sequence number is delivered twice, however often a packet is
    retransmitted, as long as the stream is shorter than the sequence space. *)
Lemma accepted_seqnos_distinct (ps : list rudp_packet) (e : Z) :
  0 <= e < 2 ^ 32 ->
  Z.of_nat (length ps) < 2 ^ 32 ->
  List.NoDup (map (fun p => seqno (header p)) (accepted e ps)).
Proof.
  intros He Hlen.
  assert (Hacc : forall ps e, (length (accepted e ps) <= length ps)%nat).
  { clear. induction ps as [| p rest IH]; intros e; cbn; [lia |].
    destruct (seqno (header p) =? e); cbn; [specialize (IH (u32 (e + 1))) | specialize (IH e)]; lia. }
  rewrite accepted_seqnos by exact He.
  apply NoDup_map_NoDup_ForallPairs; [| apply seq_NoDup].
  intros n1 n2 H1 H2 Heq. apply in_seq in H1, H2. specialize (Hacc ps e).
  unfold u32 in Heq.
  assert (Hd : (e + Z.of_nat n1 - (e + Z.of_nat n2)) mod 2 ^ 32 = 0).
  { rewrite Zminus_mod, Heq, Z.sub_diag. reflexivity. }
  replace (e + Z.of_nat n1 - (e + Z.of_nat n2)) with (Z.of_nat n1 - Z.of_nat n2) in Hd by lia.
  apply Z.mod_divide in Hd; [| lia]. destruct Hd as [q Hq].
  assert (q = 0) by nia. lia.
Qed.

(** ** Supplements *)

(** Every packet [create_rudp_packet] builds from a type and a sequence
    number that fit their fields, and from a length the API accepts together
    with a buffer holding that many bytes, is well typed. *)
Lemma create_rudp_packet_well_typed (ty s n : Z) (buf : option (list byte)) :
  0 <= ty < 2 ^ 16 -> 0 <= s < 2 ^ 32 -> 0 <= n <= RUDP_MAXPKTSIZE ->
  (forall src, buf = Some src -> (Z.to_nat n <= length src)%nat) ->
  well_typed_packet (create_rudp_packet ty s n buf).
Proof.
  intros Hty Hs Hn Hbuf. unfold well_typed_packet, create_rudp_packet. cbn.
  unfold RUDP_VERSION, RUDP_MAXPKTSIZE in *. repeat split; try lia.
  destruct buf as [src |]; [| apply repeat_length].
  specialize (Hbuf src eq_refl). unfold memcpy.
  rewrite length_app, length_firstn, length_skipn, repeat_length. lia.
Qed.

Lemma seek_session_app_found (to : sockaddr_in) (l : list session) (s : session)
  (j : nat) :
  seek_session to l = Some j -> seek_session to (l ++ [s]) = Some j.
Proof.
  revert j. induction l as [| s0 l IH]; intros j H; cbn in *; [discriminate |].
  destruct (compare_sockaddr (address s0) to =? 1); [exact H |].
  destruct (seek_session to l) as [j' |]; [| discriminate].
  rewrite (IH j' eq_refl). exact H.
Qed.

(** A valid call that addresses a peer whose session has a receiver half
    only: the new sender session is appended behind the existing one, the
    SYN is sent, and the timer bookkeeping of [send_packet], which finds the
    existing session first, writes through its NULL sender pointer. *)
Lemma rudp_sendto_receiver_only (rsocket : Z) (data : list byte) (len : Z)
  (to : sockaddr_in) (w : world) (i j : nat) (k : rudp_socket_list) (s : session) :
  0 <= len <= RUDP_MAXPKTSIZE ->
  route rsocket to w = Some (i, j, k, s) ->
  sender s = None ->
  exists w',
    rudp_sendto rsocket data len (Some to) w = Fault w' /\
    trace w'
    = trace w
      ++ [Sendto rsocket
            (create_rudp_packet RUDP_SYN (u32 (rand_seq w (rand_calls w))) 0 None) to].
Proof.
  intros Hlen Hr Hsd.
  pose proof (route_session_at _ _ _ _ _ _ _ Hr) as Hsess.
  apply route_Some in Hr as (Hi & Hk & Hj & Hs).
  destruct (seek_socket_nonempty _ _ _ Hi) as (k0 & rest & Hl).
  assert (Hss : exists s0 ss, sessions_list_head k = s0 :: ss).
  { destruct (sessions_list_head k); [discriminate | eauto]. }
  destruct Hss as (s0 & ss & Hss).
  unfold rudp_sendto.
  replace ((len <? 0) || (len >? RUDP_MAXPKTSIZE)) with false
    by (symmetry; apply orb_false_intro; [apply Z.ltb_ge | rewrite Z.gtb_ltb; apply Z.ltb_ge]; lia).
  unfold bind at 1. unfold gets at 1. rewrite Hl, <- Hl.
  unfold bind at 1. rewrite Hi. unfold deref at 1, ret at 1.
  unfold bind at 1. unfold the_socket at 1, bind at 1, gets at 1, socket_at at 1.
  rewrite Hk. unfold deref at 1, ret at 1.
  rewrite Hss, <- Hss, Hj.
  unfold bind at 1 2. unfold the_session at 1, bind at 1, gets at 1. rewrite Hsess.
  unfold deref at 1, ret at 1. rewrite Hsd.
  unfold send_syn, create_sender_session, rand, send_packet, malloc_timeoutargs. run. cbn.
  rewrite Hk. cbn. rewrite seek_socket_alter by reflexivity. rewrite Hi. cbn.
  rewrite list_lookup_alter_eq, Hk. cbn.
  rewrite (seek_session_app_found to _ _ j Hj).
  unfold remember_timeout. run. cbn.
  rewrite list_lookup_alter_eq, Hk. cbn.
  rewrite lookup_app_l by (apply lookup_lt_Some in Hs; exact Hs).
  rewrite Hs. cbn. rewrite Hsd. cbn.
  eexists. split; reflexivity.
Qed.
